(** * App Store Connect MCP: the report-ingestion and revenue pipeline

    A shallow embedding of the TypeScript services

      - [FinanceService]        (src/services/finance-service.ts),
      - [SubscriptionService]   (src/services/subscription-service.ts),
      - [FinanceReportService]  (src/services/finance-report-service.ts),

    and of the JavaScript primitives they rest on, followed by the
    properties of the pipeline.

    Conventions of the embedding.

      - A JavaScript [number] is an IEEE 754 binary64 value: Rocq's
        primitive [float].  Arithmetic and comparisons are the primitive
        ones; there is one NaN, and the two zeros are distinct values.
      - A JavaScript string is a [string]: a sequence of code units, here
        restricted to the code units 0..255 (report payloads are ASCII
        tab-separated text).  Case conversion is modelled on the ASCII
        letters.
      - A plain object read by key (a parsed row) is a [gmap string string];
        a [Map] whose iteration order is observed is an insertion-ordered
        association list.
      - A function that may throw returns a [result]; [console.error] is a
        list of logged lines threaded through the orchestrators. *)

From Stdlib Require Import ZArith List String Ascii Floats Bool Lia.
From Stdlib Require Import DecimalString DecimalZ DecimalN DecimalPos.
From stdpp Require Import gmap strings.

Set Warnings "-inexact-float".
Local Open Scope string_scope.
Local Open Scope Z_scope.

(* ===================================================================== *)
(** * JavaScript primitives *)
(* ===================================================================== *)

Module JS.

(** ** Exceptions *)

(** An [Error] object: the services only ever read its [message]. *)
Record Error := mkError { message : string }.

Inductive result (A : Type) : Type :=
| Return (a : A)
| Throw (e : Error).
Arguments Return {A} a.
Arguments Throw {A} e.

Definition bind {A B} (r : result A) (k : A -> result B) : result B :=
  match r with
  | Return a => k a
  | Throw e => Throw e
  end.

Definition completes {A} (r : result A) : Prop :=
  match r with
  | Return _ => True
  | Throw _ => False
  end.

(** ** Strings *)

Definition code (c : ascii) : N := N_of_ascii c.

(** [WhiteSpace] and [LineTerminator] code units below 256: TAB, LF, VT, FF,
    CR, SPACE and NBSP.  They are what [trim] strips and what [parseFloat]
    and [parseInt] skip. *)
Definition isWhiteSpace (c : ascii) : bool :=
  let n := code c in
  ((9 <=? n) && (n <=? 13) || (n =? 32) || (n =? 160))%N.

Definition isDigit (c : ascii) : bool :=
  let n := code c in ((48 <=? n) && (n <=? 57))%N.

Definition digitValue (c : ascii) : Z := Z.of_N (code c) - 48.

(** [s.split(sep)] for a one-character separator: never an empty array. *)
Fixpoint split (sep : ascii) (s : string) : list string :=
  match s with
  | EmptyString => [EmptyString]
  | String c rest =>
      if Ascii.eqb c sep then EmptyString :: split sep rest
      else match split sep rest with
           | [] => [String c EmptyString]
           | w :: ws => String c w :: ws
           end
  end.

Fixpoint trimStart (s : string) : string :=
  match s with
  | String c rest => if isWhiteSpace c then trimStart rest else s
  | EmptyString => EmptyString
  end.

Fixpoint trimEnd (s : string) : string :=
  match s with
  | EmptyString => EmptyString
  | String c rest =>
      match trimEnd rest with
      | EmptyString => if isWhiteSpace c then EmptyString else String c EmptyString
      | rest' => String c rest'
      end
  end.

Definition trim (s : string) : string := trimEnd (trimStart s).

(** [s.startsWith(p)], as a prefix test. *)
Fixpoint startsWith (p s : string) : bool :=
  match p, s with
  | EmptyString, _ => true
  | String a p', String b s' => Ascii.eqb a b && startsWith p' s'
  | String _ _, EmptyString => false
  end.

(** [s.includes(sub)]. *)
Fixpoint includes (sub s : string) : bool :=
  startsWith sub s ||
  match s with
  | EmptyString => false
  | String _ rest => includes sub rest
  end.

Definition upperChar (c : ascii) : ascii :=
  let n := code c in
  if ((97 <=? n) && (n <=? 122))%N then ascii_of_N (n - 32) else c.

Definition lowerChar (c : ascii) : ascii :=
  let n := code c in
  if ((65 <=? n) && (n <=? 90))%N then ascii_of_N (n + 32) else c.

Fixpoint mapChars (f : ascii -> ascii) (s : string) : string :=
  match s with
  | EmptyString => EmptyString
  | String c rest => String (f c) (mapChars f rest)
  end.

Definition toUpperCase : string -> string := mapChars upperChar.
Definition toLowerCase : string -> string := mapChars lowerChar.

Fixpoint repeatChar (c : ascii) (n : nat) : string :=
  match n with
  | O => EmptyString
  | S n' => String c (repeatChar c n')
  end.

(** [s.padStart(n, c)] for a one-character filler. *)
Definition padStart (n : nat) (c : ascii) (s : string) : string :=
  String.append (repeatChar c (n - String.length s)%nat) s.

(** Truthiness of a string: the empty string is the only falsy one. *)
Definition truthyS (s : string) : bool :=
  match s with
  | EmptyString => false
  | String _ _ => true
  end.

(** Truthiness of a value that is a string or [undefined]. *)
Definition truthyO (v : option string) : bool :=
  match v with
  | Some s => truthyS s
  | None => false
  end.

(** [v || d] where [v] is a property read that may be [undefined]. *)
Definition orS (v : option string) (d : string) : string :=
  match v with
  | Some s => if truthyS s then s else d
  | None => d
  end.

(** [a || b] where both are property reads: the result may still be
    [undefined] or empty, hence an [option]. *)
Definition orElse (a b : option string) : option string :=
  match a with
  | Some s => if truthyS s then a else b
  | None => b
  end.

(** [String(n)] for an integer: the decimal numeral, with a leading minus
    sign for a negative one (numbers of magnitude below 1e21 print without
    an exponent). *)
Definition stringOfInt (n : Z) : string :=
  NilZero.string_of_int (Z.to_int n).

Definition stringOfNat (n : nat) : string := stringOfInt (Z.of_nat n).

(** [String(v)] where [v] may be [undefined]. *)
Definition stringOfOptInt (v : option Z) : string :=
  match v with
  | Some n => stringOfInt n
  | None => "undefined"
  end.

(** [JSON.stringify(s)] of a string: quoted, with the quote, the backslash
    and the control characters escaped. *)
Definition quoteChar : ascii := ascii_of_N 34.
Definition backslash : ascii := ascii_of_N 92.

Definition hexDigit (n : N) : ascii :=
  if (n <? 10)%N then ascii_of_N (48 + n) else ascii_of_N (87 + n).

Definition jsonEscape (c : ascii) : string :=
  let n := code c in
  if (n =? 34)%N then String backslash (String quoteChar EmptyString)
  else if (n =? 92)%N then String backslash (String backslash EmptyString)
  else if (n =? 8)%N then String backslash "b"
  else if (n =? 12)%N then String backslash "f"
  else if (n =? 10)%N then String backslash "n"
  else if (n =? 13)%N then String backslash "r"
  else if (n =? 9)%N then String backslash "t"
  else if (n <? 32)%N
       then String backslash
              (String.append "u00"
                 (String (hexDigit (n / 16)) (String (hexDigit (n mod 16)) EmptyString)))
  else String c EmptyString.

Fixpoint jsonEscapeAll (s : string) : string :=
  match s with
  | EmptyString => EmptyString
  | String c rest => String.append (jsonEscape c) (jsonEscapeAll rest)
  end.

Definition jsonStringifyString (s : string) : string :=
  String quoteChar (String.append (jsonEscapeAll s) (String quoteChar EmptyString)).

(** ** Numbers *)

Definition number := float.

(** Truthiness of a number: [0], [-0] and [NaN] are falsy. *)
Definition truthyN (x : number) : bool := negb (is_zero x || is_nan x).

(** [x || y] on numbers. *)
Definition orN (x y : number) : number := if truthyN x then x else y.

(** [x > y], [x < y]: false as soon as one side is NaN. *)
Definition gt (x y : number) : bool := PrimFloat.ltb y x.
Definition lt (x y : number) : bool := PrimFloat.ltb x y.

(** The binary64 value nearest to [m * 10^e] (ties to even), with the sign
    [neg]: the value of a decimal literal.  The quotient is taken with more
    than 64 significant bits and a sticky bit, then rounded once. *)
Definition ofDecimal (neg : bool) (m e : Z) : number :=
  if m <=? 0 then (if neg then neg_zero else zero)
  else
    let n := if 0 <=? e then m * 10 ^ e else m in
    let d := if 0 <=? e then 1 else 10 ^ (- e) in
    let s := Z.max 0 (Z.log2 d + 66 - Z.log2 n) in
    let q := (n * 2 ^ s) / d in
    let r := (n * 2 ^ s) mod d in
    let mant := 2 * q + (if r =? 0 then 0 else 1) in
    SF2Prim (binary_normalize prec emax (if neg then - mant else mant) (- s - 1) false).

(** A maximal run of decimal digits: its value continuing [acc], how many
    digits were read, and the rest of the string. *)
Fixpoint readDigits (s : string) (acc : Z) (count : Z) : Z * Z * string :=
  match s with
  | String c rest =>
      if isDigit c then readDigits rest (acc * 10 + digitValue c) (count + 1)
      else (acc, count, s)
  | EmptyString => (acc, count, s)
  end.

(** The optional [ExponentPart]: [e] or [E], an optional sign, and at least
    one digit; anything else is not part of the literal. *)
Definition readExponent (s : string) : Z :=
  match s with
  | String c rest =>
      if Ascii.eqb c "e" || Ascii.eqb c "E" then
        match rest with
        | String sg rest' =>
            if Ascii.eqb sg "-" then
              let '(v, k, _) := readDigits rest' 0 0 in if 0 <? k then - v else 0
            else if Ascii.eqb sg "+" then
              let '(v, k, _) := readDigits rest' 0 0 in if 0 <? k then v else 0
            else
              let '(v, k, _) := readDigits rest 0 0 in if 0 <? k then v else 0
        | EmptyString => 0
        end
      else 0
  | EmptyString => 0
  end.

(** [StrUnsignedDecimalLiteral], longest prefix: [Infinity], or digits with
    an optional fraction and exponent.  No digit at all gives NaN. *)
Definition parseUnsigned (neg : bool) (s : string) : number :=
  if startsWith "Infinity" s then (if neg then neg_infinity else infinity)
  else
    let '(ip, ni, r1) := readDigits s 0 0 in
    match r1 with
    | String "." r2 =>
        let '(m, nf, r3) := readDigits r2 ip 0 in
        if (ni =? 0) && (nf =? 0) then nan
        else ofDecimal neg m (readExponent r3 - nf)
    | _ =>
        if ni =? 0 then nan else ofDecimal neg ip (readExponent r1)
    end.

(** [parseFloat(s)]. *)
Definition parseFloat (s : string) : number :=
  match trimStart s with
  | String "-" rest => parseUnsigned true rest
  | String "+" rest => parseUnsigned false rest
  | t => parseUnsigned false t
  end.

(** [parseInt(s, 10)]: optional sign, then the longest run of digits. *)
Definition parseInt10 (s : string) : number :=
  let body neg t :=
    let '(v, k, _) := readDigits t 0 0 in
    if k =? 0 then nan else ofDecimal neg v 0 in
  match trimStart s with
  | String "-" rest => body true rest
  | String "+" rest => body false rest
  | t => body false t
  end.

(** The number an integer stands for (exact up to 2^53 in magnitude). *)
Definition ofInt (n : Z) : number := ofDecimal (n <? 0) (Z.abs n) 0.

Definition ofNat (n : nat) : number := ofInt (Z.of_nat n).

(** [Math.round(x)]: the nearest integer, a tie going towards +Infinity;
    NaN, the infinities and the integers are returned as they are, and a
    result of zero keeps the sign of [x]. *)
Definition mathRound (x : number) : number :=
  match Prim2SF x with
  | S754_finite sg m e =>
      if 0 <=? e then x
      else
        let k := - e in
        let q := Z.shiftr (Zpos m) k in
        let r := Zpos m - Z.shiftl q k in
        let half := Z.shiftl 1 (k - 1) in
        let up := if sg then half <? r else half <=? r in
        let n := if up then q + 1 else q in
        ofDecimal sg n 0
  | _ => x
  end.

(** [Math.min(...xs)] and [Math.max(...xs)]: NaN as soon as one argument is
    NaN, and [-0] counts as smaller than [+0]. *)
Definition min2 (a b : number) : number :=
  if is_nan a || is_nan b then nan
  else if PrimFloat.ltb a b then a
  else if PrimFloat.ltb b a then b
  else if get_sign a then a else b.

Definition max2 (a b : number) : number :=
  if is_nan a || is_nan b then nan
  else if PrimFloat.ltb a b then b
  else if PrimFloat.ltb b a then a
  else if get_sign a then b else a.

Definition mathMin (xs : list number) : number := fold_left min2 xs infinity.
Definition mathMax (xs : list number) : number := fold_left max2 xs neg_infinity.

(** ** Numbers and strings *)

(** [Math.abs(x)]. *)
Definition mathAbs (x : number) : number := PrimFloat.abs x.

(** The value of a digit in a radix up to 16, if it is one. *)
Definition radixDigit (radix : Z) (c : ascii) : option Z :=
  let n := code c in
  let v := if isDigit c then Some (digitValue c)
           else if ((97 <=? n) && (n <=? 102))%N then Some (Z.of_N n - 87)
           else if ((65 <=? n) && (n <=? 70))%N then Some (Z.of_N n - 55)
           else None in
  match v with
  | Some d => if d <? radix then Some d else None
  | None => None
  end.

(** A string made of digits of the radix only: its value continuing
    [acc]. *)
Fixpoint readRadix (radix : Z) (s : string) (acc : Z) : option Z :=
  match s with
  | EmptyString => Some acc
  | String c rest =>
      match radixDigit radix c with
      | Some d => readRadix radix rest (acc * radix + d)
      | None => None
      end
  end.

(** A [NonDecimalIntegerLiteral] after its prefix: at least one digit. *)
Definition nonDecimal (radix : Z) (digits : string) : number :=
  match digits with
  | EmptyString => nan
  | String _ _ =>
      match readRadix radix digits 0 with
      | Some v => ofInt v
      | None => nan
      end
  end.

(** An optional [ExponentPart] that ends the string; [None] when the rest
    of the string is anything else. *)
Definition exponentToEnd (s : string) : option Z :=
  let digitsToEnd (neg : bool) (t : string) : option Z :=
    let '(v, k, r) := readDigits t 0 0 in
    match r with
    | EmptyString => if 0 <? k then Some (if neg then - v else v) else None
    | String _ _ => None
    end in
  match s with
  | EmptyString => Some 0
  | String c rest =>
      if Ascii.eqb c "e" || Ascii.eqb c "E" then
        match rest with
        | String "-" t => digitsToEnd true t
        | String "+" t => digitsToEnd false t
        | t => digitsToEnd false t
        end
      else None
  end.

(** [StrUnsignedDecimalLiteral] matching the whole string. *)
Definition unsignedLiteral (neg : bool) (s : string) : number :=
  if String.eqb s "Infinity" then (if neg then neg_infinity else infinity)
  else
    let '(ip, ni, r1) := readDigits s 0 0 in
    match r1 with
    | String "." r2 =>
        let '(m, nf, r3) := readDigits r2 ip 0 in
        if (ni =? 0) && (nf =? 0) then nan
        else match exponentToEnd r3 with
             | Some e => ofDecimal neg m (e - nf)
             | None => nan
             end
    | _ =>
        if ni =? 0 then nan
        else match exponentToEnd r1 with
             | Some e => ofDecimal neg ip e
             | None => nan
             end
    end.

(** [Number(s)] of a string: white space around the literal is dropped, the
    empty string is [0], a hexadecimal, octal or binary literal takes no
    sign, and any text that is not one literal is NaN. *)
Definition toNumber (s : string) : number :=
  match trim s with
  | EmptyString => zero
  | String "-" rest => unsignedLiteral true rest
  | String "+" rest => unsignedLiteral false rest
  | String "0" (String c rest) as t =>
      if Ascii.eqb c "x" || Ascii.eqb c "X" then nonDecimal 16 rest
      else if Ascii.eqb c "o" || Ascii.eqb c "O" then nonDecimal 8 rest
      else if Ascii.eqb c "b" || Ascii.eqb c "B" then nonDecimal 2 rest
      else unsignedLiteral false t
  | t => unsignedLiteral false t
  end.

(** The number of decimal digits of a positive integer. *)
Definition decimalLength (n : Z) : Z := Z.of_nat (String.length (stringOfInt n)).

(** For the positive rational [num / den]: the [n] with
    [10^(n-1) <= num / den < 10^n]. *)
Definition decimalExponent (num den : Z) : Z :=
  let c := decimalLength num - decimalLength den in
  if num * 10 ^ Z.max 0 (- c) <? den * 10 ^ Z.max 0 c then c else c + 1.

(** The digits [s] and the exponent [n] of [Number::toString] for the
    positive finite [x = num / den]: the fewest digits [k], from [k] on,
    such that [s * 10^(n-k)] reads back as [x]; of the two [k]-digit
    decimals around [x] the one nearer to [x], the even one in a tie.
    Seventeen digits identify any binary64 value. *)
Fixpoint shortestDigits (fuel : nat) (x : number) (num den n k : Z) : Z * Z :=
  let p := n - k in
  let N := num * 10 ^ Z.max 0 (- p) in
  let D := den * 10 ^ Z.max 0 p in
  let lo := N / D in
  let r := N mod D in
  let hi := lo + 1 in
  let lower := (lo, n) in
  let upper := if hi =? 10 ^ k then (10 ^ (k - 1), n + 1) else (hi, n) in
  let nearest :=
    if 2 * r <? D then lower
    else if D <? 2 * r then upper
    else if Z.even lo then lower else upper in
  match fuel with
  | O => nearest
  | S fuel' =>
      let readsBack (c : Z * Z) := PrimFloat.eqb (ofDecimal false (fst c) (snd c - k)) x in
      if readsBack lower && readsBack upper then nearest
      else if readsBack lower then lower
      else if readsBack upper then upper
      else shortestDigits fuel' x num den n (k + 1)
  end.

(** The text of the digits [s] with the decimal point set by [n]. *)
Definition formatDigits (s n : Z) : string :=
  let digits := stringOfInt s in
  let k := decimalLength s in
  if (k <=? n) && (n <=? 21) then
    String.append digits (repeatChar "0" (Z.to_nat (n - k)))
  else if (0 <? n) && (n <=? 21) then
    String.append (substring 0 (Z.to_nat n) digits)
      (String "." (substring (Z.to_nat n) (Z.to_nat (k - n)) digits))
  else if (-6 <? n) && (n <=? 0) then
    String.append "0." (String.append (repeatChar "0" (Z.to_nat (- n))) digits)
  else
    let e := n - 1 in
    let sign := if e <? 0 then "-"%char else "+"%char in
    let exponent := String "e" (String sign (stringOfInt (Z.abs e))) in
    if k =? 1 then String.append digits exponent
    else String.append (substring 0 1 digits)
           (String "." (String.append (substring 1 (Z.to_nat (k - 1)) digits) exponent)).

(** [String(x)] of a number, also what a template literal prints. *)
Definition numberToString (x : number) : string :=
  match Prim2SF x with
  | S754_nan => "NaN"
  | S754_zero _ => "0"
  | S754_infinity sg => if sg then "-Infinity" else "Infinity"
  | S754_finite sg m e =>
      let num := if 0 <=? e then Zpos m * 2 ^ e else Zpos m in
      let den := if 0 <=? e then 1 else 2 ^ (- e) in
      let '(s, n) :=
        shortestDigits 16 (PrimFloat.abs x) num den (decimalExponent num den) 1 in
      let text := formatDigits s n in
      if sg then String "-" text else text
  end.

(** ** Arrays *)

(** [xs.sort(cmp)]: a stable sort.  [x] stays in front of a later element
    [y] unless [cmp(x, y) > 0]; a NaN from the comparator counts as [0].
    (For a comparator that is not a consistent order, which here needs a
    NaN or two equal infinities among the keys, the language leaves the
    order to the engine.) *)
Fixpoint insertSorted {A} (cmp : A -> A -> number) (x : A) (l : list A) : list A :=
  match l with
  | [] => [x]
  | y :: ys => if gt (cmp x y) zero then y :: insertSorted cmp x ys else x :: y :: ys
  end.

Definition sort {A} (cmp : A -> A -> number) (l : list A) : list A :=
  fold_right (insertSorted cmp) [] l.

(** [xs.slice(0, n)]. *)
Definition slice0 {A} (n : nat) (l : list A) : list A := firstn n l.

(** [xs.findIndex(p)], [None] standing for [-1]. *)
Fixpoint findIndex {A} (p : A -> bool) (l : list A) : option nat :=
  match l with
  | [] => None
  | x :: xs => if p x then Some O else option_map S (findIndex p xs)
  end.

(** [xs[i]]: [undefined] out of range. *)
Definition at_ {A} (l : list A) (i : nat) : option A := l !! i.

(** ** Map objects *)

(** A [Map<string, V>]: keys in insertion order, each once. *)
Definition Map (V : Type) := list (string * V).

Fixpoint mapGet {V} (k : string) (m : Map V) : option V :=
  match m with
  | [] => None
  | (k', v) :: rest => if String.eqb k k' then Some v else mapGet k rest
  end.

Fixpoint mapSet {V} (k : string) (v : V) (m : Map V) : Map V :=
  match m with
  | [] => [(k, v)]
  | (k', v') :: rest =>
      if String.eqb k k' then (k, v) :: rest else (k', v') :: mapSet k v rest
  end.

(** ** Buffers and the runtime *)

Definition Buffer := list ascii.

(** [buf.toString('utf-8')] and zlib's inflation of a gzip stream are the
    runtime's; the services only depend on the facts stated here.  A gzip
    member is a 10-byte header, a deflate stream and an 8-byte trailer:
    [gunzipSync] throws on anything shorter, and hands longer input to
    [inflate]. *)
Record Runtime := mkRuntime {
  inflate : Buffer -> result Buffer;
  toStringUtf8 : Buffer -> string
}.

Definition gunzipSync (rt : Runtime) (b : Buffer) : result Buffer :=
  if (List.length b <? 18)%nat then Throw (mkError "unexpected end of file")
  else inflate rt b.

(** [Buffer.from(s, 'binary')]: one byte per code unit. *)
Definition bufferFromBinary (s : string) : Buffer := list_ascii_of_string s.

(** [try { body } catch (error) { handler(error) }]. *)
Definition tryCatch {A} (body : result A) (handler : Error -> result A) : result A :=
  match body with
  | Return a => Return a
  | Throw e => handler e
  end.

(** What [client.request] resolves to: a [Buffer], a string, or any other
    value (a parsed JSON body), carried with its [JSON.stringify] text. *)
Inductive Payload :=
| PBuffer (b : Buffer)
| PString (s : string)
| PJson (text : string).

(** The authenticated HTTP client: [request(endpoint, params)] resolves to
    a payload or rejects with an [Error]. *)
Record AppStoreClient := mkClient {
  request : string -> list (string * string) -> result Payload
}.

End JS.

(* ===================================================================== *)
(** * AppStoreClient (src/api/client.ts) *)
(* ===================================================================== *)

Module Client.
Import JS.

(** An entry of the [errors] array of an App Store error body. *)
Record ApiError := mkApiError {
  title : string;
  detail : option string
}.

(** [error.response]: the HTTP status, and [data.errors] when the body has
    one and it is an array. *)
Record Response := mkResponse {
  status : Z;
  errors : option (list ApiError)
}.

(** The [AxiosError] handed to the response interceptor: the response if
    one was received, whether the request was sent, and the message. *)
Record AxiosError := mkAxiosError {
  response : option Response;
  hasRequest : bool;
  errorMessage : string
}.

(** [handleError(error)]: the [Error] the request rejects with (for a 429
    after a pause, which is left out).  An empty [errors] array makes the
    read of [firstError.detail] fail with the engine's [TypeError]. *)
Definition handleError (error : AxiosError) : Error :=
  match response error with
  | Some resp =>
      match errors resp with
      | Some [] => mkError "Cannot read properties of undefined (reading 'detail')"
      | Some (firstError :: _) =>
          let message :=
            orS (orElse (detail firstError) (Some (title firstError))) "Unknown error" in
          if status resp =? 401 then
            mkError (String.append "Authentication failed: "
                       (String.append message ". Check your credentials."))
          else if status resp =? 403 then
            mkError (String.append "Permission denied: "
                       (String.append message ". Check your API key permissions."))
          else if status resp =? 404 then
            mkError (String.append "Resource not found: " message)
          else if status resp =? 429 then
            mkError "Rate limited - please retry"
          else
            mkError (String.append "API Error ("
                       (String.append (stringOfInt (status resp))
                          (String.append "): " message)))
      | None =>
          mkError (String.append "API Error ("
                     (String.append (stringOfInt (status resp))
                        (String.append "): " (errorMessage error))))
      end
  | None =>
      if hasRequest error
      then mkError "Network error: No response from App Store Connect API"
      else mkError (String.append "Request error: " (errorMessage error))
  end.

End Client.

(* ===================================================================== *)
(** * FinanceService (src/services/finance-service.ts) *)
(* ===================================================================== *)

Module FinanceService.
Import JS.

(** The service object: its client, its optional vendor number, the
    runtime, and the clock read of the helper [getYesterdayDate]. *)
Record Service := mkService {
  client : AppStoreClient;
  vendorNumber : option string;
  runtime : Runtime;
  yesterdayDate : string
}.

(** [Partial<FinanceReportRequest>]: every field may be absent. *)
Record FinanceReportRequest := mkRequest {
  req_vendorNumber : option string;
  req_reportType : option string;
  req_reportSubType : option string;
  req_dateType : option string;
  req_date : option string
}.

(** A row of the parsed report: the columns of the line, and the fields
    [parseCSVReport] derives from them.  The derived fields are written
    after the spread of the columns, so they win over a column of the same
    name. *)
Record Row := mkRow {
  fields : gmap string string;
  _customerCurrency : string;
  _customerPrice : number;
  _proceedsRaw : number;
  _proceedsUSD : number
}.

(** The object [parseCSVReport] returns; the two early returns carry only
    [rows] and [summary]. *)
Record ParsedReport := mkReport {
  reportType : option string;
  headers : option (list string);
  rows : list Row;
  rowCount : option nat;
  summary : string
}.

Definition isGzipMagic (b0 b1 : option ascii) : bool :=
  match b0, b1 with
  | Some x, Some y => (code x =? 31)%N && (code y =? 139)%N
  | _, _ => false
  end.

(** [decompressIfNeeded(data)]. *)
Definition decompressIfNeeded (rt : Runtime) (data : Payload) : result string :=
  match data with
  | PBuffer b =>
      if (2 <? List.length b)%nat && isGzipMagic (at_ b 0) (at_ b 1) then
        tryCatch
          (bind (gunzipSync rt b) (fun decompressed => Return (toStringUtf8 rt decompressed)))
          (fun _ => Return (toStringUtf8 rt b))
      else Return (toStringUtf8 rt b)
  | PString s =>
      if isGzipMagic (String.get 0 s) (String.get 1 s) then
        tryCatch
          (bind (gunzipSync rt (bufferFromBinary s))
                (fun decompressed => Return (toStringUtf8 rt decompressed)))
          (fun _ => Return s)
      else Return s
  | PJson text => Return text
  end.

(** [headers.forEach((header, index) => row[header] = values[index] ?
    values[index].trim() : '')]: a later header of the same name
    overwrites an earlier one.  The row is a plain object: an assignment to
    [row['__proto__']] reaches the setter it inherits, which ignores a
    string, so a header of that name gives the row no column. *)
Fixpoint fillRow (hs : list string) (values : list string) (index : nat)
    (row : gmap string string) : gmap string string :=
  match hs with
  | [] => row
  | header :: hs' =>
      let v := match at_ values index with
               | Some x => if truthyS x then trim x else ""
               | None => ""
               end in
      fillRow hs' values (S index)
        (if String.eqb header "__proto__" then row else <[header := v]> row)
  end.

(** The rate table [currencyRates]. *)
Definition currencyRates : list (string * number) :=
  [ ("USD", 1); ("EUR", 1.1); ("GBP", 1.27); ("CAD", 0.74); ("AUD", 0.65);
    ("MXN", 0.059); ("BRL", 0.20); ("IDR", 0.000065); ("INR", 0.012);
    ("JPY", 0.0067); ("KRW", 0.00075); ("CNY", 0.14); ("THB", 0.028);
    ("PHP", 0.018); ("VND", 0.000041); ("MYR", 0.21); ("SGD", 0.74);
    ("HKD", 0.13); ("TWD", 0.031); ("NZD", 0.61); ("CHF", 1.13);
    ("SEK", 0.095); ("NOK", 0.093); ("DKK", 0.15); ("PLN", 0.25);
    ("RUB", 0.011); ("TRY", 0.03); ("TZS", 0.00039); ("AED", 0.27);
    ("SAR", 0.27); ("ZAR", 0.053); ("ILS", 0.27); ("EGP", 0.021);
    ("NGN", 0.00065); ("KES", 0.0078); ("PEN", 0.27); ("COP", 0.00024);
    ("CLP", 0.0011); ("ARS", 0.001); ("RON", 0.22) ]%float.

(** [convertToUSD(amount, currency)]: an unknown code converts at 1. *)
Definition convertToUSD (amount : number) (currency : string) : number :=
  let rate := match mapGet (toUpperCase currency) currencyRates with
              | Some r => orN r 1%float
              | None => 1%float
              end in
  PrimFloat.mul amount rate.

Definition highValueCurrencies : list string :=
  ["IDR"; "VND"; "TZS"; "KRW"; "CLP"; "COP"].

(** The body of [rows.map(row => ...)] in [parseCSVReport]. *)
Definition enhanceRow (row : gmap string string) : Row :=
  let customerCurrency := orS (row !! "Customer Currency") "USD" in
  let proceedsRaw :=
    parseFloat (orS (orElse (row !! "Developer Proceeds") (row !! "Proceeds")) "0") in
  let customerPrice := parseFloat (orS (row !! "Customer Price") "0") in
  let proceedsUSD :=
    if existsb (String.eqb customerCurrency) highValueCurrencies then
      if gt proceedsRaw 1000%float then convertToUSD proceedsRaw customerCurrency
      else proceedsRaw
    else if negb (String.eqb customerCurrency "USD") then
      if gt proceedsRaw (PrimFloat.mul customerPrice 2%float) then proceedsRaw
      else convertToUSD proceedsRaw customerCurrency
    else proceedsRaw in
  {| fields := row;
     _customerCurrency := customerCurrency;
     _customerPrice := customerPrice;
     _proceedsRaw := proceedsRaw;
     _proceedsUSD := proceedsUSD |}.

(** [csvData.split('\n').filter(line => line.trim())]. *)
Definition nonBlankLines (csvData : string) : list string :=
  List.filter (fun line => truthyS (trim line)) (split "010" csvData).

(** [parseCSVReport(csvData, reportType)]. *)
Definition parseCSVReport (csvData : string) (reportType : string) : ParsedReport :=
  if negb (truthyS csvData) then
    {| reportType := None; headers := None; rows := []; rowCount := None;
       summary := "No data available" |}
  else
    match nonBlankLines csvData with
    | [] =>
        {| reportType := None; headers := None; rows := []; rowCount := None;
           summary := "Empty report" |}
    | first :: rest =>
        let headers := map trim (split "009" first) in
        let rows := map (fun line => fillRow headers (split "009" line) 0 ∅) rest in
        let enhancedRows := map enhanceRow rows in
        {| reportType := Some reportType;
           headers := Some headers;
           rows := enhancedRows;
           rowCount := Some (List.length rows);
           summary := String.append "Parsed "
                        (String.append (stringOfNat (List.length rows))
                           (String.append " rows from "
                              (String.append reportType " report"))) |}
    end.

(** [getSalesReport(options)]. *)
Definition getSalesReport (svc : Service) (options : FinanceReportRequest)
    : result ParsedReport :=
  if negb (truthyO (vendorNumber svc)) && negb (truthyO (req_vendorNumber options))
  then Throw (mkError "Vendor number required for financial reports. Set APP_STORE_VENDOR_NUMBER")
  else
    let params :=
      [ ("filter[vendorNumber]", orS (req_vendorNumber options) (orS (vendorNumber svc) ""));
        ("filter[reportType]", orS (req_reportType options) "SALES");
        ("filter[reportSubType]", orS (req_reportSubType options) "SUMMARY");
        ("filter[frequency]", orS (req_dateType options) "DAILY");
        ("filter[reportDate]", orS (req_date options) (yesterdayDate svc));
        ("filter[version]", "1_1") ] in
    bind (request (client svc) "/salesReports" params) (fun response =>
    bind (decompressIfNeeded (runtime svc) response) (fun decompressed =>
    Return (parseCSVReport decompressed (orS (req_reportType options) "SALES")))).

(** ** Revenue metrics *)

Record ProductData := mkProductData {
  pd_revenue : number;
  pd_units : number;
  pd_title : string
}.

Record CountryData := mkCountryData {
  cd_revenue : number;
  cd_units : number
}.

Record ProductEntry := mkProductEntry {
  pe_sku : string;
  pe_title : string;
  pe_revenue : number;
  pe_units : number
}.

Record CountryEntry := mkCountryEntry {
  ce_country : string;
  ce_revenue : number;
  ce_units : number
}.

Record Subscriptions := mkSubscriptions {
  activeCount : number;
  newCount : number;
  cancelledCount : number;
  mrr : number;
  arr : number
}.

Record RevenueMetrics := mkMetrics {
  totalRevenue : number;
  totalUnits : number;
  byProduct : list ProductEntry;
  byCountry : list CountryEntry;
  subscriptions : option Subscriptions
}.

(** Everything the loop of [calculateRevenueMetricsFromData] writes to: the
    two running totals of [metrics], the two maps, the two subscriber
    counters, and the console. *)
Record MetricsState := mkMetricsState {
  ms_totalRevenue : number;
  ms_totalUnits : number;
  ms_productMap : Map ProductData;
  ms_countryMap : Map CountryData;
  ms_activeSubscribers : number;
  ms_newSubscribers : number;
  ms_console : list string
}.

Definition initialMetricsState (console : list string) : MetricsState :=
  {| ms_totalRevenue := zero; ms_totalUnits := zero;
     ms_productMap := []; ms_countryMap := [];
     ms_activeSubscribers := zero; ms_newSubscribers := zero;
     ms_console := console |}.

(** [row._proceedsUSD || parseFloat(row['Developer Proceeds'] ||
    row['Proceeds'] || '0')]. *)
Definition rowRevenue (row : Row) : number :=
  orN (_proceedsUSD row)
      (parseFloat (orS (orElse (fields row !! "Developer Proceeds") (fields row !! "Proceeds")) "0")).

Definition rowUnits (row : Row) : number :=
  parseInt10 (orS (orElse (fields row !! "Units") (fields row !! "Unit Sales")) "0").

Definition rowProduct (row : Row) : string :=
  orS (orElse (fields row !! "SKU") (fields row !! "Product")) "Unknown".

Definition rowTitle (row : Row) : string :=
  orS (orElse (fields row !! "Title") (fields row !! "Product Title")) (rowProduct row).

Definition rowCountry (row : Row) : string :=
  orS (orElse (fields row !! "Country Code") (fields row !! "Territory")) "Unknown".

(** [counter += parseInt(row[key], 10) || 0], done only when [row[key]] is
    truthy. *)
Definition addCount (row : Row) (key : string) (counter : number) : number :=
  match fields row !! key with
  | Some v => if truthyS v then PrimFloat.add counter (orN (parseInt10 v) zero) else counter
  | None => counter
  end.

(** One turn of [for (const row of parsedData.rows)]. *)
Definition metricsStep (st : MetricsState) (row : Row) : MetricsState :=
  let revenue := rowRevenue row in
  let units := rowUnits row in
  let product := rowProduct row in
  let title := rowTitle row in
  let country := rowCountry row in
  let active := addCount row "Active Standard Price Subscriptions" (ms_activeSubscribers st) in
  let newSubs := addCount row "New Standard Price Subscriptions" (ms_newSubscribers st) in
  let accepted := gt revenue zero && lt revenue 1000000%float in
  let totalRevenue := if accepted then PrimFloat.add (ms_totalRevenue st) revenue
                      else ms_totalRevenue st in
  let totalUnits := if accepted then PrimFloat.add (ms_totalUnits st) units
                    else ms_totalUnits st in
  let productData :=
    match mapGet product (ms_productMap st) with
    | Some d => d
    | None => {| pd_revenue := zero; pd_units := zero; pd_title := title |}
    end in
  let productMap :=
    mapSet product
      {| pd_revenue := PrimFloat.add (pd_revenue productData) revenue;
         pd_units := PrimFloat.add (pd_units productData) units;
         pd_title := pd_title productData |}
      (ms_productMap st) in
  let countryData :=
    match mapGet country (ms_countryMap st) with
    | Some d => d
    | None => {| cd_revenue := zero; cd_units := zero |}
    end in
  let countryMap :=
    mapSet country
      {| cd_revenue := PrimFloat.add (cd_revenue countryData) revenue;
         cd_units := PrimFloat.add (cd_units countryData) units |}
      (ms_countryMap st) in
  {| ms_totalRevenue := totalRevenue;
     ms_totalUnits := totalUnits;
     ms_productMap := productMap;
     ms_countryMap := countryMap;
     ms_activeSubscribers := active;
     ms_newSubscribers := newSubs;
     ms_console := ms_console st |}.

Definition topProducts (m : Map ProductData) : list ProductEntry :=
  slice0 10
    (sort (fun a b => PrimFloat.sub (pe_revenue b) (pe_revenue a))
       (map (fun '(sku, d) =>
               {| pe_sku := sku; pe_title := pd_title d;
                  pe_revenue := pd_revenue d; pe_units := pd_units d |}) m)).

Definition topCountries (m : Map CountryData) : list CountryEntry :=
  slice0 10
    (sort (fun a b => PrimFloat.sub (ce_revenue b) (ce_revenue a))
       (map (fun '(country, d) =>
               {| ce_country := country;
                  ce_revenue := cd_revenue d; ce_units := cd_units d |}) m)).

(** [calculateRevenueMetricsFromData(parsedData)], run on a console: the
    metrics it returns and the console it leaves. *)
Definition calculateRevenueMetricsFromData (parsedData : ParsedReport)
    (console : list string) : RevenueMetrics * list string :=
  match rows parsedData with
  | [] =>
      ({| totalRevenue := zero; totalUnits := zero; byProduct := [];
          byCountry := []; subscriptions := None |}, console)
  | _ :: _ =>
      let st := fold_left metricsStep (rows parsedData) (initialMetricsState console) in
      let isSubscription :=
        match reportType parsedData with
        | Some t => String.eqb t "SUBSCRIPTION"
        | None => false
        end in
      let subs :=
        if isSubscription || gt (ms_activeSubscribers st) zero then
          let mrr := ms_totalRevenue st in
          Some {| activeCount := ms_activeSubscribers st;
                  newCount := ms_newSubscribers st;
                  cancelledCount := zero;
                  mrr := PrimFloat.div (mathRound (PrimFloat.mul mrr 100%float)) 100%float;
                  arr := PrimFloat.div
                           (mathRound (PrimFloat.mul (PrimFloat.mul mrr 12%float) 100%float))
                           100%float |}
        else None in
      ({| totalRevenue := ms_totalRevenue st;
          totalUnits := ms_totalUnits st;
          byProduct := topProducts (ms_productMap st);
          byCountry := topCountries (ms_countryMap st);
          subscriptions := subs |}, ms_console st)
  end.

(** [array.reduce((s, x) => s + x.revenue, 0)]: the sum of a breakdown, as
    a caller adds it up. *)
Definition sumRevenue (xs : list number) : number :=
  fold_left PrimFloat.add xs zero.

(** ** Monthly revenue: one daily report per calendar day *)

Definition isLeapYear (y : Z) : bool :=
  ((y mod 4 =? 0) && negb (y mod 100 =? 0)) || (y mod 400 =? 0).

(** [new Date(year, month, 0).getDate()] for integer arguments: day 0 of
    the month after the requested one is the last day of the requested
    month.  A year from 0 to 99 stands for 1900 + year, and a month outside
    1..12 carries into the year.  (The proleptic Gregorian calendar, within
    the range of [Date]; beyond it the source gets NaN and visits no day.) *)
Definition daysInMonth (year month : Z) : Z :=
  let y0 := if (0 <=? year) && (year <=? 99) then 1900 + year else year in
  let y := y0 + (month - 1) / 12 in
  let m := (month - 1) mod 12 + 1 in
  if m =? 2 then (if isLeapYear y then 29 else 28)
  else if (m =? 4) || (m =? 6) || (m =? 9) || (m =? 11) then 30
  else 31.

(** [`${year}-${String(month).padStart(2, '0')}-${String(day).padStart(2, '0')}`]. *)
Definition dateString (year month day : Z) : string :=
  String.append (stringOfInt year)
    (String.append "-"
       (String.append (padStart 2 "0" (stringOfInt month))
          (String.append "-" (padStart 2 "0" (stringOfInt day))))).

(** The array [dates]: the days 1 .. daysInMonth, in order. *)
Definition monthDates (year month : Z) : list string :=
  map (fun d => dateString year month (Z.of_nat d))
      (seq 1 (Z.to_nat (daysInMonth year month))).

Record HighRevenueDay := mkHighRevenueDay {
  hrd_date : string;
  hrd_revenue : number;
  hrd_transactions : nat
}.

(** The accumulator [monthlyData], and the console. *)
Record MonthlyData := mkMonthlyData {
  md_totalRevenue : number;
  md_totalTransactions : nat;
  md_daysWithData : nat;
  md_dailyRevenues : list number;
  md_countryBreakdown : Map number;
  md_productBreakdown : Map number;
  md_currencyBreakdown : Map number;
  md_highRevenueDays : list HighRevenueDay;
  md_console : list string
}.

Definition initialMonthlyData : MonthlyData :=
  {| md_totalRevenue := zero; md_totalTransactions := O; md_daysWithData := O;
     md_dailyRevenues := []; md_countryBreakdown := []; md_productBreakdown := [];
     md_currencyBreakdown := []; md_highRevenueDays := []; md_console := [] |}.

(** [map.set(key, (map.get(key) || 0) + revenue)]. *)
Definition addTo (key : string) (revenue : number) (m : Map number) : Map number :=
  let current := match mapGet key m with
                 | Some v => orN v zero
                 | None => zero
                 end in
  mapSet key (PrimFloat.add current revenue) m.

(** [row._proceedsUSD || 0]: what a row adds to its day. *)
Definition dailyRevenue (row : Row) : number := orN (_proceedsUSD row) zero.

(** [dailyTotal] of a report: its rows' revenues added up in order. *)
Definition dailyTotal (report : ParsedReport) : number :=
  fold_left (fun total row => PrimFloat.add total (dailyRevenue row)) (rows report) zero.

(** The body of [report.rows.forEach(row => ...)], on the three maps. *)
Definition breakdownStep (acc : Map number * Map number * Map number) (row : Row)
    : Map number * Map number * Map number :=
  let '(countries, products, currencies) := acc in
  let revenue := dailyRevenue row in
  let country := orS (fields row !! "Country Code") "Unknown" in
  let product := orS (orElse (fields row !! "Title") (fields row !! "Product Title")) "Unknown" in
  let currency := orS (fields row !! "Customer Currency") "USD" in
  (addTo country revenue countries,
   addTo product revenue products,
   addTo currency revenue currencies).

(** What the [try] block does with a report that came back. *)
Definition recordDay (md : MonthlyData) (dateStr : string) (report : ParsedReport)
    : MonthlyData :=
  match rows report with
  | [] => md
  | _ :: _ =>
      let total := dailyTotal report in
      let '(countries, products, currencies) :=
        fold_left breakdownStep (rows report)
          (md_countryBreakdown md, md_productBreakdown md, md_currencyBreakdown md) in
      {| md_totalRevenue := PrimFloat.add (md_totalRevenue md) total;
         md_totalTransactions := (md_totalTransactions md + List.length (rows report))%nat;
         md_daysWithData := S (md_daysWithData md);
         md_dailyRevenues := md_dailyRevenues md ++ [total];
         md_countryBreakdown := countries;
         md_productBreakdown := products;
         md_currencyBreakdown := currencies;
         md_highRevenueDays :=
           if gt total 10000%float
           then md_highRevenueDays md ++
                [{| hrd_date := dateStr; hrd_revenue := total;
                    hrd_transactions := List.length (rows report) |}]
           else md_highRevenueDays md;
         md_console := md_console md |}
  end.

(** The [catch] block: an error is never rethrown; it is logged unless its
    message contains 404. *)
Definition catchDay (md : MonthlyData) (dateStr : string) (error : Error) : MonthlyData :=
  if negb (includes "404" (message error)) then
    {| md_totalRevenue := md_totalRevenue md;
       md_totalTransactions := md_totalTransactions md;
       md_daysWithData := md_daysWithData md;
       md_dailyRevenues := md_dailyRevenues md;
       md_countryBreakdown := md_countryBreakdown md;
       md_productBreakdown := md_productBreakdown md;
       md_currencyBreakdown := md_currencyBreakdown md;
       md_highRevenueDays := md_highRevenueDays md;
       md_console := md_console md ++
         [String.append "Error fetching data for "
            (String.append dateStr (String.append ": " (message error)))] |}
  else md.

(** The daily fetch of the loop. *)
Definition fetchDay (svc : Service) (dateStr : string) : result ParsedReport :=
  getSalesReport svc
    {| req_vendorNumber := None; req_reportType := Some "SALES";
       req_reportSubType := None; req_dateType := Some "DAILY";
       req_date := Some dateStr |}.

(** One turn of [for (const dateStr of dates)]. *)
Definition monthlyStep (svc : Service) (md : MonthlyData) (dateStr : string) : MonthlyData :=
  match fetchDay svc dateStr with
  | Return report => recordDay md dateStr report
  | Throw error => catchDay md dateStr error
  end.

(** The object [getMonthlyRevenue] resolves to.  The month name and the
    percentage strings ([toLocaleDateString], [toFixed]) are presentation
    and are not part of the record. *)
Record MonthlyStats := mkMonthlyStats {
  st_year : Z;
  st_month : Z;
  st_totalRevenue : number;
  st_totalTransactions : nat;
  st_daysWithData : nat;
  st_dailyAverage : number;
  st_perTransaction : number;
  st_dailyMin : option number;
  st_dailyMax : option number;
  st_dailyMedian : option number;
  st_topCountries : list (string * number);
  st_topProducts : list (string * number);
  st_currencyBreakdown : list (string * number);
  st_highRevenueDays : list HighRevenueDay
}.

Definition byRevenueDesc (a b : string * number) : number := PrimFloat.sub (snd b) (snd a).

Definition monthlyStats (year month : Z) (md : MonthlyData) : MonthlyStats :=
  let revenues := md_dailyRevenues md in
  let sorted := sort (fun a b => PrimFloat.sub a b) revenues in
  let some_if_days (x : option number) :=
    match revenues with [] => None | _ :: _ => x end in
  {| st_year := year;
     st_month := month;
     st_totalRevenue := md_totalRevenue md;
     st_totalTransactions := md_totalTransactions md;
     st_daysWithData := md_daysWithData md;
     st_dailyAverage :=
       if (0 <? md_daysWithData md)%nat
       then PrimFloat.div (md_totalRevenue md) (ofNat (md_daysWithData md)) else zero;
     st_perTransaction :=
       if (0 <? md_totalTransactions md)%nat
       then PrimFloat.div (md_totalRevenue md) (ofNat (md_totalTransactions md)) else zero;
     st_dailyMin := some_if_days (Some (mathMin revenues));
     st_dailyMax := some_if_days (Some (mathMax revenues));
     st_dailyMedian := some_if_days (at_ sorted (List.length sorted / 2));
     st_topCountries := slice0 10 (sort byRevenueDesc (md_countryBreakdown md));
     st_topProducts := slice0 10 (sort byRevenueDesc (md_productBreakdown md));
     st_currencyBreakdown := sort byRevenueDesc (md_currencyBreakdown md);
     st_highRevenueDays :=
       slice0 10 (sort (fun a b => PrimFloat.sub (hrd_revenue b) (hrd_revenue a))
                       (md_highRevenueDays md)) |}.

(** [getMonthlyRevenue(year, month)]: what it resolves to or rejects with,
    and the lines it wrote to the console. *)
Definition getMonthlyRevenue (svc : Service) (year month : Z)
    : result MonthlyStats * list string :=
  if negb (truthyO (vendorNumber svc)) then
    (Throw (mkError "Vendor number required for revenue reports"), [])
  else
    let md := fold_left (monthlyStep svc) (monthDates year month) initialMonthlyData in
    (Return (monthlyStats year month md), md_console md).

(** The reports of the days that came back with at least one row, in date
    order: the days [getMonthlyRevenue] counts. *)
Definition reportsWithRows (svc : Service) (dates : list string) : list ParsedReport :=
  flat_map (fun dateStr =>
              match fetchDay svc dateStr with
              | Return report =>
                  match rows report with
                  | [] => []
                  | _ :: _ => [report]
                  end
              | Throw _ => []
              end) dates.

(** The reports of the days whose fetch resolved, in date order. *)
Definition resolvedReports (svc : Service) (dates : list string) : list ParsedReport :=
  flat_map (fun dateStr =>
              match fetchDay svc dateStr with
              | Return report => [report]
              | Throw _ => []
              end) dates.

(** The days whose fetch resolved, whatever it carried. *)
Definition resolvedDays (svc : Service) (dates : list string) : list string :=
  List.filter (fun dateStr =>
            match fetchDay svc dateStr with
            | Return _ => true
            | Throw _ => false
            end) dates.

(** ** Subscription metrics and the revenue fallback *)

(** [getFinancialReport(year, month)] for integer arguments. *)
Definition getFinancialReport (svc : Service) (year month : Z) : result ParsedReport :=
  if negb (truthyO (vendorNumber svc))
  then Throw (mkError "Vendor number required for financial reports")
  else
    let params :=
      [ ("filter[vendorNumber]", orS (vendorNumber svc) "");
        ("filter[regionCode]", "ZZ");
        ("filter[reportType]", "FINANCIAL");
        ("filter[fiscalYear]", stringOfInt year);
        ("filter[fiscalPeriod]", padStart 2 "0" (stringOfInt month));
        ("filter[version]", "1_0") ] in
    bind (request (client svc) "/financeReports" params) (fun response =>
    bind (decompressIfNeeded (runtime svc) response) (fun decompressed =>
    Return (parseCSVReport decompressed "FINANCIAL"))).

(** The object [formatSubscriptionData] returns, the fields of its inner
    [metrics] object beside the others. *)
Record SubscriptionSummary := mkSubscriptionSummary {
  ss_summary : string;
  ss_activeSubscribers : number;
  ss_newSubscribers : number;
  ss_mrr : number;
  ss_arr : number;
  ss_churnRate : number;
  ss_avgSubscriptionLength : number;
  ss_topProducts : list ProductEntry;
  ss_topCountries : list CountryEntry;
  ss_totalRevenue : number;
  ss_totalUnits : number
}.

(** [metrics.subscriptions?.field || 0]. *)
Definition subscriptionField (field : Subscriptions -> number)
    (subs : option Subscriptions) : number :=
  match subs with
  | Some s => orN (field s) zero
  | None => zero
  end.

(** [formatSubscriptionData(parsedData)]. *)
Definition formatSubscriptionData (parsedData : ParsedReport) : SubscriptionSummary :=
  let metrics := fst (calculateRevenueMetricsFromData parsedData []) in
  {| ss_summary := "Subscription metrics calculated from report data";
     ss_activeSubscribers := subscriptionField activeCount (subscriptions metrics);
     ss_newSubscribers := subscriptionField newCount (subscriptions metrics);
     ss_mrr := subscriptionField mrr (subscriptions metrics);
     ss_arr := subscriptionField arr (subscriptions metrics);
     ss_churnRate := zero;
     ss_avgSubscriptionLength := zero;
     ss_topProducts := slice0 5 (byProduct metrics);
     ss_topCountries := slice0 5 (byCountry metrics);
     ss_totalRevenue := totalRevenue metrics;
     ss_totalUnits := totalUnits metrics |}.

(** The array [parameterSets] of [getSubscriptionMetrics], in the order in
    which they are tried. *)
Definition parameterSets (svc : Service) : list (list (string * string)) :=
  [ [ ("filter[vendorNumber]", orS (vendorNumber svc) "");
      ("filter[reportType]", "SUBSCRIPTION");
      ("filter[reportSubType]", "SUMMARY");
      ("filter[frequency]", "DAILY");
      ("filter[reportDate]", yesterdayDate svc);
      ("filter[version]", "1_2") ];
    [ ("filter[vendorNumber]", orS (vendorNumber svc) "");
      ("filter[reportType]", "SUBSCRIPTION");
      ("filter[reportSubType]", "SUMMARY");
      ("filter[frequency]", "DAILY");
      ("filter[reportDate]", yesterdayDate svc) ];
    [ ("filter[vendorNumber]", orS (vendorNumber svc) "");
      ("filter[reportType]", "SUBSCRIPTION");
      ("filter[reportSubType]", "DETAILED");
      ("filter[frequency]", "DAILY");
      ("filter[reportDate]", yesterdayDate svc);
      ("filter[version]", "1_3") ];
    [ ("filter[vendorNumber]", orS (vendorNumber svc) "");
      ("filter[reportType]", "SUBSCRIPTION");
      ("filter[reportSubType]", "SUMMARY");
      ("filter[frequency]", "DAILY");
      ("filter[reportDate]", yesterdayDate svc);
      ("filter[version]", "1_3") ] ].

(** The [try] block of the loop of [getSubscriptionMetrics]. *)
Definition trySubscriptionParams (svc : Service) (params : list (string * string))
    : result SubscriptionSummary :=
  bind (request (client svc) "/salesReports" params) (fun response =>
  bind (decompressIfNeeded (runtime svc) response) (fun decompressed =>
  Return (formatSubscriptionData (parseCSVReport decompressed "SUBSCRIPTION")))).

(** [for (const params of parameterSets) { try { ...; return ... } catch
    (error) { lastError = error } }], then [throw lastError || new
    Error(...)]. *)
Fixpoint tryParameterSets (svc : Service) (sets : list (list (string * string)))
    (lastError : option Error) : result SubscriptionSummary :=
  match sets with
  | [] =>
      match lastError with
      | Some e => Throw e
      | None => Throw (mkError "Failed to fetch subscription metrics")
      end
  | params :: rest =>
      match trySubscriptionParams svc params with
      | Return summary => Return summary
      | Throw error => tryParameterSets svc rest (Some error)
      end
  end.

(** [getSubscriptionMetrics()]. *)
Definition getSubscriptionMetrics (svc : Service) : result SubscriptionSummary :=
  if negb (truthyO (vendorNumber svc))
  then Throw (mkError "Vendor number required for subscription reports")
  else tryParameterSets svc (parameterSets svc) None.

(** [getRevenueMetrics(appId)]: the monthly subscription report, and on any
    error the monthly sales report.  [getCurrentMonthDate()] reads the clock
    once in the [try] block and once more in the [catch] block. *)
Definition getRevenueMetrics (svc : Service) (monthAtTry monthAtCatch : string)
    : result RevenueMetrics :=
  tryCatch
    (bind (getSalesReport svc
             {| req_vendorNumber := None; req_reportType := Some "SUBSCRIPTION";
                req_reportSubType := Some "SUMMARY"; req_dateType := Some "MONTHLY";
                req_date := Some monthAtTry |})
          (fun salesData => Return (fst (calculateRevenueMetricsFromData salesData []))))
    (fun _ =>
       bind (getSalesReport svc
               {| req_vendorNumber := None; req_reportType := Some "SALES";
                  req_reportSubType := Some "SUMMARY"; req_dateType := Some "MONTHLY";
                  req_date := Some monthAtCatch |})
            (fun salesData => Return (fst (calculateRevenueMetricsFromData salesData [])))).

End FinanceService.

(* ===================================================================== *)
(** * SubscriptionService (src/services/subscription-service.ts) *)
(* ===================================================================== *)

Module SubscriptionService.
Import JS.

(** A parsed row: the columns, and [_proceedsUSD] assigned after them. *)
Record Row := mkRow {
  fields : gmap string string;
  _proceedsUSD : number
}.

Record ParsedReport := mkReport {
  reportType : option string;
  headers : option (list string);
  rows : list Row;
  rowCount : option nat;
  summary : string
}.

(** [decompressIfNeeded(data)].  A string that is not a gzip stream falls
    through to the final [JSON.stringify(data)]. *)
Definition decompressIfNeeded (rt : Runtime) (data : Payload) : result string :=
  match data with
  | PBuffer b =>
      if (2 <? List.length b)%nat
         && FinanceService.isGzipMagic (at_ b 0) (at_ b 1) then
        tryCatch
          (bind (gunzipSync rt b) (fun decompressed => Return (toStringUtf8 rt decompressed)))
          (fun _ => Return (toStringUtf8 rt b))
      else Return (toStringUtf8 rt b)
  | PString s =>
      if (2 <? String.length s)%nat
         && FinanceService.isGzipMagic (String.get 0 s) (String.get 1 s) then
        tryCatch
          (bind (gunzipSync rt (bufferFromBinary s))
                (fun decompressed => Return (toStringUtf8 rt decompressed)))
          (fun _ => Return s)
      else Return (jsonStringifyString s)
  | PJson text => Return text
  end.

(** The text the proceeds of a row are parsed from:
    [row['Developer Proceeds'] || row['Proceeds'] || '0']. *)
Definition proceedsText (row : gmap string string) : string :=
  orS (orElse (row !! "Developer Proceeds") (row !! "Proceeds")) "0".

(** The body of the row loop of [parseCSVReport]. *)
Definition parseRow (headers : list string) (line : string) : Row :=
  let row := FinanceService.fillRow headers (split "009" line) 0 ∅ in
  let proceedsUSD := parseFloat (proceedsText row) in
  {| fields := row; _proceedsUSD := proceedsUSD |}.

(** [parseCSVReport(csvData, reportType)]. *)
Definition parseCSVReport (csvData : string) (reportType : string) : ParsedReport :=
  if negb (truthyS csvData) then
    {| reportType := None; headers := None; rows := []; rowCount := None;
       summary := "No data available" |}
  else
    match FinanceService.nonBlankLines csvData with
    | [] =>
        {| reportType := None; headers := None; rows := []; rowCount := None;
           summary := "Empty report" |}
    | first :: rest =>
        let headers := map trim (split "009" first) in
        let rows := map (parseRow headers) rest in
        {| reportType := Some reportType;
           headers := Some headers;
           rows := rows;
           rowCount := Some (List.length rows);
           summary := String.append "Parsed "
                        (String.append (stringOfNat (List.length rows))
                           (String.append " rows from "
                              (String.append reportType " report"))) |}
    end.

(** ** Renewal metrics *)

(** The service object; [runtime] is the zlib and Buffer runtime and
    [yesterdayDate] what [getYesterdayDate()] returns at the call. *)
Record Service := mkService {
  client : AppStoreClient;
  vendorNumber : option string;
  runtime : Runtime;
  yesterdayDate : string
}.

(** The object [analyzeSubscriptionData] returns. *)
Record Analysis := mkAnalysis {
  totalSubscribers : number;
  activeSubscribers : number;
  newSubscribers : number;
  canceledSubscribers : number;
  revenue : number;
  averagePrice : number;
  subscriptionsByProduct : Map number;
  subscriptionsByCountry : Map number
}.

(** [map.set(key, (map.get(key) || 0) + n)]. *)
Definition addActive (key : string) (n : number) (m : Map number) : Map number :=
  let current := match mapGet key m with
                 | Some v => orN v zero
                 | None => zero
                 end in
  mapSet key (PrimFloat.add current n) m.

(** One turn of [for (const row of parsedData.rows)] in
    [analyzeSubscriptionData]. *)
Definition analyzeStep (analysis : Analysis) (row : Row) : Analysis :=
  let active :=
    parseInt10 (orS (fields row !! "Active Standard Price Subscriptions") "0") in
  let newSubs :=
    parseInt10 (orS (fields row !! "New Standard Price Subscriptions") "0") in
  let canceled := parseInt10 (orS (fields row !! "Canceled Subscriptions") "0") in
  let revenue' := parseFloat (proceedsText (fields row)) in
  let product := orS (orElse (fields row !! "SKU") (fields row !! "Product")) "Unknown" in
  let country := orS (fields row !! "Country Code") "Unknown" in
  {| totalSubscribers := totalSubscribers analysis;
     activeSubscribers := PrimFloat.add (activeSubscribers analysis) active;
     newSubscribers := PrimFloat.add (newSubscribers analysis) newSubs;
     canceledSubscribers := PrimFloat.add (canceledSubscribers analysis) canceled;
     revenue := PrimFloat.add (revenue analysis) revenue';
     averagePrice := averagePrice analysis;
     subscriptionsByProduct :=
       if negb (String.eqb product "Unknown")
       then addActive product active (subscriptionsByProduct analysis)
       else subscriptionsByProduct analysis;
     subscriptionsByCountry :=
       if negb (String.eqb country "Unknown")
       then addActive country active (subscriptionsByCountry analysis)
       else subscriptionsByCountry analysis |}.

Definition initialAnalysis : Analysis :=
  {| totalSubscribers := zero; activeSubscribers := zero; newSubscribers := zero;
     canceledSubscribers := zero; revenue := zero; averagePrice := zero;
     subscriptionsByProduct := []; subscriptionsByCountry := [] |}.

(** [analyzeSubscriptionData(parsedData)]. *)
Definition analyzeSubscriptionData (parsedData : ParsedReport) : Analysis :=
  let analysis := fold_left analyzeStep (rows parsedData) initialAnalysis in
  {| totalSubscribers := activeSubscribers analysis;
     activeSubscribers := activeSubscribers analysis;
     newSubscribers := newSubscribers analysis;
     canceledSubscribers := canceledSubscribers analysis;
     revenue := revenue analysis;
     averagePrice :=
       if gt (activeSubscribers analysis) zero
       then PrimFloat.div (revenue analysis) (activeSubscribers analysis)
       else averagePrice analysis;
     subscriptionsByProduct := subscriptionsByProduct analysis;
     subscriptionsByCountry := subscriptionsByCountry analysis |}.

(** An entry of [extracted.products]. *)
Record SalesProduct := mkSalesProduct {
  sp_sku : string;
  sp_product : string;
  sp_units : number;
  sp_revenue : number;
  sp_averagePrice : number
}.

(** The object [extractSubscriptionFromSales] returns, without its two
    plain-object tallies [subscriptionTypes] and [countries]: they are
    written and never read by the fields kept here. *)
Record Extracted := mkExtracted {
  subscriptionRevenue : number;
  oneTimeRevenue : number;
  newSubscriptions : number;
  products : list SalesProduct
}.

(** [row['Product Type Identifier'] || '']. *)
Definition salesProductType (row : Row) : string :=
  orS (fields row !! "Product Type Identifier") "".

(** [row['Title'] || row['Product Title'] || 'Unknown']. *)
Definition salesProduct (row : Row) : string :=
  orS (orElse (fields row !! "Title") (fields row !! "Product Title")) "Unknown".

(** [parseInt(row['Units'] || '0', 10)]. *)
Definition salesUnits (row : Row) : number :=
  parseInt10 (orS (fields row !! "Units") "0").

(** [row._proceedsUSD || 0]. *)
Definition salesRevenue (row : Row) : number := orN (_proceedsUSD row) zero.

(** The test [isSubscription] of a sales row. *)
Definition isSubscription (row : Row) : bool :=
  includes "Auto-Renewable" (salesProductType row)
  || includes "Subscription" (salesProductType row)
  || includes "subscription" (toLowerCase (salesProduct row))
  || includes "monthly" (toLowerCase (salesProduct row))
  || includes "yearly" (toLowerCase (salesProduct row))
  || includes "annual" (toLowerCase (salesProduct row)).

(** One turn of [for (const row of parsedData.rows)] in
    [extractSubscriptionFromSales]. *)
Definition extractStep (extracted : Extracted) (row : Row) : Extracted :=
  let revenue' := salesRevenue row in
  let units := salesUnits row in
  {| subscriptionRevenue :=
       if isSubscription row
       then PrimFloat.add (subscriptionRevenue extracted) revenue'
       else subscriptionRevenue extracted;
     oneTimeRevenue :=
       if isSubscription row
       then oneTimeRevenue extracted
       else PrimFloat.add (oneTimeRevenue extracted) revenue';
     newSubscriptions :=
       if isSubscription row
       then PrimFloat.add (newSubscriptions extracted) units
       else newSubscriptions extracted;
     products :=
       if isSubscription row && gt units zero
       then (products extracted ++
               [ {| sp_sku := orS (fields row !! "SKU") "";
                    sp_product := salesProduct row;
                    sp_units := units;
                    sp_revenue := revenue';
                    sp_averagePrice := PrimFloat.div revenue' units |} ])%list
       else products extracted |}.

Definition initialExtracted : Extracted :=
  {| subscriptionRevenue := zero; oneTimeRevenue := zero; newSubscriptions := zero;
     products := [] |}.

(** [extractSubscriptionFromSales(parsedData)]. *)
Definition extractSubscriptionFromSales (parsedData : ParsedReport) : Extracted :=
  let extracted := fold_left extractStep (rows parsedData) initialExtracted in
  {| subscriptionRevenue := subscriptionRevenue extracted;
     oneTimeRevenue := oneTimeRevenue extracted;
     newSubscriptions := newSubscriptions extracted;
     products :=
       sort (fun a b => PrimFloat.sub (sp_revenue b) (sp_revenue a)) (products extracted) |}.

(** The value [null]. *)
Inductive Null := null.

(** The object [results] of [getSubscriptionRenewals]. *)
Record Renewals := mkRenewals {
  r_date : string;
  r_renewalData : option Analysis;
  r_newSubscriptions : Null;
  r_salesData : option Extracted;
  r_totalRenewals : number;
  r_totalNewSubscriptions : number;
  r_estimatedMRR : number;
  r_dataSource : string
}.

(** [calculateEstimatedMRR(data)]. *)
Definition calculateEstimatedMRR (data : Renewals) : number :=
  let fromSales :=
    match r_salesData data with
    | Some sales =>
        let estimatedActiveBase := PrimFloat.mul (newSubscriptions sales) 10 in
        let averagePrice' :=
          PrimFloat.div (subscriptionRevenue sales) (newSubscriptions sales) in
        PrimFloat.mul estimatedActiveBase averagePrice'
    | None => zero
    end in
  match r_renewalData data with
  | Some renewal =>
      if gt (activeSubscribers renewal) zero
      then PrimFloat.mul (activeSubscribers renewal) (averagePrice renewal)
      else fromSales
  | None => fromSales
  end.

(** The array [subscriptionParams]: report type, sub-type and version. *)
Definition subscriptionParams : list (string * string * string) :=
  [ ("SUBSCRIPTION", "SUMMARY", "1_2");
    ("SUBSCRIPTION", "DETAILED", "1_2");
    ("SUBSCRIPTION_EVENT", "SUMMARY", "1_2");
    ("SUBSCRIBER", "DETAILED", "1_3") ].

(** The query of one attempt. *)
Definition fullParams (vendor targetDate : string) (params : string * string * string)
    : list (string * string) :=
  let '(reportType', reportSubType, version) := params in
  [ ("filter[vendorNumber]", vendor);
    ("filter[reportType]", reportType');
    ("filter[reportSubType]", reportSubType);
    ("filter[frequency]", "DAILY");
    ("filter[reportDate]", targetDate);
    ("filter[version]", version) ].

(** The [try] block of the first loop: the analysis when the report has at
    least one row, nothing when it has none. *)
Definition tryRenewalReport (svc : Service) (vendor targetDate : string)
    (params : string * string * string) : result (option Analysis) :=
  bind (request (client svc) "/salesReports" (fullParams vendor targetDate params))
       (fun response =>
  bind (decompressIfNeeded (runtime svc) response) (fun decompressed =>
  let parsed := parseCSVReport decompressed (fst (fst params)) in
  if (0 <? List.length (rows parsed))%nat
  then Return (Some (analyzeSubscriptionData parsed))
  else Return None)).

(** [for (const params of subscriptionParams) { try { ... break } catch
    (error) { } }]: the renewal data and the data source it leaves. *)
Fixpoint renewalLoop (svc : Service) (vendor targetDate : string)
    (attempts : list (string * string * string)) : option Analysis * string :=
  match attempts with
  | [] => (None, "none")
  | params :: rest =>
      match tryRenewalReport svc vendor targetDate params with
      | Return (Some analysis) => (Some analysis, fst (fst params))
      | Return None => renewalLoop svc vendor targetDate rest
      | Throw _ => renewalLoop svc vendor targetDate rest
      end
  end.

(** The [try] block of the second step: the sales data when the daily sales
    report has at least one row. *)
Definition trySalesReport (svc : Service) (vendor targetDate : string)
    : result (option Extracted) :=
  bind (request (client svc) "/salesReports"
          (fullParams vendor targetDate ("SALES", "SUMMARY", "1_1")))
       (fun salesResponse =>
  bind (decompressIfNeeded (runtime svc) salesResponse) (fun salesDecompressed =>
  let salesParsed := parseCSVReport salesDecompressed "SALES" in
  if (0 <? List.length (rows salesParsed))%nat
  then Return (Some (extractSubscriptionFromSales salesParsed))
  else Return None)).

(** [getSubscriptionRenewals(date)]. *)
Definition getSubscriptionRenewals (svc : Service) (date : option string)
    : result Renewals :=
  match vendorNumber svc with
  | Some vendor =>
      if truthyS vendor then
        let targetDate := orS date (yesterdayDate svc) in
        let '(renewalData, source) :=
          renewalLoop svc vendor targetDate subscriptionParams in
        let salesData :=
          match trySalesReport svc vendor targetDate with
          | Return found => found
          | Throw _ => None
          end in
        let results :=
          {| r_date := targetDate;
             r_renewalData := renewalData;
             r_newSubscriptions := null;
             r_salesData := salesData;
             r_totalRenewals := zero;
             r_totalNewSubscriptions :=
               match salesData with
               | Some sales => orN (newSubscriptions sales) zero
               | None => zero
               end;
             r_estimatedMRR := zero;
             r_dataSource :=
               match salesData, renewalData with
               | Some _, None => "SALES_INFERRED"
               | _, _ => source
               end |} in
        Return {| r_date := r_date results;
                  r_renewalData := r_renewalData results;
                  r_newSubscriptions := r_newSubscriptions results;
                  r_salesData := r_salesData results;
                  r_totalRenewals := r_totalRenewals results;
                  r_totalNewSubscriptions := r_totalNewSubscriptions results;
                  r_estimatedMRR := calculateEstimatedMRR results;
                  r_dataSource := r_dataSource results |}
      else Throw (mkError "Vendor number required for subscription reports")
  | None => Throw (mkError "Vendor number required for subscription reports")
  end.

End SubscriptionService.

(* ===================================================================== *)
(** * FinanceReportService (src/services/finance-report-service.ts) *)
(* ===================================================================== *)

Module FinanceReportService.
Import JS.

Record Metadata := mkMetadata {
  meta_reportType : string;
  meta_regionCode : string;
  meta_fiscalPeriod : string
}.

(** A row of the financial report: its columns, and [_revenue] when the
    report has a revenue column. *)
Record Row := mkRow {
  fields : gmap string string;
  _revenue : option number
}.

Record ParsedFinanceReport := mkReport {
  headers : list string;
  rows : list Row;
  totalRevenue : number;
  rowCount : nat;
  metadata : Metadata
}.

(** The decompression prologue of [parseFinanceReport]: [gunzipSync] is
    called outside of any [try]. *)
Definition decodeContent (rt : Runtime) (data : Payload) : result string :=
  match data with
  | PBuffer b =>
      if (2 <? List.length b)%nat
         && FinanceService.isGzipMagic (at_ b 0) (at_ b 1) then
        bind (gunzipSync rt b) (fun decompressed => Return (toStringUtf8 rt decompressed))
      else Return (toStringUtf8 rt b)
  | PString s => Return s
  | PJson text => Return text
  end.

(** The column indices [parseFinanceReport] looks up in the header. *)
Record Columns := mkColumns {
  quantityIdx : option nat;
  extendedShareIdx : option nat;
  partnerShareIdx : option nat;
  salesReturnIdx : option nat;
  currencyIdx : option nat
}.

Definition findColumns (headers : list string) : Columns :=
  {| quantityIdx :=
       findIndex (fun h => includes "quantity" (toLowerCase h) || String.eqb h "Units") headers;
     extendedShareIdx :=
       findIndex (fun h => String.eqb h "Extended Partner Share" || includes "Extended" h) headers;
     partnerShareIdx :=
       findIndex (fun h => String.eqb h "Partner Share" || includes "Partner Share" h) headers;
     salesReturnIdx :=
       findIndex (fun h => String.eqb h "Sales or Return" || includes "Sales" h) headers;
     currencyIdx :=
       findIndex (fun h => String.eqb h "Partner Share Currency" || includes "Currency" h) headers |}.

(** [extendedShareIdx >= 0 ? extendedShareIdx : partnerShareIdx]. *)
Definition revenueIdx (cols : Columns) : option nat :=
  match extendedShareIdx cols with
  | Some i => Some i
  | None => partnerShareIdx cols
  end.

(** [parseFloat(values[revenueIdx] || '0')]. *)
Definition revenueValue (values : list string) (idx : nat) : number :=
  parseFloat (orS (at_ values idx) "0").

(** What one data line does to [totalRevenue]. *)
Definition addRevenue (cols : Columns) (values : list string) (totalRevenue : number)
    : number :=
  match revenueIdx cols with
  | Some ridx =>
      let v := revenueValue values ridx in
      match salesReturnIdx cols with
      | Some sidx =>
          match at_ values sidx with
          | Some flag =>
              if String.eqb flag "S" then PrimFloat.add totalRevenue v
              else if String.eqb flag "R" then PrimFloat.sub totalRevenue v
              else totalRevenue
          | None => totalRevenue
          end
      | None => PrimFloat.add totalRevenue v
      end
  | None => totalRevenue
  end.

(** One turn of the row loop: the row pushed and the new [totalRevenue]. *)
Definition rowStep (headers : list string) (cols : Columns)
    (acc : list Row * number) (line : string) : list Row * number :=
  let '(rows, totalRevenue) := acc in
  let values := split "009" line in
  let row := FinanceService.fillRow headers values 0 ∅ in
  let revenue := option_map (revenueValue values) (revenueIdx cols) in
  ((rows ++ [{| fields := row; _revenue := revenue |}])%list,
   addRevenue cols values totalRevenue).

(** [parseFinanceReport(data, metadata)]. *)
Definition parseFinanceReport (rt : Runtime) (data : Payload) (metadata : Metadata)
    : result ParsedFinanceReport :=
  bind (decodeContent rt data) (fun content =>
    match FinanceService.nonBlankLines content with
    | [] =>
        Return {| headers := []; rows := []; totalRevenue := zero; rowCount := O;
                  metadata := metadata |}
    | first :: rest =>
        let headers := map trim (split "009" first) in
        let cols := findColumns headers in
        let '(rows, totalRevenue) := fold_left (rowStep headers cols) rest ([], zero) in
        Return {| headers := headers; rows := rows; totalRevenue := totalRevenue;
                  rowCount := List.length rows; metadata := metadata |}
    end).

(** The table [fiscalMonthMap]: a calendar month outside 1..12 has no
    entry. *)
Definition fiscalMonthMap (month : Z) : option Z :=
  if month =? 10 then Some 1
  else if month =? 11 then Some 2
  else if month =? 12 then Some 3
  else if month =? 1 then Some 4
  else if month =? 2 then Some 5
  else if month =? 3 then Some 6
  else if month =? 4 then Some 7
  else if month =? 5 then Some 8
  else if month =? 6 then Some 9
  else if month =? 7 then Some 10
  else if month =? 8 then Some 11
  else if month =? 9 then Some 12
  else None.

(** [month >= 10 ? year + 1 : year]: the year is a binary64 number, here
    the one the integer [year] stands for, and the sum is rounded as the
    sums of binary64 are. *)
Definition fiscalYear (year month : Z) : number :=
  if 10 <=? month then PrimFloat.add (ofInt year) 1 else ofInt year.

(** [getFiscalPeriod(year, month)] for integer arguments:
    [`${fiscalYear}-${String(fiscalMonth).padStart(2, '0')}`], the fiscal
    year printed as a number is. *)
Definition getFiscalPeriod (year month : Z) : string :=
  String.append (numberToString (fiscalYear year month))
    (String.append "-" (padStart 2 "0" (stringOfOptInt (fiscalMonthMap month)))).

(** Reading a fiscal label back into its two numbers, as the first line of
    [isLatestAvailableMonth] does: [fiscalPeriod.split('-').map(Number)],
    here on decimal numerals, any other text reading as no number. *)
Definition readInt (s : string) : option Z :=
  option_map Z.of_int (NilZero.int_of_string s).

Definition parseFiscalPeriod (fiscalPeriod : string) : option (Z * Z) :=
  match split "-" fiscalPeriod with
  | y :: m :: _ =>
      match readInt y, readInt m with
      | Some fy, Some fm => Some (fy, fm)
      | _, _ => None
      end
  | _ => None
  end.

(** The inverse mapping that the specification of the fiscal translation
    speaks of (fiscal mapping bijectivity); the service itself has no such
    function.  It follows the specification's words: a fiscal label is read
    back into its two numbers; fiscal months 1..3 are October..December of
    the calendar year before the fiscal year, fiscal months 4..12 are
    January..September of the fiscal year itself. *)
Definition calendarOfFiscalPeriod (fiscalPeriod : string) : option (Z * Z) :=
  match parseFiscalPeriod fiscalPeriod with
  | Some (fy, fm) =>
      if (1 <=? fm) && (fm <=? 3) then Some (fy - 1, fm + 9)
      else if (4 <=? fm) && (fm <=? 12) then Some (fy, fm - 3)
      else None
  | None => None
  end.

(** ** The report getters and the monthly summary *)

(** The service object: the client, the vendor number given to the
    constructor, and the zlib and Buffer runtime. *)
Record Service := mkService {
  client : AppStoreClient;
  vendorNumber : string;
  runtime : Runtime
}.

(** The query of the two getters, with the default region filled in. *)
Definition reportParams (svc : Service) (reportType defaultRegion fiscalPeriod : string)
    (regionCode : option string) : list (string * string) :=
  [ ("filter[reportType]", reportType);
    ("filter[regionCode]", orS regionCode defaultRegion);
    ("filter[reportDate]", fiscalPeriod);
    ("filter[vendorNumber]", vendorNumber svc) ].

(** [getFinancialReport({ fiscalPeriod, regionCode })]. *)
Definition getFinancialReport (svc : Service) (fiscalPeriod : string)
    (regionCode : option string) : result ParsedFinanceReport :=
  bind (request (client svc) "/financeReports"
          (reportParams svc "FINANCIAL" "US" fiscalPeriod regionCode))
       (fun response =>
  parseFinanceReport (runtime svc) response
    {| meta_reportType := "FINANCIAL";
       meta_regionCode := orS regionCode "US";
       meta_fiscalPeriod := fiscalPeriod |}).

(** [getFinanceDetailReport({ fiscalPeriod, regionCode })]. *)
Definition getFinanceDetailReport (svc : Service) (fiscalPeriod : string)
    (regionCode : option string) : result ParsedFinanceReport :=
  bind (request (client svc) "/financeReports"
          (reportParams svc "FINANCE_DETAIL" "Z1" fiscalPeriod regionCode))
       (fun response =>
  parseFinanceReport (runtime svc) response
    {| meta_reportType := "FINANCE_DETAIL";
       meta_regionCode := orS regionCode "Z1";
       meta_fiscalPeriod := fiscalPeriod |}).

(** [`${v}`] of a number or [undefined]. *)
Definition stringOfOptNumber (v : option number) : string :=
  match v with
  | Some x => numberToString x
  | None => "undefined"
  end.

(** The period [isLatestAvailableMonth] probes: the label is split at its
    hyphens, the first two pieces are read with [Number], and the fiscal
    month is advanced, a twelfth month wrapping to the first of the next
    fiscal year.  A label with a single piece leaves the month
    [undefined]. *)
Definition nextFiscalPeriod (fiscalPeriod : string) : string :=
  let parts := map toNumber (split "-" fiscalPeriod) in
  let fiscalYear := at_ parts 0 in
  let fiscalMonth := at_ parts 1 in
  let isTwelve := match fiscalMonth with
                  | Some m => PrimFloat.eqb m 12
                  | None => false
                  end in
  let nextFiscalMonth :=
    if isTwelve then 1%float
    else match fiscalMonth with
         | Some m => PrimFloat.add m 1
         | None => nan
         end in
  let nextFiscalYear :=
    if isTwelve
    then Some (match fiscalYear with
               | Some y => PrimFloat.add y 1
               | None => nan
               end)
    else fiscalYear in
  String.append (stringOfOptNumber nextFiscalYear)
    (String.append "-" (padStart 2 "0" (numberToString nextFiscalMonth))).

(** [isLatestAvailableMonth(fiscalPeriod)]. *)
Definition isLatestAvailableMonth (svc : Service) (fiscalPeriod : string) : bool :=
  match getFinancialReport svc (nextFiscalPeriod fiscalPeriod) (Some "US") with
  | Return _ => false
  | Throw _ => true
  end.

(** The regions [getMonthlySummary] adds up: code and name. *)
Definition regions : list (string * string) :=
  [ ("US", "United States");
    ("CA", "Canada");
    ("EU", "Europe");
    ("JP", "Japan");
    ("AU", "Australia");
    ("WW", "Rest of World") ].

(** [row[report.headers[idx]]]: a missing header would read the key
    ['undefined']. *)
Definition readColumn (report : ParsedFinanceReport) (row : Row) (idx : nat)
    : option string :=
  match at_ (headers report) idx with
  | Some header => fields row !! header
  | None => fields row !! "undefined"
  end.

(** [row._revenue || 0]. *)
Definition rowRevenue (row : Row) : number :=
  match _revenue row with
  | Some v => orN v zero
  | None => zero
  end.

(** The body of [report.rows.forEach(row => ...)], on [byProduct],
    [salesRevenue] and [returnsRevenue]. *)
Definition productStep (report : ParsedFinanceReport)
    (acc : Map number * number * number) (row : Row) : Map number * number * number :=
  let '(byProduct, salesRevenue, returnsRevenue) := acc in
  let productIdx :=
    findIndex (fun h => String.eqb h "Vendor Identifier" || String.eqb h "SKU")
              (headers report) in
  let returnIdx := findIndex (fun h => String.eqb h "Sales or Return") (headers report) in
  match productIdx with
  | Some pidx =>
      let product := orS (readColumn report row pidx) "Unknown" in
      let revenue := rowRevenue row in
      let byProduct' := FinanceService.addTo product revenue byProduct in
      match returnIdx with
      | Some ridx =>
          match readColumn report row ridx with
          | Some salesOrReturn =>
              if String.eqb salesOrReturn "S"
              then (byProduct', PrimFloat.add salesRevenue revenue, returnsRevenue)
              else if String.eqb salesOrReturn "R"
              then (byProduct', salesRevenue, PrimFloat.add returnsRevenue (mathAbs revenue))
              else (byProduct', salesRevenue, returnsRevenue)
          | None => (byProduct', salesRevenue, returnsRevenue)
          end
      | None => (byProduct', salesRevenue, returnsRevenue)
      end
  | None => acc
  end.

(** The variables the region loop of [getMonthlySummary] updates, and the
    console. *)
Record SummaryState := mkSummaryState {
  st_totalRevenue : number;
  st_byProduct : Map number;
  st_byRegion : Map number;
  st_salesRevenue : number;
  st_returnsRevenue : number;
  st_hasData : bool;
  st_console : list string
}.

Definition initialSummaryState : SummaryState :=
  {| st_totalRevenue := zero; st_byProduct := []; st_byRegion := [];
     st_salesRevenue := zero; st_returnsRevenue := zero; st_hasData := false;
     st_console := [] |}.

(** What a resolved regional report adds. *)
Definition addRegion (st : SummaryState) (name : string) (report : ParsedFinanceReport)
    : SummaryState :=
  if gt (totalRevenue report) zero then
    let '(byProduct, salesRevenue, returnsRevenue) :=
      fold_left (productStep report) (rows report)
                (st_byProduct st, st_salesRevenue st, st_returnsRevenue st) in
    {| st_totalRevenue := PrimFloat.add (st_totalRevenue st) (totalRevenue report);
       st_byProduct := byProduct;
       st_byRegion := mapSet name (totalRevenue report) (st_byRegion st);
       st_salesRevenue := salesRevenue;
       st_returnsRevenue := returnsRevenue;
       st_hasData := true;
       st_console := st_console st |}
  else st.

(** The [catch] block of the region loop: [console.error] prints its two
    arguments with a space between them. *)
Definition catchRegion (st : SummaryState) (name : string) (error : Error) : SummaryState :=
  if negb (includes "404" (message error)) then
    {| st_totalRevenue := st_totalRevenue st;
       st_byProduct := st_byProduct st;
       st_byRegion := st_byRegion st;
       st_salesRevenue := st_salesRevenue st;
       st_returnsRevenue := st_returnsRevenue st;
       st_hasData := st_hasData st;
       st_console := st_console st ++
         [String.append "Error fetching "
            (String.append name (String.append " data: " (message error)))] |}
  else st.

(** One turn of [for (const { code, name } of regions)]. *)
Definition regionStep (svc : Service) (fiscalPeriod : string) (st : SummaryState)
    (region : string * string) : SummaryState :=
  let '(code, name) := region in
  match getFinancialReport svc fiscalPeriod (Some code) with
  | Return report => addRegion st name report
  | Throw error => catchRegion st name error
  end.

Record SalesVsReturns := mkSalesVsReturns {
  sales : number;
  returns : number
}.

Record SummaryMetadata := mkSummaryMetadata {
  sm_fiscalPeriod : string;
  sm_month : string;
  sm_year : Z;
  sm_isLatestAvailable : bool
}.

Record MonthlySummary := mkMonthlySummary {
  sum_totalRevenue : number;
  sum_byProduct : Map number;
  sum_byRegion : Map number;
  sum_salesVsReturns : SalesVsReturns;
  sum_metadata : SummaryMetadata
}.

(** [`${year}-${String(month).padStart(2, '0')}`], the two integers
    printed as the numbers they stand for. *)
Definition monthLabel (year month : Z) : string :=
  String.append (numberToString (ofInt year))
    (String.append "-" (padStart 2 "0" (numberToString (ofInt month)))).

(** [getMonthlySummary(year, month)] for integer arguments: the summary
    and the lines written to the console. *)
Definition getMonthlySummary (svc : Service) (year month : Z)
    : MonthlySummary * list string :=
  let fiscalPeriod := getFiscalPeriod year month in
  let st := fold_left (regionStep svc fiscalPeriod) regions initialSummaryState in
  let isLatestAvailable := isLatestAvailableMonth svc fiscalPeriod in
  ({| sum_totalRevenue := st_totalRevenue st;
      sum_byProduct := st_byProduct st;
      sum_byRegion := st_byRegion st;
      sum_salesVsReturns :=
        {| sales := st_salesRevenue st; returns := st_returnsRevenue st |};
      sum_metadata :=
        {| sm_fiscalPeriod := fiscalPeriod;
           sm_month := monthLabel year month;
           sm_year := year;
           sm_isLatestAvailable := isLatestAvailable |} |},
   st_console st).

(** What [getLatestAvailable] resolves to. *)
Record LatestAvailable := mkLatestAvailable {
  la_totalRevenue : number;
  la_byRegion : Map number;
  la_fiscalPeriod : string;
  la_month : string
}.

(** [new Date(now.getFullYear(), now.getMonth() - i, 1)], read back with
    [getFullYear()] and [getMonth() + 1]: the month [i] months before the
    current one.  [nowMonth] is the month index 0..11 of the clock. *)
Definition testMonth (nowYear nowMonth i : Z) : Z * Z :=
  (nowYear + (nowMonth - i) / 12, (nowMonth - i) mod 12 + 1).

(** The loop [for (let i = 0; i < 3; i++)] of [getLatestAvailable] from
    the months [tests] on, then the final [throw]. *)
Fixpoint latestLoop (svc : Service) (tests : list (Z * Z)) (console : list string)
    : result LatestAvailable * list string :=
  match tests with
  | [] => (Throw (mkError "No financial reports available in the last 3 months"),
           console)
  | (year, month) :: rest =>
      let fiscalPeriod := getFiscalPeriod year month in
      match getFinancialReport svc fiscalPeriod (Some "US") with
      | Return _ =>
          let '(summary, logged) := getMonthlySummary svc year month in
          if gt (sum_totalRevenue summary) zero then
            (Return {| la_totalRevenue := sum_totalRevenue summary;
                       la_byRegion := sum_byRegion summary;
                       la_fiscalPeriod := fiscalPeriod;
                       la_month := monthLabel year month |},
             (console ++ logged)%list)
          else latestLoop svc rest (console ++ logged)%list
      | Throw _ => latestLoop svc rest console
      end
  end.

(** [getLatestAvailable()] at a clock whose local date has the year
    [nowYear] (four digits, as today's) and the month index [nowMonth]. *)
Definition getLatestAvailable (svc : Service) (nowYear nowMonth : Z)
    : result LatestAvailable * list string :=
  latestLoop svc (map (testMonth nowYear nowMonth) [0; 1; 2]) [].

End FinanceReportService.

(* ===================================================================== *)
(** * Sample reports and environments *)
(* ===================================================================== *)

Module Sample.
Import JS.

(** Tab-separated text: cells joined by TAB, lines by LF. *)
Definition tsv (lines : list (list string)) : string :=
  String.concat (String "010" EmptyString)
    (map (String.concat (String "009" EmptyString)) lines).

(** A runtime whose inflation rejects every stream and whose decoding reads
    ASCII bytes as they are. *)
Definition runtime : Runtime :=
  {| inflate := fun _ => Throw (mkError "incorrect header check");
     toStringUtf8 := string_of_list_ascii |}.

(** The gzip magic number followed by one stray byte. *)
Definition brokenGzip : Buffer := [ascii_of_N 31; ascii_of_N 139; ascii_of_N 0].

Definition metadata : FinanceReportService.Metadata :=
  {| FinanceReportService.meta_reportType := "FINANCIAL";
     FinanceReportService.meta_regionCode := "US";
     FinanceReportService.meta_fiscalPeriod := "2025-10" |}.

(** The sales row of the Indonesian purchase. *)
Definition idrRow : gmap string string :=
  <["Developer Proceeds" := "3.62"]>
    (<["Customer Currency" := "IDR"]> (<["Customer Price" := "56126"]> ∅)).

Definition idrReport : string :=
  tsv [ ["Developer Proceeds"; "Customer Currency"; "Customer Price"];
        ["3.62"; "IDR"; "56126"] ].

(** A euro purchase: proceeds 5 on a customer price of 10. *)
Definition eurReport : string :=
  tsv [ ["Developer Proceeds"; "Customer Currency"; "Customer Price"];
        ["5"; "EUR"; "10"] ].

(** A row whose proceeds column is not a numeral. *)
Definition garbledReport : string :=
  tsv [ ["Developer Proceeds"; "Customer Currency"]; ["N/A"; "USD"] ].

(** One sale of 100 and one return of 20, both in USD. *)
Definition saleAndReturn : string :=
  tsv [ ["Partner Share"; "Sales or Return"; "Partner Share Currency"];
        ["100"; "S"; "USD"];
        ["20"; "R"; "USD"] ].

(** One sale of 100 and one return whose partner share is written with
    its sign, -20. *)
Definition saleAndNegativeReturn : string :=
  tsv [ ["Partner Share"; "Sales or Return"; "Partner Share Currency"];
        ["100"; "S"; "USD"];
        ["-20"; "R"; "USD"] ].

(** The sale of 100 and the return of 20 in a text whose lines end in
    CR LF, the flag being the last column. *)
Definition saleAndReturnCRLF : string :=
  String.concat EmptyString
    (map (fun cells =>
            String.append (String.concat (String "009" EmptyString) cells)
                          (String "013" (String "010" EmptyString)))
         [ ["Partner Share"; "Sales or Return"];
           ["100"; "S"];
           ["20"; "R"] ]).



(** A single row of fifty million dollars. *)
Definition absurdReport : FinanceService.ParsedReport :=
  FinanceService.parseCSVReport
    (tsv [ ["SKU"; "Country Code"; "Developer Proceeds"; "Customer Currency"];
           ["pro.yearly"; "US"; "50000000"; "USD"] ]) "SALES".

(** A day's report with one transaction of 100 dollars. *)
Definition hundredDollarDay : string :=
  tsv [ ["Title"; "Country Code"; "Developer Proceeds"; "Customer Currency"];
        ["Pro"; "US"; "100"; "USD"] ].

(** The [reportDate] filter of a request. *)
Definition reportDate (params : list (string * string)) : string :=
  match mapGet "filter[reportDate]" params with
  | Some d => d
  | None => ""
  end.

(** An upstream that has no report for 5 and 17 January 2025 (an HTTP 404)
    and one transaction of 100 dollars on every other day. *)
Definition januaryClient : AppStoreClient :=
  {| request := fun _ params =>
       if String.eqb (reportDate params) "2025-01-05"
          || String.eqb (reportDate params) "2025-01-17"
       then Throw (mkError "API Error (404): Request failed with status code 404")
       else Return (PString hundredDollarDay) |}.

Definition januaryService : FinanceService.Service :=
  {| FinanceService.client := januaryClient;
     FinanceService.vendorNumber := Some "85000000";
     FinanceService.runtime := runtime;
     FinanceService.yesterdayDate := "2025-02-01" |}.

(** A day's report without activity: the header line and no row. *)
Definition quietDay : string :=
  tsv [ ["Title"; "Country Code"; "Developer Proceeds"; "Customer Currency"] ].

(** The upstream of [januaryClient], except that 10 January 2025 was a day
    without activity: its report comes back, with the header line only. *)
Definition quietJanuaryClient : AppStoreClient :=
  {| request := fun endpoint params =>
       if String.eqb (reportDate params) "2025-01-10"
       then Return (PString quietDay)
       else request januaryClient endpoint params |}.

Definition quietJanuaryService : FinanceService.Service :=
  {| FinanceService.client := quietJanuaryClient;
     FinanceService.vendorNumber := Some "85000000";
     FinanceService.runtime := runtime;
     FinanceService.yesterdayDate := "2025-02-01" |}.

(** The [reportType] filter of a request. *)
Definition reportTypeOf (params : list (string * string)) : string :=
  match mapGet "filter[reportType]" params with
  | Some t => t
  | None => ""
  end.

(** A day's sales report with one in-app purchase that is no subscription. *)
Definition coinsDay : string :=
  tsv [ ["Title"; "Product Type Identifier"; "Units"; "Developer Proceeds"];
        ["Coins"; "IA1"; "3"; "2.5"] ].

(** A subscription-event report with two active subscribers paying 10. *)
Definition eventDay : string :=
  tsv [ ["SKU"; "Country Code"; "Active Standard Price Subscriptions";
         "Developer Proceeds"];
        ["pro.monthly"; "US"; "2"; "10"] ].

(** An upstream with no subscription report of any kind (an HTTP 404) and
    the sales report [coinsDay]. *)
Definition oneTimeClient : AppStoreClient :=
  {| request := fun _ params =>
       if String.eqb (reportTypeOf params) "SALES"
       then Return (PBuffer (list_ascii_of_string coinsDay))
       else Throw (mkError "API Error (404): Request failed with status code 404") |}.

Definition oneTimeService : SubscriptionService.Service :=
  {| SubscriptionService.client := oneTimeClient;
     SubscriptionService.vendorNumber := Some "85000000";
     SubscriptionService.runtime := runtime;
     SubscriptionService.yesterdayDate := "2025-02-01" |}.

(** An upstream whose only subscription report is the event report. *)
Definition eventClient : AppStoreClient :=
  {| request := fun _ params =>
       if String.eqb (reportTypeOf params) "SUBSCRIPTION_EVENT"
       then Return (PBuffer (list_ascii_of_string eventDay))
       else Throw (mkError "API Error (404): Request failed with status code 404") |}.

Definition eventService : SubscriptionService.Service :=
  {| SubscriptionService.client := eventClient;
     SubscriptionService.vendorNumber := Some "85000000";
     SubscriptionService.runtime := runtime;
     SubscriptionService.yesterdayDate := "2025-02-01" |}.

(** The [regionCode] filter of a request. *)
Definition regionCodeOf (params : list (string * string)) : string :=
  match mapGet "filter[regionCode]" params with
  | Some r => r
  | None => ""
  end.

(** A regional financial report: one sale of 140 and one return of 70. *)
Definition usJuly : string :=
  tsv [ ["Vendor Identifier"; "Extended Partner Share"; "Sales or Return";
         "Partner Share Currency"];
        ["pro.yearly"; "140"; "S"; "USD"];
        ["pro.yearly"; "70"; "R"; "USD"] ].

(** A regional financial report with a single return of 50. *)
Definition caJuly : string :=
  tsv [ ["Vendor Identifier"; "Extended Partner Share"; "Sales or Return";
         "Partner Share Currency"];
        ["pro.yearly"; "50"; "R"; "CAD"] ].

(** An upstream that has, for fiscal period 2025-10 (July 2025), the
    report [usJuly] for the US and [caJuly] for Canada, does not answer for
    Japan, and has nothing else (an HTTP 404). *)
Definition julyClient : AppStoreClient :=
  {| request := fun _ params =>
       let missing := Throw (mkError "API Error (404): Request failed with status code 404") in
       match mapGet "filter[reportDate]" params with
       | Some "2025-10" =>
           if String.eqb (regionCodeOf params) "US" then Return (PString usJuly)
           else if String.eqb (regionCodeOf params) "CA" then Return (PString caJuly)
           else if String.eqb (regionCodeOf params) "JP"
           then Throw (mkError "Network error: No response from App Store Connect API")
           else missing
       | _ => missing
       end |}.

Definition julyService : FinanceReportService.Service :=
  {| FinanceReportService.client := julyClient;
     FinanceReportService.vendorNumber := "85000000";
     FinanceReportService.runtime := runtime |}.

(** The error of a missing report as the App Store answers it: status 404
    with an [errors] body. *)
Definition notAvailable : Client.AxiosError :=
  {| Client.response :=
       Some {| Client.status := 404;
               Client.errors :=
                 Some [ {| Client.title := "The specified resource does not exist";
                           Client.detail :=
                             Some "Report is not available yet." |} ] |};
     Client.hasRequest := true;
     Client.errorMessage := "Request failed with status code 404" |}.

(** An upstream with no report at all, answering as the App Store does. *)
Definition emptyStoreClient : AppStoreClient :=
  {| request := fun _ _ => Throw (Client.handleError notAvailable) |}.

Definition emptyStoreService : FinanceReportService.Service :=
  {| FinanceReportService.client := emptyStoreClient;
     FinanceReportService.vendorNumber := "85000000";
     FinanceReportService.runtime := runtime |}.

(** An upstream that hands every report over as a plain string. *)
Definition textClient : AppStoreClient :=
  {| request := fun _ _ => Return (PString coinsDay) |}.

Definition textService : SubscriptionService.Service :=
  {| SubscriptionService.client := textClient;
     SubscriptionService.vendorNumber := Some "85000000";
     SubscriptionService.runtime := runtime;
     SubscriptionService.yesterdayDate := "2025-02-01" |}.

End Sample.

(* ===================================================================== *)
(** * Properties *)
(* ===================================================================== *)

(** ** Numbers and containers *)

Section NumberFacts.
Import JS.

(** The comparison of two specified floats, read in the other direction. *)
Lemma SFcompare_swap (a b : spec_float) :
  SFcompare b a = option_map CompOpp (SFcompare a b).
Proof.
  destruct a as [sa| sa| |sa ma ea], b as [sb| sb| |sb mb eb]; simpl;
    try reflexivity;
    try (destruct sa; reflexivity);
    try (destruct sb; reflexivity);
    try (destruct sa, sb; reflexivity).
  destruct sa, sb; try reflexivity;
    rewrite (Z.compare_antisym ea eb);
    destruct (ea ?= eb)%Z; simpl; try reflexivity;
    change (Pos.compare_cont Eq ?x ?y) with (Pos.compare x y);
    rewrite (Pos.compare_antisym ma mb);
    destruct (ma ?= mb)%positive; reflexivity.
Qed.

(** [x < y] excludes [y < x]. *)
Lemma ltb_asym (x y : number) :
  PrimFloat.ltb x y = true -> PrimFloat.ltb y x = false.
Proof.
  rewrite !ltb_spec. unfold SFltb.
  rewrite (SFcompare_swap (Prim2SF x) (Prim2SF y)).
  destruct (SFcompare (Prim2SF x) (Prim2SF y)) as [[ | | ]|]; simpl; congruence.
Qed.

(** A number above the ceiling is not below it. *)
Lemma above_not_below (x c : number) : gt x c = true -> lt x c = false.
Proof. unfold gt, lt. apply ltb_asym. Qed.

Lemma mapGet_mapSet {V} (k : string) (v : V) (m : Map V) :
  mapGet k (mapSet k v m) = Some v.
Proof.
  induction m as [|[k' v'] m IH]; simpl.
  - now rewrite String.eqb_refl.
  - destruct (String.eqb k k') eqn:E; simpl.
    + now rewrite String.eqb_refl.
    + now rewrite E.
Qed.

End NumberFacts.

(** ** The primitives on sample values *)

Section Primitives.
Import JS.

Example parseFloat_samples :
  map parseFloat ["3.62"; "56126"; "0.000065"; " 12px"; "-.5e1"; "1e400"; "1.e2"]
  = [3.62; 56126; 0.000065; 12; -5; infinity; 100]%float.
Proof. vm_compute. reflexivity. Qed.

Example parseFloat_not_a_number :
  map parseFloat ["N/A"; ""; "."; "e5"; "USD"] = [nan; nan; nan; nan; nan].
Proof. vm_compute. reflexivity. Qed.

Example parseInt10_samples :
  map parseInt10 ["42"; "-7"; "12.9"; "3 units"; "units"] = [42; -7; 12; 3; nan]%float.
Proof. vm_compute. reflexivity. Qed.

Example mathRound_samples :
  map mathRound [2.5; -2.5; 2.4; 123.456; 0.49999999999999994]%float
  = [3; -2; 2; 123; 0]%float.
Proof. vm_compute. reflexivity. Qed.

Example split_trim_samples :
  split "009" (Sample.tsv [["a"; " b "; ""]]) = ["a"; " b "; ""]
  /\ trim " b " = "b"
  /\ split "010" "" = [""]
  /\ padStart 2 "0" (stringOfInt 7) = "07"
  /\ padStart 2 "0" (stringOfInt 12) = "12".
Proof. repeat split; reflexivity. Qed.

Example sort_is_stable :
  sort (fun a b => PrimFloat.sub (snd b) (snd a))
       [("a", 1); ("b", 3); ("c", 1); ("d", 3)]%float
  = [("b", 3); ("d", 3); ("a", 1); ("c", 1)]%float.
Proof. vm_compute. reflexivity. Qed.

Example daysInMonth_samples :
  map (fun '(y, m) => FinanceService.daysInMonth y m)
      [(2025, 1); (2025, 2); (2024, 2); (1900, 2); (2000, 2); (2025, 4); (2025, 12)]
  = [31; 28; 29; 28; 29; 30; 31].
Proof. reflexivity. Qed.

Example rate_lookup_samples :
  FinanceService.convertToUSD 100%float "eur" = 110.00000000000001%float
  /\ FinanceService.convertToUSD 100%float "XXX" = 100%float.
Proof. split; vm_compute; reflexivity. Qed.

End Primitives.

(** ** Decompression *)

Section Decompression.
Import JS.

(** [FinanceService.decompressIfNeeded] never throws: a failed inflation is
    caught and the payload is read as text. *)
Lemma finance_decompress_completes (rt : Runtime) (data : Payload) :
  completes (FinanceService.decompressIfNeeded rt data).
Proof.
  destruct data as [b|s|t]; simpl; try exact I.
  - destruct (_ && _); [|exact I].
    destruct (gunzipSync rt b); exact I.
  - destruct (FinanceService.isGzipMagic _ _); [|exact I].
    destruct (gunzipSync rt _); exact I.
Qed.


(** The prologue of [parseFinanceReport] lets the error of [gunzipSync]
    through, and [parseFinanceReport] with it. *)
Lemma finance_report_decode_raises (rt : Runtime) (b : Buffer) (e : Error)
    (metadata : FinanceReportService.Metadata) :
  (2 < List.length b)%nat ->
  FinanceService.isGzipMagic (at_ b 0) (at_ b 1) = true ->
  gunzipSync rt b = Throw e ->
  FinanceReportService.parseFinanceReport rt (PBuffer b) metadata = Throw e.
Proof.
  intros Hlen Hmagic Hgz.
  unfold FinanceReportService.parseFinanceReport, FinanceReportService.decodeContent.
  apply Nat.ltb_lt in Hlen. rewrite Hlen, Hmagic, Hgz. reflexivity.
Qed.

(** C9: on a buffer that starts with the gzip magic number and does not
    inflate, [parseFinanceReport] throws the error of [gunzipSync], where
    both [decompressIfNeeded] return the bytes read as text. *)
Theorem broken_gzip_escapes_parseFinanceReport
    (rt : Runtime) (metadata : FinanceReportService.Metadata) :
  FinanceReportService.parseFinanceReport rt (PBuffer Sample.brokenGzip) metadata
    = Throw (mkError "unexpected end of file")
  /\ FinanceService.decompressIfNeeded rt (PBuffer Sample.brokenGzip)
    = Return (toStringUtf8 rt Sample.brokenGzip)
  /\ SubscriptionService.decompressIfNeeded rt (PBuffer Sample.brokenGzip)
    = Return (toStringUtf8 rt Sample.brokenGzip).
Proof. split; [|split]; reflexivity. Qed.

End Decompression.

(** ** Proceeds of the sales and subscription reports *)

Section Proceeds.
Import JS.

(** Two numbers that the primitive equality tells apart are different. *)
Lemma number_neq (x y : number) : PrimFloat.Leibniz.eqb x y = false -> x <> y.
Proof.
  intros H E. subst y.
  assert (PrimFloat.Leibniz.eqb x x = true) by (apply FloatAxioms.Leibniz.eqb_spec; reflexivity).
  congruence.
Qed.

(** In [SubscriptionService], a row's [_proceedsUSD] is the number parsed
    from its proceeds column, whatever the other columns say. *)
Lemma subscription_proceeds_identity (csvData reportType : string) :
  Forall (fun r => SubscriptionService._proceedsUSD r
                   = parseFloat (SubscriptionService.proceedsText (SubscriptionService.fields r)))
         (SubscriptionService.rows (SubscriptionService.parseCSVReport csvData reportType)).
Proof.
  unfold SubscriptionService.parseCSVReport.
  destruct (negb (truthyS csvData)); [constructor|].
  destruct (FinanceService.nonBlankLines csvData) as [|first rest]; [constructor|].
  simpl. apply List.Forall_forall. intros r Hr.
  apply in_map_iff in Hr. destruct Hr as [line [<- _]]. reflexivity.
Qed.

(** In [FinanceService], [_proceedsRaw] is that parsed number, and
    [_proceedsUSD] is the same number for a customer who paid in USD. *)
Lemma finance_proceeds_identity_usd (row : gmap string string) :
  orS (row !! "Customer Currency") "USD" = "USD" ->
  FinanceService._proceedsUSD (FinanceService.enhanceRow row)
  = FinanceService._proceedsRaw (FinanceService.enhanceRow row).
Proof.
  intros H. unfold FinanceService.enhanceRow. simpl. rewrite H. reflexivity.
Qed.

(** An absent or empty proceeds column parses as zero. *)
Lemma finance_missing_proceeds_zero (row : gmap string string) :
  truthyO (orElse (row !! "Developer Proceeds") (row !! "Proceeds")) = false ->
  FinanceService._proceedsRaw (FinanceService.enhanceRow row) = zero.
Proof.
  intros H. unfold FinanceService.enhanceRow. simpl.
  destruct (orElse _ _) as [s|]; simpl in *.
  - rewrite H. reflexivity.
  - reflexivity.
Qed.

(** C1: for a euro purchase with proceeds 5 on a customer price of 10,
    [FinanceService.parseCSVReport] multiplies the proceeds by the euro
    rate ([_proceedsUSD] is 5.5 for a parsed value of 5), where
    [SubscriptionService.parseCSVReport] keeps the parsed value. *)
Theorem euro_proceeds_are_converted :
  map (fun r => (FinanceService._proceedsRaw r, FinanceService._proceedsUSD r))
      (FinanceService.rows (FinanceService.parseCSVReport Sample.eurReport "SALES"))
    = [(5%float, 5.5%float)]
  /\ map SubscriptionService._proceedsUSD
       (SubscriptionService.rows (SubscriptionService.parseCSVReport Sample.eurReport "SALES"))
    = [5%float].
Proof. split; vm_compute; reflexivity. Qed.

(** C2: for the row with Developer Proceeds 3.62, Customer Currency IDR and
    Customer Price 56126, [_proceedsUSD] is 3.62: neither 3.62 times the
    rupiah rate nor 56126.  The same holds for the row parsed from text. *)
Theorem idr_row_keeps_proceeds :
  FinanceService._proceedsUSD (FinanceService.enhanceRow Sample.idrRow) = 3.62%float
  /\ FinanceService._proceedsUSD (FinanceService.enhanceRow Sample.idrRow)
     <> FinanceService.convertToUSD 3.62%float "IDR"
  /\ FinanceService._proceedsUSD (FinanceService.enhanceRow Sample.idrRow) <> 56126%float
  /\ map FinanceService._proceedsUSD
       (FinanceService.rows (FinanceService.parseCSVReport Sample.idrReport "SALES"))
     = [3.62%float].
Proof.
  split; [|split; [|split]].
  - vm_compute. reflexivity.
  - apply number_neq. vm_compute. reflexivity.
  - apply number_neq. vm_compute. reflexivity.
  - vm_compute. reflexivity.
Qed.

(** C8: a proceeds column that is not a numeral gives a [_proceedsUSD] of
    NaN, not 0, in both services. *)
Theorem garbled_proceeds_are_nan :
  map FinanceService._proceedsUSD
      (FinanceService.rows (FinanceService.parseCSVReport Sample.garbledReport "SALES"))
    = [nan]
  /\ map SubscriptionService._proceedsUSD
       (SubscriptionService.rows
          (SubscriptionService.parseCSVReport Sample.garbledReport "SUBSCRIPTION"))
    = [nan].
Proof. split; vm_compute; reflexivity. Qed.

End Proceeds.

(** ** Fiscal periods *)

Section FiscalPeriod.
Import JS FinanceReportService.

(** A text without the separator, followed by the separator, is the first
    piece of the split. *)
Lemma split_first_piece (sep : ascii) (s rest : string) :
  includes (String sep EmptyString) s = false ->
  split sep (String.append s (String sep rest)) = s :: split sep rest.
Proof.
  induction s as [|c s IH]; simpl; intros H.
  - now rewrite Ascii.eqb_refl.
  - apply orb_false_iff in H. destruct H as [Hc Hs].
    rewrite andb_true_r in Hc. rewrite Ascii.eqb_sym in Hc. rewrite Hc.
    rewrite (IH Hs). reflexivity.
Qed.

(** A text without the separator is the only piece of its split. *)
Lemma split_single_piece (sep : ascii) (s : string) :
  includes (String sep EmptyString) s = false -> split sep s = [s].
Proof.
  induction s as [|c s IH]; simpl; intros H.
  - reflexivity.
  - apply orb_false_iff in H. destruct H as [Hc Hs].
    rewrite andb_true_r in Hc. rewrite Ascii.eqb_sym in Hc. rewrite Hc.
    rewrite (IH Hs). reflexivity.
Qed.

Lemma numeral_has_no_minus (d : Decimal.uint) :
  includes "-" (NilEmpty.string_of_uint d) = false.
Proof. induction d; simpl; auto. Qed.

(** The numeral of a natural number has no minus sign ... *)
Lemma stringOfInt_no_minus (n : Z) : 0 <= n -> includes "-" (stringOfInt n) = false.
Proof.
  intros Hn. unfold stringOfInt.
  destruct n as [|p|p]; [reflexivity| |lia].
  simpl. unfold NilZero.string_of_uint.
  destruct (Pos.to_uint p) eqn:E; try reflexivity;
    rewrite <- E; apply numeral_has_no_minus.
Qed.

(** ... and reads back as the number. *)
Lemma readInt_stringOfInt (n : Z) : readInt (stringOfInt n) = Some n.
Proof.
  unfold readInt, stringOfInt.
  rewrite NilZero.isi.
  - simpl. now rewrite DecimalZ.of_to.
  - destruct n; simpl; try discriminate.
    intros [= E]. exact (DecimalPos.Unsigned.to_uint_nonnil _ E).
  - destruct n; simpl; try discriminate.
    intros [= E]. exact (DecimalPos.Unsigned.to_uint_nonnil _ E).
Qed.

(** The label of a fiscal year and a two-character month reads back as the
    two numbers. *)
Lemma parseFiscalPeriod_label (fy fm : Z) (mm : string) :
  0 <= fy ->
  includes "-" mm = false ->
  readInt mm = Some fm ->
  parseFiscalPeriod (String.append (stringOfInt fy) (String.append "-" mm)) = Some (fy, fm).
Proof.
  intros Hfy Hmm Hread. unfold parseFiscalPeriod.
  change (String.append "-" mm) with (String "-" mm).
  rewrite (split_first_piece "-" _ mm (stringOfInt_no_minus fy Hfy)).
  rewrite (split_single_piece "-" mm Hmm).
  now rewrite readInt_stringOfInt, Hread.
Qed.

(** For the years 0..3000: the number a year stands for prints as the
    year's numeral, the numeral reads back as that number, and adding one
    to it is exact. *)
Lemma fiscal_year_table :
  forallb (fun y =>
    String.eqb (numberToString (ofInt (Z.of_nat y))) (stringOfInt (Z.of_nat y))
    && PrimFloat.Leibniz.eqb (toNumber (stringOfInt (Z.of_nat y))) (ofInt (Z.of_nat y))
    && PrimFloat.Leibniz.eqb (PrimFloat.add (ofInt (Z.of_nat y)) 1)
                             (ofInt (Z.of_nat y + 1)))
    (seq 0 (Z.to_nat 3001)) = true.
Proof. vm_cast_no_check (eq_refl true). Qed.

Lemma fiscal_year_facts (y : Z) :
  0 <= y <= 3000 ->
  numberToString (ofInt y) = stringOfInt y
  /\ toNumber (stringOfInt y) = ofInt y
  /\ PrimFloat.add (ofInt y) 1 = ofInt (y + 1).
Proof.
  intros H.
  pose proof (proj1 (forallb_forall _ _) fiscal_year_table (Z.to_nat y)) as Ht.
  cbv beta in Ht. rewrite Z2Nat.id in Ht by lia.
  assert (Hin : In (Z.to_nat y) (seq 0 (Z.to_nat 3001))) by (apply in_seq; lia).
  apply Ht in Hin. apply andb_true_iff in Hin. destruct Hin as [Hin H3].
  apply andb_true_iff in Hin. destruct Hin as [H1 H2].
  apply String.eqb_eq in H1.
  apply FloatAxioms.Leibniz.eqb_spec in H2.
  apply FloatAxioms.Leibniz.eqb_spec in H3.
  now repeat split.
Qed.

(** Two consecutive years of the range stand for two different numbers. *)
Lemma ofInt_next_differs (y : Z) : 0 <= y <= 2999 -> ofInt y <> ofInt (y + 1).
Proof.
  intros H E.
  destruct (fiscal_year_facts y) as [H1 _]; [lia|].
  destruct (fiscal_year_facts (y + 1)) as [H2 _]; [lia|].
  rewrite E, H2 in H1.
  pose proof (readInt_stringOfInt (y + 1)) as R.
  rewrite H1, readInt_stringOfInt in R. injection R as R. lia.
Qed.

(** The label of a year of the range: the fiscal year printed as an
    integer is. *)
Lemma getFiscalPeriod_label (year month : Z) :
  0 <= year <= 2999 ->
  getFiscalPeriod year month
  = String.append (stringOfInt (if 10 <=? month then year + 1 else year))
      (String.append "-" (padStart 2 "0" (stringOfOptInt (fiscalMonthMap month)))).
Proof.
  intros H. unfold getFiscalPeriod, fiscalYear.
  destruct (fiscal_year_facts year) as (H1 & _ & H3); [lia|].
  destruct (fiscal_year_facts (year + 1)) as (H1' & _); [lia|].
  destruct (10 <=? month); [rewrite H3, H1'|rewrite H1]; reflexivity.
Qed.

(** C5: for every year 0..2998 and every calendar month 1..12,
    [getFiscalPeriod] maps October..September to the fiscal months 1..12,
    each fiscal month being reached from one calendar month; the fiscal
    year is the calendar year plus one exactly for the months from 10 on;
    the inverse mapping takes the label back to the calendar year and
    month it came from, so no two months of the range share a label. *)
Theorem fiscal_period_bijection (year month : Z) :
  0 <= year <= 2998 ->
  1 <= month <= 12 ->
  map fiscalMonthMap [10; 11; 12; 1; 2; 3; 4; 5; 6; 7; 8; 9]
    = map Some [1; 2; 3; 4; 5; 6; 7; 8; 9; 10; 11; 12]
  /\ fiscalMonthMap month = Some ((month + 2) mod 12 + 1)
  /\ (exists source, 1 <= source <= 12 /\ fiscalMonthMap source = Some month)
  /\ (fiscalYear year month = ofInt (year + 1) <-> 10 <= month)
  /\ (fiscalYear year month = ofInt year <-> month < 10)
  /\ getFiscalPeriod year month
     = String.append (stringOfInt (if 10 <=? month then year + 1 else year))
         (String.append "-" (padStart 2 "0" (stringOfInt ((month + 2) mod 12 + 1))))
  /\ calendarOfFiscalPeriod (getFiscalPeriod year month) = Some (year, month)
  /\ (forall year' month',
         0 <= year' <= 2998 -> 1 <= month' <= 12 ->
         calendarOfFiscalPeriod (getFiscalPeriod year' month') = Some (year', month')
         /\ (getFiscalPeriod year' month' = getFiscalPeriod year month ->
             year' = year /\ month' = month)).
Proof.
  assert (Hmap : forall m, 1 <= m <= 12 -> fiscalMonthMap m = Some ((m + 2) mod 12 + 1)).
  { intros m Hm.
    assert (Hc : m = 1 \/ m = 2 \/ m = 3 \/ m = 4 \/ m = 5 \/ m = 6 \/ m = 7 \/ m = 8
                 \/ m = 9 \/ m = 10 \/ m = 11 \/ m = 12) by lia.
    repeat (destruct Hc as [->|Hc]; [reflexivity|]). subst. reflexivity. }
  assert (Hback : forall y m, 0 <= y <= 2998 -> 1 <= m <= 12 ->
            calendarOfFiscalPeriod (getFiscalPeriod y m) = Some (y, m)).
  { intros y m Hy Hm.
    rewrite getFiscalPeriod_label by lia. rewrite (Hmap m Hm).
    unfold calendarOfFiscalPeriod. cbn [stringOfOptInt].
    assert (Hc : m = 1 \/ m = 2 \/ m = 3 \/ m = 4 \/ m = 5 \/ m = 6 \/ m = 7 \/ m = 8
                 \/ m = 9 \/ m = 10 \/ m = 11 \/ m = 12) by lia.
    repeat (destruct Hc as [->|Hc];
      [ erewrite parseFiscalPeriod_label;
        [ | cbn [Z.leb Z.compare Pos.compare Pos.compare_cont]; lia
          | vm_compute; reflexivity | vm_compute; reflexivity ];
        cbn; f_equal; f_equal; lia | ]).
    subst.
    erewrite parseFiscalPeriod_label;
      [ | cbn [Z.leb Z.compare Pos.compare Pos.compare_cont]; lia
        | vm_compute; reflexivity | vm_compute; reflexivity ].
    cbn; f_equal; f_equal; lia. }
  intros Hyear Hmonth.
  assert (Hcases : month = 1 \/ month = 2 \/ month = 3 \/ month = 4 \/ month = 5
                   \/ month = 6 \/ month = 7 \/ month = 8 \/ month = 9
                   \/ month = 10 \/ month = 11 \/ month = 12) by lia.
  split; [reflexivity|].
  split; [exact (Hmap month Hmonth)|].
  split.
  { exists ((month + 8) mod 12 + 1).
    repeat (destruct Hcases as [->|Hcases]; [split; [vm_compute; intuition discriminate|reflexivity]|]).
    subst. split; [vm_compute; intuition discriminate|reflexivity]. }
  destruct (fiscal_year_facts year) as (_ & _ & Hnext); [lia|].
  pose proof (ofInt_next_differs year ltac:(lia)) as Hdiff.
  split.
  { unfold fiscalYear. destruct (10 <=? month) eqn:E;
      [apply Z.leb_le in E|apply Z.leb_gt in E].
    - split; [intros _; exact E|intros _; exact Hnext].
    - split; [intros H; contradiction|lia]. }
  split.
  { unfold fiscalYear. destruct (10 <=? month) eqn:E;
      [apply Z.leb_le in E|apply Z.leb_gt in E].
    - split; [intros H; rewrite Hnext in H; symmetry in H; contradiction|lia].
    - split; [intros _; exact E|reflexivity]. }
  split.
  { rewrite getFiscalPeriod_label by lia. now rewrite (Hmap month Hmonth). }
  split; [exact (Hback year month Hyear Hmonth)|].
  intros year' month' Hy' Hm'. split; [exact (Hback year' month' Hy' Hm')|].
  intros Heq.
  pose proof (Hback year' month' Hy' Hm') as H1.
  rewrite Heq, (Hback year month Hyear Hmonth) in H1.
  injection H1 as -> ->. now split.
Qed.

(** The mapping at January 2025 and at November 2025. *)
Lemma fiscal_period_bijection_witness :
  calendarOfFiscalPeriod (getFiscalPeriod 2025 11) = Some (2025, 11)
  /\ getFiscalPeriod 2025 11 = "2026-02"
  /\ getFiscalPeriod 2025 1 = "2025-04".
Proof.
  assert (Hy : 0 <= 2025 <= 2998) by lia.
  assert (Hm : 1 <= 11 <= 12) by lia.
  split; [|split].
  - exact (proj1 (proj2 (proj2 (proj2 (proj2 (proj2 (proj2
      (fiscal_period_bijection 2025 11 Hy Hm)))))))).
  - vm_compute. reflexivity.
  - vm_compute. reflexivity.
Defined.

(** Beyond the integers that binary64 holds exactly the sum [year + 1] is
    rounded: October of the years 2^53 - 1 and 2^53 get one label. *)
Lemma fiscal_year_rounds_from_2_53 :
  getFiscalPeriod (2 ^ 53 - 1) 10 = "9007199254740992-01"
  /\ getFiscalPeriod (2 ^ 53) 10 = "9007199254740992-01".
Proof. split; vm_compute; reflexivity. Qed.

End FiscalPeriod.

(** ** Aggregated financial reports *)

Section FinancialReport.
Import JS FinanceReportService.

(** The row loop of [parseFinanceReport], split into its two results. *)
Lemma rowStep_fold (headers : list string) (cols : Columns) (lines : list string)
    (rows0 : list Row) (total0 : number) :
  fold_left (rowStep headers cols) lines (rows0, total0)
  = ((rows0 ++ map (fun line =>
                      {| fields := FinanceService.fillRow headers (split "009" line) 0 ∅;
                         _revenue := option_map (revenueValue (split "009" line))
                                                (revenueIdx cols) |}) lines)%list,
     fold_left (fun total line => addRevenue cols (split "009" line) total) lines total0).
Proof.
  revert rows0 total0.
  induction lines as [|line lines IH]; intros rows0 total0; simpl.
  - now rewrite app_nil_r.
  - rewrite IH. now rewrite <- app_assoc.
Qed.

(** [totalRevenue] of a report is what its data lines add up to, line by
    line, from zero. *)
Lemma parseFinanceReport_totalRevenue (rt : Runtime) (data : Payload)
    (metadata : Metadata) (content first : string) (rest : list string) :
  decodeContent rt data = Return content ->
  FinanceService.nonBlankLines content = first :: rest ->
  exists report,
    parseFinanceReport rt data metadata = Return report
    /\ totalRevenue report
       = fold_left (fun total line =>
                      addRevenue (findColumns (map trim (split "009" first)))
                                 (split "009" line) total) rest zero.
Proof.
  intros Hdec Hlines. unfold parseFinanceReport. rewrite Hdec. simpl. rewrite Hlines.
  rewrite rowStep_fold. eexists. split; reflexivity.
Qed.

(** In a report with a revenue column and a sales-or-return column, a
    line whose flag cell is S adds the number parsed from its partner
    share to [totalRevenue] and a line whose flag cell is R subtracts it,
    [totalRevenue] being what the data lines do to it in turn, from zero;
    the report with a sale of 100 and a return of 20 has a [totalRevenue]
    of 80. *)
Lemma sale_adds_return_subtracts :
  (forall (cols : Columns) (values : list string) (total : number) (ridx sidx : nat),
      revenueIdx cols = Some ridx ->
      salesReturnIdx cols = Some sidx ->
      (at_ values sidx = Some "S" ->
       addRevenue cols values total = PrimFloat.add total (revenueValue values ridx))
      /\ (at_ values sidx = Some "R" ->
          addRevenue cols values total = PrimFloat.sub total (revenueValue values ridx)))
  /\ (forall (rt : Runtime) (data : Payload) (metadata : Metadata)
             (content first : string) (rest : list string),
        decodeContent rt data = Return content ->
        FinanceService.nonBlankLines content = first :: rest ->
        exists report,
          parseFinanceReport rt data metadata = Return report
          /\ totalRevenue report
             = fold_left (fun total line =>
                            addRevenue (findColumns (map trim (split "009" first)))
                                       (split "009" line) total) rest zero)
  /\ (forall rt : Runtime,
        exists report,
          parseFinanceReport rt (PString Sample.saleAndReturn) Sample.metadata = Return report
          /\ map _revenue (rows report) = [Some 100%float; Some 20%float]
          /\ totalRevenue report = 80%float).
Proof.
  split; [|split].
  - intros cols values total ridx sidx Hr Hs.
    unfold addRevenue. rewrite Hr, Hs.
    split; intros ->; reflexivity.
  - intros rt data metadata content first rest.
    apply parseFinanceReport_totalRevenue.
  - intros rt. eexists. split; [reflexivity|]. split; vm_compute; reflexivity.
Qed.

(** C3: a row flagged R does not contribute the negative of its magnitude.
    What is subtracted is the number in the cell, sign included: a return
    written as -20 after a sale of 100 makes a [totalRevenue] of 120, not
    80.  And the flag is compared as it stands in the line: in a text
    whose lines end in CR LF, with the flag in the last column, the sale
    of 100 and the return of 20 are both passed over and [totalRevenue]
    stays 0, although the rows show the flags S and R. *)
Theorem negative_return_raises_total :
  (exists report,
      parseFinanceReport Sample.runtime (PString Sample.saleAndNegativeReturn)
        Sample.metadata = Return report
      /\ map (fun row => fields row !! "Sales or Return") (rows report)
         = [Some "S"; Some "R"]
      /\ map _revenue (rows report) = [Some 100%float; Some (-20)%float]
      /\ totalRevenue report = 120%float)
  /\ (exists report,
        parseFinanceReport Sample.runtime (PString Sample.saleAndReturnCRLF)
          Sample.metadata = Return report
        /\ map (fun row => fields row !! "Sales or Return") (rows report)
           = [Some "S"; Some "R"]
        /\ map _revenue (rows report) = [Some 100%float; Some 20%float]
        /\ totalRevenue report = zero).
Proof.
  split; eexists; (split; [reflexivity|]); repeat split; vm_compute; reflexivity.
Qed.





End FinancialReport.

(** ** Revenue metrics *)

Section Metrics.
Import JS FinanceService.

(** [calculateRevenueMetricsFromData] writes nothing to the console. *)
Lemma metrics_console_untouched (parsedData : ParsedReport) (console : list string) :
  snd (calculateRevenueMetricsFromData parsedData console) = console.
Proof.
  unfold calculateRevenueMetricsFromData.
  destruct (rows parsedData) as [|row rest]; [reflexivity|].
  simpl snd.
  assert (H : forall l st, ms_console (fold_left metricsStep l st) = ms_console st).
  { induction l as [|r l IH]; intros st; simpl; [reflexivity|]. now rewrite IH. }
  now rewrite H.
Qed.

(** What one row does to [totalRevenue] depends on the running total and
    on the row alone. *)
Lemma metricsStep_totalRevenue (st : MetricsState) (row : Row) :
  ms_totalRevenue (metricsStep st row)
  = if gt (rowRevenue row) zero && lt (rowRevenue row) 1000000%float
    then PrimFloat.add (ms_totalRevenue st) (rowRevenue row)
    else ms_totalRevenue st.
Proof. reflexivity. Qed.

(** The total of a report is the total of the report without its rows
    above the ceiling. *)
Lemma total_skips_rows_over_ceiling (rows : list Row) (st st' : MetricsState) :
  ms_totalRevenue st = ms_totalRevenue st' ->
  ms_totalRevenue (fold_left metricsStep rows st)
  = ms_totalRevenue
      (fold_left metricsStep
         (List.filter (fun row => negb (gt (rowRevenue row) 1000000%float)) rows) st').
Proof.
  revert st st'. induction rows as [|row rows IH]; intros st st' H; simpl; [exact H|].
  destruct (gt (rowRevenue row) 1000000%float) eqn:E; simpl.
  - apply IH. rewrite metricsStep_totalRevenue.
    rewrite (above_not_below _ _ E), andb_false_r. exact H.
  - apply IH. rewrite !metricsStep_totalRevenue, H. reflexivity.
Qed.

(** The same at the level of [calculateRevenueMetricsFromData]. *)
Lemma metrics_total_skips_rows_over_ceiling (parsedData : ParsedReport)
    (console : list string) :
  totalRevenue (fst (calculateRevenueMetricsFromData parsedData console))
  = totalRevenue
      (fst (calculateRevenueMetricsFromData
              {| reportType := reportType parsedData;
                 headers := headers parsedData;
                 rows := List.filter (fun row => negb (gt (rowRevenue row) 1000000%float))
                                     (rows parsedData);
                 rowCount := rowCount parsedData;
                 summary := summary parsedData |} console)).
Proof.
  unfold calculateRevenueMetricsFromData. cbn [rows].
  destruct (rows parsedData) as [|row rest] eqn:E; [reflexivity|].
  cbn [fst totalRevenue].
  rewrite (total_skips_rows_over_ceiling (row :: rest) _ _ eq_refl).
  destruct (List.filter _ (row :: rest)); reflexivity.
Qed.

(** C7, as the code has it: a row whose revenue exceeds 1,000,000 leaves
    [totalRevenue] and [totalUnits] as they were, and the console too; the
    [totalRevenue] of a report is the one of the report without such rows,
    and [calculateRevenueMetricsFromData] writes no line to the console:
    the row is dropped from the totals without a log line or a flag. *)
Theorem over_ceiling_row_rejected :
  (forall (st : MetricsState) (row : Row),
      gt (rowRevenue row) 1000000%float = true ->
      ms_totalRevenue (metricsStep st row) = ms_totalRevenue st
      /\ ms_totalUnits (metricsStep st row) = ms_totalUnits st
      /\ ms_console (metricsStep st row) = ms_console st)
  /\ (forall (parsedData : ParsedReport) (console : list string),
        totalRevenue (fst (calculateRevenueMetricsFromData parsedData console))
        = totalRevenue
            (fst (calculateRevenueMetricsFromData
                    {| reportType := reportType parsedData;
                       headers := headers parsedData;
                       rows := List.filter
                                 (fun row => negb (gt (rowRevenue row) 1000000%float))
                                 (rows parsedData);
                       rowCount := rowCount parsedData;
                       summary := summary parsedData |} console))
        /\ snd (calculateRevenueMetricsFromData parsedData console) = console).
Proof.
  split.
  - intros st row H. apply above_not_below in H.
    unfold metricsStep. simpl. rewrite H, andb_false_r. auto.
  - intros parsedData console. split.
    + apply metrics_total_skips_rows_over_ceiling.
    + apply metrics_console_untouched.
Qed.

(** The fifty-million-dollar row, met by a fresh state. *)
Lemma over_ceiling_row_rejected_witness :
  gt (rowRevenue (enhanceRow (<["Developer Proceeds" := "50000000"]> ∅))) 1000000%float = true
  /\ ms_totalRevenue
       (metricsStep (initialMetricsState [])
                    (enhanceRow (<["Developer Proceeds" := "50000000"]> ∅))) = zero.
Proof.
  split; [vm_compute; reflexivity|].
  exact (proj1 (proj1 over_ceiling_row_rejected (initialMetricsState [])
                  (enhanceRow (<["Developer Proceeds" := "50000000"]> ∅)) eq_refl)).
Defined.

(** C7, as the claim has it, fails: the report of one fifty-million-dollar
    row is summarised with a total of zero and an empty console (the row is
    neither logged nor flagged), while its product entry still carries the
    fifty million. *)
Lemma absurd_row_dropped_silently :
  snd (calculateRevenueMetricsFromData Sample.absurdReport []) = []
  /\ totalRevenue (fst (calculateRevenueMetricsFromData Sample.absurdReport [])) = zero
  /\ map pe_revenue (byProduct (fst (calculateRevenueMetricsFromData Sample.absurdReport [])))
     = [50000000%float].
Proof. split; [|split]; vm_compute; reflexivity. Qed.

End Metrics.

(** ** Monthly revenue *)

Section Monthly.
Import JS FinanceService.

(** A day that throws changes nothing but the console. *)
Lemma catchDay_totals (md : MonthlyData) (dateStr : string) (error : Error) :
  md_daysWithData (catchDay md dateStr error) = md_daysWithData md
  /\ md_totalRevenue (catchDay md dateStr error) = md_totalRevenue md.
Proof. unfold catchDay. destruct (negb _); split; reflexivity. Qed.

(** The loop over the days counts the reports that have rows and adds up
    their daily totals, in date order. *)
Lemma monthly_fold (svc : Service) (dates : list string) (md : MonthlyData) :
  md_daysWithData (fold_left (monthlyStep svc) dates md)
  = (md_daysWithData md + List.length (reportsWithRows svc dates))%nat
  /\ md_totalRevenue (fold_left (monthlyStep svc) dates md)
     = fold_left PrimFloat.add (map dailyTotal (reportsWithRows svc dates)) (md_totalRevenue md).
Proof.
  revert md. induction dates as [|d dates IH]; intros md; simpl.
  - split; [lia|reflexivity].
  - destruct (IH (monthlyStep svc md d)) as [IHn IHt]. rewrite IHn, IHt.
    unfold monthlyStep.
    destruct (fetchDay svc d) as [report|error].
    + unfold recordDay.
      destruct (rows report) as [|row rest] eqn:E.
      * simpl. split; reflexivity.
      * destruct (fold_left breakdownStep _ _) as [[c p] q]. simpl.
        split; [lia|reflexivity].
    + destruct (catchDay_totals md d error) as [-> ->]. simpl. split; reflexivity.
Qed.

(** When every report that comes back has a row, the reports with rows are
    the reports of the days that resolved. *)
Lemma reportsWithRows_resolved (svc : Service) (dates : list string) :
  (forall d report, In d dates -> fetchDay svc d = Return report -> rows report <> []) ->
  reportsWithRows svc dates = resolvedReports svc dates
  /\ List.length (resolvedReports svc dates) = List.length (resolvedDays svc dates).
Proof.
  induction dates as [|d dates IH]; intros H; simpl.
  - split; reflexivity.
  - destruct IH as [IH1 IH2]; [intros d' r Hin; apply H; now right|].
    destruct (fetchDay svc d) as [report|error] eqn:E; simpl.
    + destruct (rows report) eqn:Er.
      * exfalso. apply (H d report); [now left|exact E|exact Er].
      * simpl. now rewrite IH1, IH2.
    + now rewrite IH1, IH2.
Qed.

(** Days that answer 404 leave the console empty. *)
Lemma monthly_console_silent (svc : Service) (dates : list string) (md : MonthlyData) :
  (forall d error, In d dates -> fetchDay svc d = Throw error ->
                   includes "404" (message error) = true) ->
  md_console (fold_left (monthlyStep svc) dates md) = md_console md.
Proof.
  revert md. induction dates as [|d dates IH]; intros md H; simpl; [reflexivity|].
  rewrite IH by (intros d' e Hin; apply H; now right).
  unfold monthlyStep.
  destruct (fetchDay svc d) as [report|error] eqn:E.
  - unfold recordDay. destruct (rows report); [reflexivity|].
    destruct (fold_left breakdownStep _ _) as [[c p] q]. reflexivity.
  - unfold catchDay. rewrite (H d error (or_introl eq_refl) E). reflexivity.
Qed.

(** C6, as the code has it: with a vendor number set, [getMonthlyRevenue]
    resolves whatever the daily fetches throw; its [daysWithData] is the
    number of days whose report came back with at least one row, not the
    number of days that did not answer 404, and its [totalRevenue] is the
    daily totals of those reports added up.  Only when every report that
    comes back has a row are these the days that did not throw.  For
    January 2025 with the 5th and the 17th answering 404 and 100 dollars on
    each other day: 31 days, of which 29 with data, and a total of 2900. *)
Theorem monthly_revenue_counts_days_with_data :
  (forall (svc : Service) (year month : Z),
      truthyO (vendorNumber svc) = true ->
      exists stats,
        fst (getMonthlyRevenue svc year month) = Return stats
        /\ st_daysWithData stats
           = List.length (reportsWithRows svc (monthDates year month))
        /\ st_totalRevenue stats
           = fold_left PrimFloat.add
               (map dailyTotal (reportsWithRows svc (monthDates year month))) zero
        /\ ((forall d report,
                In d (monthDates year month) -> fetchDay svc d = Return report ->
                rows report <> []) ->
            reportsWithRows svc (monthDates year month)
              = resolvedReports svc (monthDates year month)
            /\ st_daysWithData stats
               = List.length (resolvedDays svc (monthDates year month))))
  /\ (List.length (monthDates 2025 1) = 31%nat
      /\ List.filter (fun d => negb (existsb (String.eqb d)
                                       (resolvedDays Sample.januaryService (monthDates 2025 1))))
                     (monthDates 2025 1)
         = ["2025-01-05"; "2025-01-17"]
      /\ map dailyTotal (resolvedReports Sample.januaryService (monthDates 2025 1))
         = repeat 100%float 29
      /\ exists stats,
           getMonthlyRevenue Sample.januaryService 2025 1 = (Return stats, [])
           /\ st_totalRevenue stats = 2900%float
           /\ st_daysWithData stats = 29%nat).
Proof.
  split.
  - intros svc year month Hvendor.
    unfold getMonthlyRevenue. rewrite Hvendor. simpl.
    eexists. split; [reflexivity|]. simpl.
    destruct (monthly_fold svc (monthDates year month) initialMonthlyData) as [Hn Ht].
    rewrite Hn, Ht. split; [reflexivity|]. split; [reflexivity|].
    intros Hrows.
    destruct (reportsWithRows_resolved svc (monthDates year month) Hrows) as [Heq Hlen].
    rewrite Heq, Hlen. split; reflexivity.
  - split; [vm_compute; reflexivity|].
    split; [vm_compute; reflexivity|].
    split; [vm_compute; reflexivity|].
    eexists. split; [vm_compute; reflexivity|].
    split; vm_compute; reflexivity.
Qed.

(** The general statement at the January sample. *)
Lemma monthly_revenue_counts_days_with_data_witness :
  truthyO (vendorNumber Sample.januaryService) = true
  /\ exists stats,
       fst (getMonthlyRevenue Sample.januaryService 2025 1) = Return stats
       /\ st_daysWithData stats
          = List.length (reportsWithRows Sample.januaryService (monthDates 2025 1)).
Proof.
  split; [reflexivity|].
  destruct (proj1 monthly_revenue_counts_days_with_data Sample.januaryService 2025 1 eq_refl)
    as [stats [H1 [H2 _]]].
  exists stats. split; assumption.
Defined.

(** C6, as the claim has it, fails: in January 2025 with the 5th and the
    17th answering 404, the 10th answering with a header line and no row
    and every other day with 100 dollars, 29 days return data that is not
    a 404 and nothing is written to the console, yet [daysWithData] is 28
    (and the total 2800, the daily average being taken over 28 days). *)
Lemma header_only_day_not_counted :
  List.length (monthDates 2025 1) = 31%nat
  /\ List.filter (fun d => negb (existsb (String.eqb d)
                                   (resolvedDays Sample.quietJanuaryService (monthDates 2025 1))))
                 (monthDates 2025 1)
     = ["2025-01-05"; "2025-01-17"]
  /\ List.length (resolvedDays Sample.quietJanuaryService (monthDates 2025 1)) = 29%nat
  /\ exists stats,
       getMonthlyRevenue Sample.quietJanuaryService 2025 1 = (Return stats, [])
       /\ st_daysWithData stats = 28%nat
       /\ st_totalRevenue stats = 2800%float
       /\ st_dailyAverage stats = 100%float.
Proof.
  split; [vm_compute; reflexivity|].
  split; [vm_compute; reflexivity|].
  split; [vm_compute; reflexivity|].
  eexists. split; [vm_compute; reflexivity|].
  repeat split; vm_compute; reflexivity.
Qed.

End Monthly.

(** ** The shape of parsed reports *)

Section ReportShape.
Import JS.

Lemma fillRow_other (hs values : list string) (index : nat)
    (row : gmap string string) (k : string) :
  ~ In k hs -> FinanceService.fillRow hs values index row !! k = row !! k.
Proof.
  revert index row. induction hs as [|h hs IH]; intros index row Hk; simpl.
  - reflexivity.
  - rewrite IH by (intros Hin; apply Hk; now right).
    destruct (String.eqb h "__proto__"); [reflexivity|].
    apply lookup_insert_ne. intros ->. apply Hk. now left.
Qed.

(** The setter the row inherits keeps a header named [__proto__] out. *)
Lemma fillRow_proto (hs values : list string) (index : nat) (row : gmap string string) :
  FinanceService.fillRow hs values index row !! "__proto__" = row !! "__proto__".
Proof.
  revert index row. induction hs as [|h hs IH]; intros index row; simpl.
  - reflexivity.
  - rewrite IH. destruct (String.eqb_spec h "__proto__") as [->|Hne]; [reflexivity|].
    now apply lookup_insert_ne.
Qed.

Lemma fillRow_keys (hs values : list string) (index : nat)
    (row : gmap string string) (k : string) :
  is_Some (FinanceService.fillRow hs values index row !! k)
  <-> (In k hs /\ k <> "__proto__") \/ is_Some (row !! k).
Proof.
  revert index row. induction hs as [|h hs IH]; intros index row; simpl.
  - tauto.
  - rewrite IH. destruct (String.eqb_spec h "__proto__") as [->|Hproto].
    + split; [tauto|]. intros [[[<-|Hin] Hne]|Hs]; [contradiction|tauto|tauto].
    + destruct (decide (h = k)) as [->|Hne].
      * rewrite lookup_insert_eq. split; [intros _; left; split; [now left|exact Hproto]|].
        intros _. right. eauto.
      * rewrite lookup_insert_ne by assumption. tauto.
Qed.

Lemma cell_is_trimmed (x : string) :
  (if truthyS x then trim x else "") = trim x.
Proof. destruct x; reflexivity. Qed.

(** Under distinct headers, the header at position [j], if it is not
    [__proto__], receives the cell at position [j] of the line. *)
Lemma fillRow_cell (hs values : list string) (index j : nat)
    (row : gmap string string) (h : string) :
  List.NoDup hs ->
  hs !! j = Some h ->
  h <> "__proto__" ->
  FinanceService.fillRow hs values index row !! h
  = Some match values !! (index + j)%nat with
         | Some v => trim v
         | None => ""
         end.
Proof.
  revert index j row. induction hs as [|h0 hs IH]; intros index j row Hnd Hj Hproto.
  - discriminate.
  - inversion Hnd as [|? ? Hnotin Hnd']; subst. destruct j as [|j]; simpl in *.
    + injection Hj as ->. rewrite fillRow_other by assumption.
      destruct (String.eqb_spec h "__proto__") as [->|_]; [contradiction|].
      rewrite lookup_insert_eq, Nat.add_0_r. unfold at_.
      destruct (values !! index) as [x|]; [|reflexivity].
      now rewrite cell_is_trimmed.
    + rewrite (IH (S index) j _ Hnd' Hj Hproto). now rewrite Nat.add_succ_r.
Qed.

(** X1: [FinanceService.parseCSVReport] returns one row per non-blank line
    after the header line (none for an empty, blank or header-only text),
    and the columns of every row are exactly the header names other than
    [__proto__], a name under which a plain object stores nothing. *)
Theorem parseCSVReport_shape (csvData reportType : string) :
  List.length (FinanceService.rows (FinanceService.parseCSVReport csvData reportType))
  = pred (List.length (FinanceService.nonBlankLines csvData))
  /\ Forall (fun r => forall k,
               is_Some (FinanceService.fields r !! k)
               <-> exists hs,
                     FinanceService.headers (FinanceService.parseCSVReport csvData reportType)
                     = Some hs /\ In k hs /\ k <> "__proto__")
            (FinanceService.rows (FinanceService.parseCSVReport csvData reportType)).
Proof.
  unfold FinanceService.parseCSVReport.
  destruct (truthyS csvData) eqn:Et; simpl.
  - destruct (FinanceService.nonBlankLines csvData) as [|first rest]; simpl.
    + split; [reflexivity|constructor].
    + split; [now rewrite !length_map|].
      apply List.Forall_forall. intros r Hr.
      apply in_map_iff in Hr. destruct Hr as [row [<- Hrow]].
      apply in_map_iff in Hrow. destruct Hrow as [line [<- _]].
      intros k. simpl. rewrite fillRow_keys. split.
      * intros [[Hin Hne]|Hs]; [eauto|]. rewrite lookup_empty in Hs. now destruct Hs.
      * intros [hs [[= <-] [Hin Hne]]]. left. now split.
  - destruct csvData; [|discriminate]. simpl. split; [reflexivity|constructor].
Qed.

(** X2: with distinct header names, the cell of a data line is stored
    trimmed under the header of its position, and a header beyond the end
    of a short line is given the empty string; the one header that gets no
    column is [__proto__]. *)
Theorem short_lines_are_padded (hs values : list string) (j : nat) (h : string) :
  List.NoDup hs ->
  hs !! j = Some h ->
  h <> "__proto__" ->
  FinanceService.fillRow hs values 0 ∅ !! h
  = Some match values !! j with
         | Some v => trim v
         | None => ""
         end
  /\ FinanceService.fillRow hs values 0 ∅ !! "__proto__" = None.
Proof.
  intros Hnd Hj Hproto. split.
  - exact (fillRow_cell hs values 0 j ∅ h Hnd Hj Hproto).
  - rewrite fillRow_proto. apply lookup_empty.
Qed.

(** The second header of a two-column report on a one-cell line, and a
    report with a column named [__proto__]. *)
Lemma short_lines_are_padded_witness :
  FinanceService.fillRow ["Title"; "Units"] [" Pro "] 0 ∅ !! "Units" = Some ""
  /\ FinanceService.fillRow ["Title"; "Units"] [" Pro "] 0 ∅ !! "Title" = Some "Pro"
  /\ FinanceService.fillRow ["__proto__"; "Units"] ["x"; "3"] 0 ∅ !! "Units" = Some "3"
  /\ FinanceService.fillRow ["__proto__"; "Units"] ["x"; "3"] 0 ∅ !! "__proto__" = None.
Proof.
  assert (Hnd : List.NoDup ["Title"; "Units"]).
  { constructor; [intros [H|[]]; discriminate|]. constructor; [intros []|constructor]. }
  assert (Hnd' : List.NoDup ["__proto__"; "Units"]).
  { constructor; [intros [H|[]]; discriminate|]. constructor; [intros []|constructor]. }
  assert (Hu : "Units" <> "__proto__") by discriminate.
  assert (Ht : "Title" <> "__proto__") by discriminate.
  split; [|split; [|split]].
  - exact (proj1 (short_lines_are_padded ["Title"; "Units"] [" Pro "] 1 "Units"
                    Hnd eq_refl Hu)).
  - exact (proj1 (short_lines_are_padded ["Title"; "Units"] [" Pro "] 0 "Title"
                    Hnd eq_refl Ht)).
  - exact (proj1 (short_lines_are_padded ["__proto__"; "Units"] ["x"; "3"] 1 "Units"
                    Hnd' eq_refl Hu)).
  - exact (proj2 (short_lines_are_padded ["__proto__"; "Units"] ["x"; "3"] 1 "Units"
                    Hnd' eq_refl Hu)).
Defined.

(** X3: a sales report that has no "Customer Currency" column is never
    converted: every row keeps its parsed proceeds as [_proceedsUSD]. *)
Theorem no_currency_column_no_conversion (csvData reportType : string) (hs : list string) :
  FinanceService.headers (FinanceService.parseCSVReport csvData reportType) = Some hs ->
  ~ In "Customer Currency" hs ->
  Forall (fun r => FinanceService._proceedsUSD r = FinanceService._proceedsRaw r
                   /\ FinanceService._customerCurrency r = "USD")
         (FinanceService.rows (FinanceService.parseCSVReport csvData reportType)).
Proof.
  unfold FinanceService.parseCSVReport.
  destruct (negb (truthyS csvData)); [discriminate|].
  destruct (FinanceService.nonBlankLines csvData) as [|first rest]; [discriminate|].
  simpl. intros [= <-] Hno.
  apply List.Forall_forall. intros r Hr.
  apply in_map_iff in Hr. destruct Hr as [row [<- Hrow]].
  apply in_map_iff in Hrow. destruct Hrow as [line [<- _]].
  unfold FinanceService.enhanceRow. simpl.
  rewrite (fillRow_other _ _ 0 ∅ "Customer Currency" Hno), lookup_empty.
  simpl. split; reflexivity.
Qed.

Lemma no_currency_column_no_conversion_witness :
  FinanceService.headers
    (FinanceService.parseCSVReport (Sample.tsv [["Proceeds"; "Units"]; ["5000"; "1"]]) "SUBSCRIPTION")
  = Some ["Proceeds"; "Units"]
  /\ ~ In "Customer Currency" ["Proceeds"; "Units"]
  /\ Forall (fun r => FinanceService._proceedsUSD r = FinanceService._proceedsRaw r
                      /\ FinanceService._customerCurrency r = "USD")
       (FinanceService.rows
          (FinanceService.parseCSVReport (Sample.tsv [["Proceeds"; "Units"]; ["5000"; "1"]])
             "SUBSCRIPTION")).
Proof.
  assert (Hno : ~ In "Customer Currency" ["Proceeds"; "Units"]).
  { intros [H|[H|[]]]; discriminate. }
  split; [reflexivity|]. split; [exact Hno|].
  exact (no_currency_column_no_conversion
           (Sample.tsv [["Proceeds"; "Units"]; ["5000"; "1"]])
           "SUBSCRIPTION" ["Proceeds"; "Units"] eq_refl Hno).
Defined.

End ReportShape.

(** ** Decoding of payloads *)

Section Decoding.
Import JS.


Lemma includes_char_cons (c a : ascii) (s : string) :
  includes (String c EmptyString) (String a s)
  = Ascii.eqb c a || includes (String c EmptyString) s.
Proof. simpl. now rewrite andb_true_r. Qed.

Lemma includes_char_append (c : ascii) (a b : string) :
  includes (String c EmptyString) (String.append a b)
  = includes (String c EmptyString) a || includes (String c EmptyString) b.
Proof.
  induction a as [|x a IH].
  - simpl. destruct b; reflexivity.
  - change (String.append (String x a) b) with (String x (String.append a b)).
    rewrite !includes_char_cons, IH. now rewrite orb_assoc.
Qed.

(** An escaped character never contains a line feed. *)
Lemma jsonEscape_no_line_feed (c : ascii) :
  includes (String "010" EmptyString) (jsonEscape c) = false.
Proof. destruct c as [[] [] [] [] [] [] [] []]; vm_compute; reflexivity. Qed.

Lemma jsonStringifyString_one_line (s : string) :
  includes (String "010" EmptyString) (jsonStringifyString s) = false.
Proof.
  unfold jsonStringifyString.
  rewrite includes_char_cons, includes_char_append.
  assert (H : includes (String "010" EmptyString) (jsonEscapeAll s) = false).
  { induction s as [|c s IH]; [reflexivity|].
    simpl jsonEscapeAll. now rewrite includes_char_append, jsonEscape_no_line_feed, IH. }
  rewrite H. reflexivity.
Qed.

(** The [JSON.stringify] text of a string holds no row. *)
Lemma quoted_report_has_no_rows (s reportType : string) :
  SubscriptionService.rows
    (SubscriptionService.parseCSVReport (jsonStringifyString s) reportType) = [].
Proof.
  unfold SubscriptionService.parseCSVReport, FinanceService.nonBlankLines.
  rewrite (split_single_piece "010" _ (jsonStringifyString_one_line s)).
  simpl. destruct (truthyS (trim _)); reflexivity.
Qed.

(** X5: a report that [SubscriptionService] receives as a plain string
    (not a gzip stream) is handed on as its [JSON.stringify] text, quotes
    and escapes included; that text is a single line, so
    [parseCSVReport] finds no row in it, whatever the report held. *)
Theorem subscription_string_payload_has_no_rows
    (rt : Runtime) (s reportType : string) :
  FinanceService.isGzipMagic (String.get 0 s) (String.get 1 s) = false ->
  SubscriptionService.decompressIfNeeded rt (PString s) = Return (jsonStringifyString s)
  /\ SubscriptionService.rows
       (SubscriptionService.parseCSVReport (jsonStringifyString s) reportType) = [].
Proof.
  intros Hmagic. split.
  - simpl. now rewrite Hmagic, andb_false_r.
  - apply quoted_report_has_no_rows.
Qed.

Lemma subscription_string_payload_has_no_rows_witness :
  FinanceService.isGzipMagic (String.get 0 Sample.idrReport) (String.get 1 Sample.idrReport)
  = false
  /\ SubscriptionService.rows
       (SubscriptionService.parseCSVReport (jsonStringifyString Sample.idrReport) "SALES") = []
  /\ List.length (SubscriptionService.rows
                    (SubscriptionService.parseCSVReport Sample.idrReport "SALES")) = 1%nat.
Proof.
  split; [reflexivity|]. split; [|vm_compute; reflexivity].
  exact (proj2 (subscription_string_payload_has_no_rows Sample.runtime Sample.idrReport
                  "SALES" eq_refl)).
Defined.

(** X6: [parseFinanceReport] throws exactly when the payload is a buffer
    of more than two bytes that starts with the gzip magic number and on
    which [gunzipSync] throws; the error is the one of [gunzipSync]. *)
Theorem parseFinanceReport_throws_iff
    (rt : Runtime) (data : Payload) (metadata : FinanceReportService.Metadata) (e : Error) :
  FinanceReportService.parseFinanceReport rt data metadata = Throw e
  <-> exists b, data = PBuffer b
        /\ (2 < List.length b)%nat
        /\ FinanceService.isGzipMagic (at_ b 0) (at_ b 1) = true
        /\ gunzipSync rt b = Throw e.
Proof.
  split.
  - unfold FinanceReportService.parseFinanceReport, FinanceReportService.decodeContent.
    assert (Hparse : forall content,
      (match FinanceService.nonBlankLines content with
       | [] => Return {| FinanceReportService.headers := [];
                         FinanceReportService.rows := [];
                         FinanceReportService.totalRevenue := zero;
                         FinanceReportService.rowCount := O;
                         FinanceReportService.metadata := metadata |}
       | first :: rest =>
           let headers := map trim (split "009" first) in
           let cols := FinanceReportService.findColumns headers in
           let '(rows, totalRevenue) :=
             fold_left (FinanceReportService.rowStep headers cols) rest ([], zero) in
           Return {| FinanceReportService.headers := headers;
                     FinanceReportService.rows := rows;
                     FinanceReportService.totalRevenue := totalRevenue;
                     FinanceReportService.rowCount := List.length rows;
                     FinanceReportService.metadata := metadata |}
       end) <> Throw e).
    { intros content. destruct (FinanceService.nonBlankLines content); [discriminate|].
      cbv zeta. destruct (fold_left _ _ _). discriminate. }
    destruct data as [b|s|t]; simpl.
    + destruct (2 <? List.length b)%nat eqn:Hlen; simpl.
      * destruct (FinanceService.isGzipMagic (at_ b 0) (at_ b 1)) eqn:Hm; simpl.
        -- destruct (gunzipSync rt b) as [d|e'] eqn:Hgz; simpl.
           ++ intros H. now apply Hparse in H.
           ++ intros [= ->]. exists b. apply Nat.ltb_lt in Hlen. auto.
        -- intros H. now apply Hparse in H.
      * intros H. now apply Hparse in H.
    + intros H. now apply Hparse in H.
    + intros H. now apply Hparse in H.
  - intros [b [-> [Hlen [Hm Hgz]]]].
    now apply finance_report_decode_raises.
Qed.

End Decoding.

(** ** Fiscal labels of invalid months *)

Section FiscalEdge.
Import JS FinanceReportService.

(** X7: for a month outside 1..12, [getFiscalPeriod] does not fail: the
    table has no entry, and the label ends in the text "undefined". *)
Theorem getFiscalPeriod_invalid_month (year month : Z) :
  month < 1 \/ 12 < month ->
  getFiscalPeriod year month
  = String.append (numberToString (fiscalYear year month)) "-undefined".
Proof.
  intros H. unfold getFiscalPeriod.
  assert (Hnone : fiscalMonthMap month = None).
  { unfold fiscalMonthMap.
    repeat match goal with
           | |- context [?a =? ?b] =>
               destruct (Z.eqb_spec a b); [lia|]
           end.
    reflexivity. }
  rewrite Hnone. reflexivity.
Qed.

Lemma getFiscalPeriod_invalid_month_witness :
  (13 < 1 \/ 12 < 13) /\ getFiscalPeriod 2025 13 = "2026-undefined".
Proof.
  split; [right; lia|].
  exact (getFiscalPeriod_invalid_month 2025 13 (or_intror (eq_refl : 12 < 13))).
Defined.

End FiscalEdge.

(** ** Sorting and keyed sums *)

Section Containers.
Import JS.

Lemma insertSorted_perm {A} (cmp : A -> A -> number) (x : A) (l : list A) :
  Permutation (insertSorted cmp x l) (x :: l).
Proof.
  induction l as [|y l IH]; simpl; [reflexivity|].
  destruct (gt (cmp x y) zero); [|reflexivity].
  rewrite IH. apply perm_swap.
Qed.

(** A sorted array holds the elements it held before. *)
Lemma sort_perm {A} (cmp : A -> A -> number) (l : list A) :
  Permutation (sort cmp l) l.
Proof.
  induction l as [|x l IH]; simpl; [reflexivity|].
  unfold sort in *. simpl. rewrite insertSorted_perm. now constructor.
Qed.

(** The keys of a map after [set]: unchanged for a key it has, with the new
    key at the end otherwise. *)
Lemma mapSet_keys {V} (k : string) (v : V) (m : Map V) :
  map fst (mapSet k v m)
  = match mapGet k m with
    | Some _ => map fst m
    | None => (map fst m ++ [k])%list
    end.
Proof.
  induction m as [|[k' v'] m IH]; simpl; [reflexivity|].
  destruct (String.eqb_spec k k') as [->|Hne]; simpl; [reflexivity|].
  rewrite IH. destruct (mapGet k m); reflexivity.
Qed.

Lemma mapGet_None_keys {V} (k : string) (m : Map V) :
  mapGet k m = None -> ~ In k (map fst m).
Proof.
  induction m as [|[k' v'] m IH]; simpl; [tauto|].
  destruct (String.eqb_spec k k') as [->|Hne]; [discriminate|].
  intros H [Heq|Hin]; [congruence|]. now apply IH.
Qed.

Lemma mapSet_NoDup {V} (k : string) (v : V) (m : Map V) :
  List.NoDup (map fst m) -> List.NoDup (map fst (mapSet k v m)).
Proof.
  intros Hnd. rewrite mapSet_keys.
  destruct (mapGet k m) eqn:E; [assumption|].
  apply mapGet_None_keys in E.
  apply List.NoDup_app; [assumption| |].
  - constructor; [intros []|constructor].
  - intros x Hx [<-|[]]. contradiction.
Qed.

Lemma mapSet_keys_incl {V} (k k0 : string) (v : V) (m : Map V) :
  In k0 (map fst (mapSet k v m)) -> k0 = k \/ In k0 (map fst m).
Proof.
  rewrite mapSet_keys. destruct (mapGet k m); [now right|].
  rewrite in_app_iff. simpl. intuition.
Qed.

End Containers.

(** ** Revenue metrics, continued *)

Section MetricsShape.
Import JS FinanceService.

Lemma metrics_maps_invariant (rs : list Row) (st : MetricsState) :
  List.NoDup (map fst (ms_productMap st)) ->
  List.NoDup (map fst (ms_countryMap st)) ->
  let st' := fold_left metricsStep rs st in
  List.NoDup (map fst (ms_productMap st'))
  /\ List.NoDup (map fst (ms_countryMap st'))
  /\ (forall k, In k (map fst (ms_productMap st')) ->
                In k (map fst (ms_productMap st)) \/ exists r, In r rs /\ rowProduct r = k)
  /\ (forall k, In k (map fst (ms_countryMap st')) ->
                In k (map fst (ms_countryMap st)) \/ exists r, In r rs /\ rowCountry r = k).
Proof.
  revert st. induction rs as [|row rs IH]; intros st Hp Hc; simpl.
  - repeat split; auto.
  - destruct (IH (metricsStep st row)) as [Hp' [Hc' [Hkp Hkc]]].
    + unfold metricsStep. simpl. now apply mapSet_NoDup.
    + unfold metricsStep. simpl. now apply mapSet_NoDup.
    + repeat split; try assumption.
      * intros k Hk. destruct (Hkp k Hk) as [Hin|[r [Hr Heq]]].
        -- unfold metricsStep in Hin. simpl in Hin.
           apply mapSet_keys_incl in Hin. destruct Hin as [->|Hin]; [|now left].
           right. exists row. split; [now left|reflexivity].
        -- right. exists r. split; [now right|assumption].
      * intros k Hk. destruct (Hkc k Hk) as [Hin|[r [Hr Heq]]].
        -- unfold metricsStep in Hin. simpl in Hin.
           apply mapSet_keys_incl in Hin. destruct Hin as [->|Hin]; [|now left].
           right. exists row. split; [now left|reflexivity].
        -- right. exists r. split; [now right|assumption].
Qed.

Lemma in_take {A} (n : nat) (l : list A) (x : A) : In x (firstn n l) -> In x l.
Proof.
  revert l. induction n as [|n IH]; intros [|y l]; simpl; try tauto.
  intros [->|H]; [now left|right; now apply IH].
Qed.

Lemma take_NoDup {A} (n : nat) (l : list A) : List.NoDup l -> List.NoDup (firstn n l).
Proof.
  revert l. induction n as [|n IH]; intros [|y l] H; simpl; try constructor.
  - inversion H; subst. intros Hin. apply in_take in Hin. contradiction.
  - inversion H; subst. now apply IH.
Qed.

(** X8: the two breakdowns of [calculateRevenueMetricsFromData] have at
    most ten entries each, no product (no country) appears twice, and every
    entry is the product (the country) of some row of the report. *)
Theorem breakdowns_are_top_ten (parsedData : ParsedReport) (console : list string) :
  let metrics := fst (calculateRevenueMetricsFromData parsedData console) in
  (List.length (byProduct metrics) <= 10)%nat
  /\ (List.length (byCountry metrics) <= 10)%nat
  /\ List.NoDup (map pe_sku (byProduct metrics))
  /\ List.NoDup (map ce_country (byCountry metrics))
  /\ (forall e, In e (byProduct metrics) ->
                exists r, In r (rows parsedData) /\ rowProduct r = pe_sku e)
  /\ (forall e, In e (byCountry metrics) ->
                exists r, In r (rows parsedData) /\ rowCountry r = ce_country e).
Proof.
  unfold calculateRevenueMetricsFromData.
  destruct (rows parsedData) as [|row rest] eqn:E.
  - simpl. repeat split; try lia; try constructor; intros e [].
  - cbn [fst byProduct byCountry].
    destruct (metrics_maps_invariant (row :: rest) (initialMetricsState console))
      as [Hp [Hc [Hkp Hkc]]]; [constructor|constructor|].
    set (st := fold_left metricsStep (row :: rest) (initialMetricsState console)) in *.
    unfold topProducts, topCountries, slice0.
    split; [apply firstn_le_length|]. split; [apply firstn_le_length|].
    split; [|split; [|split]].
    + rewrite <- firstn_map. apply take_NoDup.
      eapply Permutation_NoDup; [symmetry; apply Permutation_map, sort_perm|].
      rewrite map_map.
      erewrite map_ext; [exact Hp|]. intros [k d]. reflexivity.
    + rewrite <- firstn_map. apply take_NoDup.
      eapply Permutation_NoDup; [symmetry; apply Permutation_map, sort_perm|].
      rewrite map_map.
      erewrite map_ext; [exact Hc|]. intros [k d]. reflexivity.
    + intros e He. apply in_take in He.
      apply (Permutation_in _ (sort_perm _ _)) in He.
      apply in_map_iff in He. destruct He as [[k d] [<- Hin]]. simpl.
      destruct (Hkp k) as [[]|Hr]; [|exact Hr].
      apply in_map_iff. exists (k, d). split; [reflexivity|assumption].
    + intros e He. apply in_take in He.
      apply (Permutation_in _ (sort_perm _ _)) in He.
      apply in_map_iff in He. destruct He as [[k d] [<- Hin]]. simpl.
      destruct (Hkc k) as [[]|Hr]; [|exact Hr].
      apply in_map_iff. exists (k, d). split; [reflexivity|assumption].
Qed.

Lemma metricsStep_totalUnits (st : MetricsState) (row : Row) :
  ms_totalUnits (metricsStep st row)
  = if gt (rowRevenue row) zero && lt (rowRevenue row) 1000000%float
    then PrimFloat.add (ms_totalUnits st) (rowUnits row)
    else ms_totalUnits st.
Proof. reflexivity. Qed.

Lemma totals_are_sums_of_accepted (rs : list Row) (st : MetricsState) :
  ms_totalRevenue (fold_left metricsStep rs st)
  = fold_left PrimFloat.add
      (map rowRevenue
         (List.filter (fun r => gt (rowRevenue r) zero && lt (rowRevenue r) 1000000%float) rs))
      (ms_totalRevenue st)
  /\ ms_totalUnits (fold_left metricsStep rs st)
     = fold_left PrimFloat.add
         (map rowUnits
            (List.filter (fun r => gt (rowRevenue r) zero && lt (rowRevenue r) 1000000%float) rs))
         (ms_totalUnits st).
Proof.
  revert st. induction rs as [|row rs IH]; intros st; simpl; [split; reflexivity|].
  destruct (IH (metricsStep st row)) as [-> ->].
  rewrite metricsStep_totalRevenue, metricsStep_totalUnits.
  destruct (gt (rowRevenue row) zero && lt (rowRevenue row) 1000000%float);
    split; reflexivity.
Qed.

(** X9: [totalRevenue] is the sum, in row order and from zero, of the
    revenues of the rows whose revenue is above 0 and below 1,000,000, and
    [totalUnits] is the sum of the units of the same rows: rows with a zero,
    negative, NaN or over-ceiling revenue add to neither. *)
Theorem totals_count_accepted_rows (parsedData : ParsedReport) (console : list string) :
  let accepted := fun r => gt (rowRevenue r) zero && lt (rowRevenue r) 1000000%float in
  let metrics := fst (calculateRevenueMetricsFromData parsedData console) in
  totalRevenue metrics
  = fold_left PrimFloat.add (map rowRevenue (List.filter accepted (rows parsedData))) zero
  /\ totalUnits metrics
     = fold_left PrimFloat.add (map rowUnits (List.filter accepted (rows parsedData))) zero.
Proof.
  unfold calculateRevenueMetricsFromData.
  destruct (rows parsedData) as [|row rest] eqn:E; [split; reflexivity|].
  cbn [fst totalRevenue totalUnits].
  apply (totals_are_sums_of_accepted (row :: rest) (initialMetricsState console)).
Qed.

Lemma mapGet_mapSet_other {V} (k k' : string) (v : V) (m : Map V) :
  k <> k' -> mapGet k (mapSet k' v m) = mapGet k m.
Proof.
  intros Hne. induction m as [|[k0 v0] m IH]; simpl.
  - destruct (String.eqb_spec k k'); [contradiction|reflexivity].
  - destruct (String.eqb_spec k' k0) as [->|Hne0]; simpl.
    + destruct (String.eqb_spec k k0); [contradiction|reflexivity].
    + destruct (String.eqb_spec k k0); [reflexivity|exact IH].
Qed.

Lemma mapGet_of_In {V} (k : string) (v : V) (m : Map V) :
  List.NoDup (map fst m) -> In (k, v) m -> mapGet k m = Some v.
Proof.
  induction m as [|[k0 v0] m IH]; simpl; intros Hnd Hin; [contradiction|].
  inversion Hnd as [|? ? Hnotin Hnd']; subst.
  destruct Hin as [[= -> ->]|Hin].
  - now rewrite String.eqb_refl.
  - destruct (String.eqb_spec k k0) as [->|Hne]; [|now apply IH].
    exfalso. apply Hnotin. apply in_map_iff. exists (k0, v). split; [reflexivity|exact Hin].
Qed.

(** What one row does to the revenue kept for a product and for a
    country: the row's own entry grows by the row's revenue, whatever that
    revenue is, and every other entry is left as it was. *)
Lemma metricsStep_entries (st : MetricsState) (row : Row) (k : string) :
  option_map pd_revenue (mapGet k (ms_productMap (metricsStep st row)))
  = (if String.eqb (rowProduct row) k
     then Some (PrimFloat.add
                  match mapGet k (ms_productMap st) with
                  | Some d => pd_revenue d
                  | None => zero
                  end
                  (rowRevenue row))
     else option_map pd_revenue (mapGet k (ms_productMap st)))
  /\ option_map cd_revenue (mapGet k (ms_countryMap (metricsStep st row)))
     = (if String.eqb (rowCountry row) k
        then Some (PrimFloat.add
                     match mapGet k (ms_countryMap st) with
                     | Some d => cd_revenue d
                     | None => zero
                     end
                     (rowRevenue row))
        else option_map cd_revenue (mapGet k (ms_countryMap st))).
Proof.
  unfold metricsStep. cbn [ms_productMap ms_countryMap]. split.
  - destruct (String.eqb_spec (rowProduct row) k) as [<-|Hne].
    + rewrite mapGet_mapSet. cbn [option_map pd_revenue].
      destruct (mapGet (rowProduct row) (ms_productMap st)); reflexivity.
    + rewrite mapGet_mapSet_other by congruence. reflexivity.
  - destruct (String.eqb_spec (rowCountry row) k) as [<-|Hne].
    + rewrite mapGet_mapSet. cbn [option_map cd_revenue].
      destruct (mapGet (rowCountry row) (ms_countryMap st)); reflexivity.
    + rewrite mapGet_mapSet_other by congruence. reflexivity.
Qed.

(** The loop keeps, for each product and each country, the sum of the
    revenues of all its rows, in row order, on top of what the entry held
    before. *)
Lemma running_sums_fold (rs : list Row) (st : MetricsState) (k : string) :
  option_map pd_revenue (mapGet k (ms_productMap (fold_left metricsStep rs st)))
  = match List.filter (fun r => String.eqb (rowProduct r) k) rs with
    | [] => option_map pd_revenue (mapGet k (ms_productMap st))
    | r :: matching =>
        Some (fold_left PrimFloat.add (map rowRevenue (r :: matching))
                match mapGet k (ms_productMap st) with
                | Some d => pd_revenue d
                | None => zero
                end)
    end
  /\ option_map cd_revenue (mapGet k (ms_countryMap (fold_left metricsStep rs st)))
     = match List.filter (fun r => String.eqb (rowCountry r) k) rs with
       | [] => option_map cd_revenue (mapGet k (ms_countryMap st))
       | r :: matching =>
           Some (fold_left PrimFloat.add (map rowRevenue (r :: matching))
                   match mapGet k (ms_countryMap st) with
                   | Some d => cd_revenue d
                   | None => zero
                   end)
       end.
Proof.
  revert st. induction rs as [|row rs IH]; intros st; [split; reflexivity|].
  cbn [fold_left List.filter].
  destruct (IH (metricsStep st row)) as [IHp IHc].
  destruct (metricsStep_entries st row k) as [Hp Hc].
  split.
  - rewrite IHp. clear IH IHp IHc Hc.
    destruct (String.eqb (rowProduct row) k).
    + cbn [map fold_left].
      destruct (mapGet k (ms_productMap (metricsStep st row))) as [d|];
        cbn [option_map] in Hp; [|discriminate].
      injection Hp as Hp.
      destruct (List.filter _ rs) as [|r matching]; cbn [option_map]; now rewrite Hp.
    + destruct (List.filter _ rs) as [|r matching]; [exact Hp|].
      destruct (mapGet k (ms_productMap (metricsStep st row))) as [d|],
               (mapGet k (ms_productMap st)) as [d0|];
        cbn [option_map] in Hp; try discriminate; [|reflexivity].
      injection Hp as Hp. now rewrite Hp.
  - rewrite IHc. clear IH IHp IHc Hp.
    destruct (String.eqb (rowCountry row) k).
    + cbn [map fold_left].
      destruct (mapGet k (ms_countryMap (metricsStep st row))) as [d|];
        cbn [option_map] in Hc; [|discriminate].
      injection Hc as Hc.
      destruct (List.filter _ rs) as [|r matching]; cbn [option_map]; now rewrite Hc.
    + destruct (List.filter _ rs) as [|r matching]; [exact Hc|].
      destruct (mapGet k (ms_countryMap (metricsStep st row))) as [d|],
               (mapGet k (ms_countryMap st)) as [d0|];
        cbn [option_map] in Hc; try discriminate; [|reflexivity].
      injection Hc as Hc. now rewrite Hc.
Qed.

(** C10: the two maps of [calculateRevenueMetricsFromData] keep running
    sums over every row.  After the loop the entry of a product (of a
    country) holds the revenues of all the rows of that product (country)
    added up in row order from zero, with no condition on the revenue, and
    a product (country) without a row has no entry; every entry of
    [byProduct] and [byCountry] carries that sum.  Rows with a zero or
    negative revenue and rows above the 1,000,000 ceiling are in these
    sums although [totalRevenue] leaves them out: on the report of one
    fifty-million-dollar row the product revenues and the country revenues
    each add up to more than [totalRevenue]. *)
Theorem breakdowns_sum_every_row :
  (forall (rs : list Row) (console : list string) (k : string),
      option_map pd_revenue
        (mapGet k (ms_productMap (fold_left metricsStep rs (initialMetricsState console))))
      = match List.filter (fun r => String.eqb (rowProduct r) k) rs with
        | [] => None
        | r :: matching =>
            Some (fold_left PrimFloat.add (map rowRevenue (r :: matching)) zero)
        end
      /\ option_map cd_revenue
           (mapGet k (ms_countryMap (fold_left metricsStep rs (initialMetricsState console))))
         = match List.filter (fun r => String.eqb (rowCountry r) k) rs with
           | [] => None
           | r :: matching =>
               Some (fold_left PrimFloat.add (map rowRevenue (r :: matching)) zero)
           end)
  /\ (forall (parsedData : ParsedReport) (console : list string) (e : ProductEntry),
        In e (byProduct (fst (calculateRevenueMetricsFromData parsedData console))) ->
        pe_revenue e
        = fold_left PrimFloat.add
            (map rowRevenue
               (List.filter (fun r => String.eqb (rowProduct r) (pe_sku e))
                            (rows parsedData))) zero)
  /\ (forall (parsedData : ParsedReport) (console : list string) (e : CountryEntry),
        In e (byCountry (fst (calculateRevenueMetricsFromData parsedData console))) ->
        ce_revenue e
        = fold_left PrimFloat.add
            (map rowRevenue
               (List.filter (fun r => String.eqb (rowCountry r) (ce_country e))
                            (rows parsedData))) zero)
  /\ (exists parsedData : ParsedReport,
        let metrics := fst (calculateRevenueMetricsFromData parsedData []) in
        lt (totalRevenue metrics) (sumRevenue (map pe_revenue (byProduct metrics))) = true
        /\ lt (totalRevenue metrics) (sumRevenue (map ce_revenue (byCountry metrics))) = true).
Proof.
  split; [|split; [|split]].
  - intros rs console k.
    exact (running_sums_fold rs (initialMetricsState console) k).
  - intros parsedData console e He.
    unfold calculateRevenueMetricsFromData in He.
    destruct (rows parsedData) as [|row rest] eqn:E; [destruct He|].
    cbn [fst byProduct] in He.
    destruct (metrics_maps_invariant (row :: rest) (initialMetricsState console))
      as [Hnd _]; [constructor|constructor|].
    destruct (running_sums_fold (row :: rest) (initialMetricsState console) (pe_sku e))
      as [Hsum _].
    set (st := fold_left metricsStep (row :: rest) (initialMetricsState console)) in *.
    unfold topProducts, slice0 in He. apply in_take in He.
    apply (Permutation_in _ (sort_perm _ _)) in He.
    apply in_map_iff in He. destruct He as [[k d] [<- Hin]].
    cbn [pe_sku pe_revenue] in *.
    rewrite (mapGet_of_In k d _ Hnd Hin) in Hsum. cbn [option_map] in Hsum.
    destruct (List.filter _ (row :: rest)) as [|r matching]; [discriminate|].
    now injection Hsum.
  - intros parsedData console e He.
    unfold calculateRevenueMetricsFromData in He.
    destruct (rows parsedData) as [|row rest] eqn:E; [destruct He|].
    cbn [fst byCountry] in He.
    destruct (metrics_maps_invariant (row :: rest) (initialMetricsState console))
      as (_ & Hnd & _); [constructor|constructor|].
    destruct (running_sums_fold (row :: rest) (initialMetricsState console) (ce_country e))
      as [_ Hsum].
    set (st := fold_left metricsStep (row :: rest) (initialMetricsState console)) in *.
    unfold topCountries, slice0 in He. apply in_take in He.
    apply (Permutation_in _ (sort_perm _ _)) in He.
    apply in_map_iff in He. destruct He as [[k d] [<- Hin]].
    cbn [ce_country ce_revenue] in *.
    rewrite (mapGet_of_In k d _ Hnd Hin) in Hsum. cbn [option_map] in Hsum.
    destruct (List.filter _ (row :: rest)) as [|r matching]; [discriminate|].
    now injection Hsum.
  - exists Sample.absurdReport. split; vm_compute; reflexivity.
Qed.

End MetricsShape.

(** ** Monthly revenue, continued *)

Section MonthlyShape.
Import JS FinanceService.

(** [new Date(year, month, 0).getDate()] is a day count of a month. *)
Lemma daysInMonth_bounds (year month : Z) : 28 <= daysInMonth year month <= 31.
Proof.
  unfold daysInMonth.
  destruct (_ =? 2); [destruct (isLeapYear _); lia|].
  destruct (_ || _); lia.
Qed.

Lemma monthDates_length (year month : Z) :
  List.length (monthDates year month) = Z.to_nat (daysInMonth year month).
Proof. unfold monthDates. now rewrite length_map, length_seq. Qed.

Lemma reportsWithRows_length (svc : Service) (dates : list string) :
  (List.length (reportsWithRows svc dates) <= List.length dates)%nat.
Proof.
  induction dates as [|d dates IH]; simpl; [lia|].
  rewrite length_app.
  destruct (fetchDay svc d) as [report|e]; simpl; [|lia].
  destruct (rows report); simpl; lia.
Qed.

(** What the loop leaves in the accumulator besides the totals. *)
Lemma monthly_fold_lists (svc : Service) (dates : list string) (md : MonthlyData) :
  md_dailyRevenues (fold_left (monthlyStep svc) dates md)
  = (md_dailyRevenues md ++ map dailyTotal (reportsWithRows svc dates))%list
  /\ md_totalTransactions (fold_left (monthlyStep svc) dates md)
     = (md_totalTransactions md
        + list_sum (map (fun report => List.length (rows report))
                        (reportsWithRows svc dates)))%nat.
Proof.
  revert md. induction dates as [|d dates IH]; intros md; simpl.
  - rewrite app_nil_r. split; [reflexivity|lia].
  - destruct (IH (monthlyStep svc md d)) as [-> ->].
    unfold monthlyStep.
    destruct (fetchDay svc d) as [report|error].
    + unfold recordDay.
      destruct (rows report) as [|row rest] eqn:E.
      * simpl. split; reflexivity.
      * destruct (fold_left breakdownStep _ _) as [[c p] q]. simpl.
        rewrite <- app_assoc, E. simpl. split; [reflexivity|lia].
    + unfold catchDay. destruct (negb _); simpl; split; reflexivity.
Qed.

(** X10: in what [getMonthlyRevenue] resolves to, [daysWithData] is at most
    the number of days of the month, hence at most 31; [totalTransactions]
    counts the rows of the reports that had rows; the daily minimum,
    maximum and median are present exactly when at least one day had data;
    and with no day of data the two averages are 0 rather than a division
    by zero. *)
Theorem monthly_stats_shape (svc : Service) (year month : Z) (stats : MonthlyStats) :
  fst (getMonthlyRevenue svc year month) = Return stats ->
  (st_daysWithData stats <= List.length (monthDates year month) <= 31)%nat
  /\ st_totalTransactions stats
     = list_sum (map (fun report => List.length (rows report))
                     (reportsWithRows svc (monthDates year month)))
  /\ (st_dailyMedian stats = None <-> st_daysWithData stats = O)
  /\ (st_dailyMin stats = None <-> st_daysWithData stats = O)
  /\ (st_dailyMax stats = None <-> st_daysWithData stats = O)
  /\ (st_daysWithData stats = O ->
      st_totalRevenue stats = zero
      /\ st_dailyAverage stats = zero /\ st_perTransaction stats = zero).
Proof.
  unfold getMonthlyRevenue.
  destruct (negb (truthyO (vendorNumber svc))); [discriminate|].
  simpl. intros [= <-].
  set (dates := monthDates year month).
  destruct (monthly_fold svc dates initialMonthlyData) as [Hn Ht].
  destruct (monthly_fold_lists svc dates initialMonthlyData) as [Hl Htx].
  unfold monthlyStats. cbn [st_daysWithData st_totalTransactions st_dailyMedian
    st_dailyMin st_dailyMax st_totalRevenue st_dailyAverage st_perTransaction].
  rewrite Hn, Htx, Hl, Ht. simpl md_daysWithData. simpl md_totalTransactions.
  simpl md_dailyRevenues. simpl md_totalRevenue.
  set (reports := reportsWithRows svc dates).
  assert (Hlen : (List.length reports <= List.length dates)%nat)
    by apply reportsWithRows_length.
  assert (Hdays : (List.length dates <= 31)%nat).
  { unfold dates. rewrite monthDates_length.
    pose proof (daysInMonth_bounds year month). lia. }
  split; [lia|]. split; [reflexivity|].
  destruct reports as [|r reports'] eqn:Er.
  - simpl. repeat split; auto; discriminate.
  - split; [|split; [|split]].
    + set (revenues := map dailyTotal (r :: reports')).
      assert (Hs : List.length (sort (fun a b => PrimFloat.sub a b) revenues)
                   = S (List.length reports')).
      { rewrite (Permutation_length (sort_perm _ revenues)).
        unfold revenues. now rewrite length_map. }
      change ([] ++ revenues)%list with revenues.
      change (match revenues with [] => None | _ :: _ => ?x end) with x.
      unfold at_.
      destruct (lookup_lt_is_Some_2
                  (sort (fun a b => PrimFloat.sub a b) revenues)
                  (List.length (sort (fun a b => PrimFloat.sub a b) revenues) / 2))
        as [x Hx].
      { rewrite Hs. apply Nat.Div0.div_lt_upper_bound. lia. }
      rewrite Hx. simpl. split; discriminate.
    + simpl. split; discriminate.
    + simpl. split; discriminate.
    + simpl. discriminate.
Qed.

Lemma monthly_stats_shape_witness :
  exists stats,
    fst (getMonthlyRevenue Sample.januaryService 2025 1) = Return stats
    /\ (st_daysWithData stats <= 31)%nat
    /\ st_totalTransactions stats = 29%nat.
Proof.
  eexists. split; [reflexivity|].
  pose proof (monthly_stats_shape Sample.januaryService 2025 1 _ eq_refl) as H.
  destruct H as [[H1 H2] [H3 _]].
  split; [lia|]. rewrite H3. vm_compute. reflexivity.
Defined.

(** X11: the console of [getMonthlyRevenue] receives one line for each day
    whose fetch threw an error with no "404" in its message, in date order,
    and nothing else: days with a report and days answering 404 are silent,
    and so is the call that throws for want of a vendor number. *)
Theorem monthly_console_lines (svc : Service) (year month : Z) :
  snd (getMonthlyRevenue svc year month)
  = if truthyO (vendorNumber svc) then
      flat_map (fun dateStr =>
                  match fetchDay svc dateStr with
                  | Return _ => []
                  | Throw error =>
                      if includes "404" (message error) then []
                      else [String.append "Error fetching data for "
                              (String.append dateStr (String.append ": " (message error)))]
                  end) (monthDates year month)
    else [].
Proof.
  unfold getMonthlyRevenue.
  destruct (truthyO (vendorNumber svc)); [|reflexivity].
  simpl.
  assert (H : forall dates md,
    md_console (fold_left (monthlyStep svc) dates md)
    = (md_console md
       ++ flat_map (fun dateStr =>
                      match fetchDay svc dateStr with
                      | Return _ => []
                      | Throw error =>
                          if includes "404" (message error) then []
                          else [String.append "Error fetching data for "
                                  (String.append dateStr
                                     (String.append ": " (message error)))]
                      end) dates)%list).
  { induction dates as [|d dates IH]; intros md; simpl.
    - now rewrite app_nil_r.
    - rewrite IH. unfold monthlyStep.
      destruct (fetchDay svc d) as [report|error].
      + unfold recordDay. destruct (rows report); [reflexivity|].
        destruct (fold_left breakdownStep _ _) as [[c p] q]. reflexivity.
      + unfold catchDay. destruct (includes "404" (message error)); simpl.
        * reflexivity.
        * now rewrite <- app_assoc. }
  rewrite H. reflexivity.
Qed.

End MonthlyShape.

(** ** The report getters of FinanceService *)

Section Getters.
Import JS FinanceService.

Lemma bind_completes {A B} (r : result A) (k : A -> result B) :
  (forall a, completes (k a)) -> (completes (bind r k) <-> completes r).
Proof. intros H. destruct r as [a|e]; simpl; [|tauto]. specialize (H a). tauto. Qed.

Lemma completes_Return {A} (r : result A) : completes r <-> exists a, r = Return a.
Proof.
  destruct r as [a|e]; simpl; split; eauto; try tauto.
  intros [a H]. discriminate.
Qed.

(** X12: [getSalesReport] and [getFinancialReport] reject exactly when no
    vendor number is known or when the request rejects; whatever payload
    comes back, decompressing and parsing it never makes them fail. *)
Theorem report_getters_reject_iff (svc : Service) (options : FinanceReportRequest)
    (year month : Z) :
  (completes (getSalesReport svc options)
   <-> (truthyO (vendorNumber svc) = true \/ truthyO (req_vendorNumber options) = true)
       /\ completes
            (request (client svc) "/salesReports"
               [ ("filter[vendorNumber]",
                  orS (req_vendorNumber options) (orS (vendorNumber svc) ""));
                 ("filter[reportType]", orS (req_reportType options) "SALES");
                 ("filter[reportSubType]", orS (req_reportSubType options) "SUMMARY");
                 ("filter[frequency]", orS (req_dateType options) "DAILY");
                 ("filter[reportDate]", orS (req_date options) (yesterdayDate svc));
                 ("filter[version]", "1_1") ]))
  /\ (completes (getFinancialReport svc year month)
      <-> truthyO (vendorNumber svc) = true
          /\ completes
               (request (client svc) "/financeReports"
                  [ ("filter[vendorNumber]", orS (vendorNumber svc) "");
                    ("filter[regionCode]", "ZZ");
                    ("filter[reportType]", "FINANCIAL");
                    ("filter[fiscalYear]", stringOfInt year);
                    ("filter[fiscalPeriod]", padStart 2 "0" (stringOfInt month));
                    ("filter[version]", "1_0") ])).
Proof.
  split.
  - unfold getSalesReport.
    destruct (truthyO (vendorNumber svc)), (truthyO (req_vendorNumber options)); simpl;
      try (rewrite bind_completes;
           [intuition
           |intros response; rewrite bind_completes;
            [apply finance_decompress_completes|intros; exact I]]).
    intuition discriminate.
  - unfold getFinancialReport.
    destruct (truthyO (vendorNumber svc)); simpl.
    + rewrite bind_completes; [intuition|].
      intros response. rewrite bind_completes;
        [apply finance_decompress_completes|intros; exact I].
    + intuition discriminate.
Qed.

(** An attempt of [getSubscriptionMetrics] fails exactly when its request
    rejects. *)
Lemma trySubscriptionParams_throws (svc : Service) (params : list (string * string))
    (e : Error) :
  trySubscriptionParams svc params = Throw e
  <-> request (client svc) "/salesReports" params = Throw e.
Proof.
  unfold trySubscriptionParams.
  destruct (request (client svc) "/salesReports" params) as [response|e']; simpl.
  - pose proof (finance_decompress_completes (runtime svc) response) as H.
    destruct (decompressIfNeeded (runtime svc) response); simpl in *; [|contradiction].
    split; discriminate.
  - split; intros [= ->]; reflexivity.
Qed.

Lemma tryParameterSets_first (svc : Service) (before after : list (list (string * string)))
    (params : list (string * string)) (summary : SubscriptionSummary)
    (lastError : option Error) :
  Forall (fun p => exists e, trySubscriptionParams svc p = Throw e) before ->
  trySubscriptionParams svc params = Return summary ->
  tryParameterSets svc (before ++ params :: after) lastError = Return summary.
Proof.
  revert lastError. induction before as [|p before IH]; intros lastError Hb Hp; simpl.
  - now rewrite Hp.
  - inversion Hb as [|? ? [e He] Hb']; subst. rewrite He. now apply IH.
Qed.

Lemma tryParameterSets_all_fail (svc : Service) (sets : list (list (string * string)))
    (lastError : option Error) :
  Forall (fun p => exists e, trySubscriptionParams svc p = Throw e) sets ->
  exists e,
    tryParameterSets svc sets lastError = Throw e
    /\ match last sets with
       | Some p => trySubscriptionParams svc p = Throw e
       | None => e = match lastError with
                     | Some e' => e'
                     | None => mkError "Failed to fetch subscription metrics"
                     end
       end.
Proof.
  revert lastError. induction sets as [|p sets IH]; intros lastError H.
  - simpl. destruct lastError; eexists; split; reflexivity.
  - inversion H as [|? ? [e He] H']; subst. simpl tryParameterSets. rewrite He.
    destruct (IH (Some e) H') as [e' [Hres Hlast]].
    exists e'. split; [exact Hres|].
    destruct sets as [|q sets'].
    + simpl in Hlast. subst e'. exact He.
    + change (last (p :: q :: sets')) with (last (q :: sets')).
      destruct (last (q :: sets')) eqn:El; [exact Hlast|].
      apply last_None in El. discriminate.
Qed.

(** X13: without a vendor number [getSubscriptionMetrics] rejects at once.
    With one, the four parameter sets are tried in order: the first whose
    request resolves gives the result, and when every request rejects the
    call rejects with the error of the last set (version 1_3, SUMMARY). *)
Theorem subscription_metrics_first_success (svc : Service) :
  (truthyO (vendorNumber svc) = false ->
   getSubscriptionMetrics svc
   = Throw (mkError "Vendor number required for subscription reports"))
  /\ (truthyO (vendorNumber svc) = true ->
      (forall before params after summary,
          parameterSets svc = (before ++ params :: after)%list ->
          Forall (fun p => exists e, request (client svc) "/salesReports" p = Throw e)
                 before ->
          trySubscriptionParams svc params = Return summary ->
          getSubscriptionMetrics svc = Return summary)
      /\ (Forall (fun p => exists e, request (client svc) "/salesReports" p = Throw e)
                 (parameterSets svc) ->
          exists e,
            getSubscriptionMetrics svc = Throw e
            /\ request (client svc) "/salesReports"
                 [ ("filter[vendorNumber]", orS (vendorNumber svc) "");
                   ("filter[reportType]", "SUBSCRIPTION");
                   ("filter[reportSubType]", "SUMMARY");
                   ("filter[frequency]", "DAILY");
                   ("filter[reportDate]", yesterdayDate svc);
                   ("filter[version]", "1_3") ] = Throw e))
  /\ (completes (getSubscriptionMetrics svc)
      <-> truthyO (vendorNumber svc) = true
          /\ exists p, In p (parameterSets svc)
                       /\ completes (request (client svc) "/salesReports" p)).
Proof.
  assert (Hlift : forall l,
    Forall (fun p => exists e, request (client svc) "/salesReports" p = Throw e) l ->
    Forall (fun p => exists e, trySubscriptionParams svc p = Throw e) l).
  { intros l H. eapply Forall_impl; [exact H|].
    intros p [e He]. exists e. now apply trySubscriptionParams_throws. }
  split; [|split].
  - intros H. unfold getSubscriptionMetrics. now rewrite H.
  - intros Hv. unfold getSubscriptionMetrics. rewrite Hv. simpl negb. cbv iota.
    split.
    + intros before params after summary Hsets Hb Hp.
      rewrite Hsets. apply tryParameterSets_first; [now apply Hlift|exact Hp].
    + intros Hall.
      destruct (tryParameterSets_all_fail svc (parameterSets svc) None (Hlift _ Hall))
        as [e [Hres Hlast]].
      exists e. split; [exact Hres|].
      simpl in Hlast. now apply trySubscriptionParams_throws.
  - unfold getSubscriptionMetrics.
    destruct (truthyO (vendorNumber svc)) eqn:Hv; cbn [negb];
      [|simpl; intuition discriminate].
    assert (Hgen : forall sets lastError,
      completes (tryParameterSets svc sets lastError)
      <-> exists p, In p sets /\ completes (request (client svc) "/salesReports" p)).
    { induction sets as [|p sets IH]; intros lastError; simpl.
      - split; [destruct lastError; intros []|intros [p [[] _]]].
      - destruct (trySubscriptionParams svc p) as [s|e] eqn:E.
        + split; [intros _|intros _; exact I].
          exists p. split; [now left|].
          destruct (request (client svc) "/salesReports" p) as [r|e'] eqn:Er; [exact I|].
          apply trySubscriptionParams_throws in Er. congruence.
        + apply trySubscriptionParams_throws in E. rewrite IH. split.
          * intros [q [Hin Hq]]. exists q. split; [now right|exact Hq].
          * intros [q [[<-|Hin] Hq]]; [rewrite E in Hq; contradiction|].
            exists q. split; assumption. }
    rewrite Hgen. intuition.
Qed.

(** X14: [getRevenueMetrics] falls back to the monthly sales report on any
    error of the subscription attempt: it resolves exactly when one of the
    two [getSalesReport] calls resolves, with the metrics of the first one
    that does, and when it rejects the error is the one of the sales
    attempt (the error of the subscription attempt is dropped). *)
Theorem revenue_metrics_fallback (svc : Service) (monthAtTry monthAtCatch : string) :
  let subscription :=
    getSalesReport svc
      {| req_vendorNumber := None; req_reportType := Some "SUBSCRIPTION";
         req_reportSubType := Some "SUMMARY"; req_dateType := Some "MONTHLY";
         req_date := Some monthAtTry |} in
  let sales :=
    getSalesReport svc
      {| req_vendorNumber := None; req_reportType := Some "SALES";
         req_reportSubType := Some "SUMMARY"; req_dateType := Some "MONTHLY";
         req_date := Some monthAtCatch |} in
  (forall report, subscription = Return report ->
     getRevenueMetrics svc monthAtTry monthAtCatch
     = Return (fst (calculateRevenueMetricsFromData report [])))
  /\ (forall e report, subscription = Throw e -> sales = Return report ->
        getRevenueMetrics svc monthAtTry monthAtCatch
        = Return (fst (calculateRevenueMetricsFromData report [])))
  /\ (forall e, getRevenueMetrics svc monthAtTry monthAtCatch = Throw e
                <-> (exists e', subscription = Throw e') /\ sales = Throw e).
Proof.
  cbv zeta. unfold getRevenueMetrics.
  split; [|split].
  - intros report ->. reflexivity.
  - intros e report -> ->. reflexivity.
  - intros e.
    destruct (getSalesReport svc _) as [r1|e1]; simpl.
    + split; [discriminate|intros [[e' H] _]; discriminate].
    + destruct (getSalesReport svc _) as [r2|e2]; simpl.
      * split; [discriminate|intros [_ H]; discriminate].
      * split; [intros [= ->]; eauto|intros [_ [= ->]]; reflexivity].
Qed.

End Getters.

(** ** Renewal metrics of SubscriptionService *)

Section Renewals.
Import JS SubscriptionService.

(** [0 * 10 * (x / 0)] is NaN whatever [x] is. *)
Lemma mul_zero_div_zero_nan (x : number) :
  PrimFloat.mul (PrimFloat.mul zero 10) (PrimFloat.div x zero) = nan.
Proof.
  apply Prim2SF_inj. rewrite mul_spec, div_spec.
  destruct (Prim2SF x) as [s|s| |s m e]; try destruct s; reflexivity.
Qed.

(** X15: [getSubscriptionRenewals] rejects only for a missing vendor number:
    no failure of a request, of the decompression or of the parsing reaches
    the caller.  Every result carries the requested date (yesterday's for an
    absent or empty one) and a [totalRenewals] of zero, whatever the reports
    contain. *)
Theorem renewals_reject_only_without_vendor (svc : Service) (date : option string) :
  (completes (getSubscriptionRenewals svc date) <-> truthyO (vendorNumber svc) = true)
  /\ (truthyO (vendorNumber svc) = false ->
      getSubscriptionRenewals svc date
      = Throw (mkError "Vendor number required for subscription reports"))
  /\ (forall r, getSubscriptionRenewals svc date = Return r ->
        r_date r = orS date (yesterdayDate svc) /\ r_totalRenewals r = zero).
Proof.
  unfold getSubscriptionRenewals.
  destruct (vendorNumber svc) as [vendor|]; cbn [truthyO].
  - destruct (truthyS vendor).
    + destruct (renewalLoop svc vendor _ subscriptionParams) as [rd src].
      split; [simpl; tauto|]. split; [discriminate|].
      intros r [= <-]. split; reflexivity.
    + split; [simpl; intuition discriminate|]. split; [reflexivity|discriminate].
  - split; [simpl; intuition discriminate|]. split; [reflexivity|discriminate].
Qed.

Lemma renewalLoop_spec (svc : Service) (vendor targetDate : string)
    (attempts : list (string * string * string)) :
  match renewalLoop svc vendor targetDate attempts with
  | (Some analysis, source) =>
      exists before params after,
        attempts = (before ++ params :: after)%list
        /\ Forall (fun p => forall a,
                     tryRenewalReport svc vendor targetDate p <> Return (Some a)) before
        /\ tryRenewalReport svc vendor targetDate params = Return (Some analysis)
        /\ source = fst (fst params)
  | (None, source) =>
      source = "none"
      /\ Forall (fun p => forall a,
                   tryRenewalReport svc vendor targetDate p <> Return (Some a)) attempts
  end.
Proof.
  induction attempts as [|p rest IH]; cbn [renewalLoop].
  - split; [reflexivity|constructor].
  - destruct (tryRenewalReport svc vendor targetDate p) as [[a|]|e] eqn:E.
    + exists [], p, rest. split; [reflexivity|]. split; [constructor|]. now split.
    + destruct (renewalLoop svc vendor targetDate rest) as [[a|] src].
      * destruct IH as (before & q & after & -> & Hb & Hq & Hs).
        exists (p :: before), q, after. split; [reflexivity|].
        split; [constructor; [intros a' H; congruence|exact Hb]|]. now split.
      * destruct IH as [Hs Hall]. split; [exact Hs|].
        constructor; [intros a' H; congruence|exact Hall].
    + destruct (renewalLoop svc vendor targetDate rest) as [[a|] src].
      * destruct IH as (before & q & after & -> & Hb & Hq & Hs).
        exists (p :: before), q, after. split; [reflexivity|].
        split; [constructor; [intros a' H; congruence|exact Hb]|]. now split.
      * destruct IH as [Hs Hall]. split; [exact Hs|].
        constructor; [intros a' H; congruence|exact Hall].
Qed.

Lemma subscriptionParams_types (before after : list (string * string * string))
    (params : string * string * string) :
  subscriptionParams = (before ++ params :: after)%list ->
  fst (fst params) <> "none" /\ fst (fst params) <> "SALES_INFERRED".
Proof.
  intros H.
  assert (Hin : In params subscriptionParams).
  { rewrite H. apply in_or_app. right. now left. }
  unfold subscriptionParams in Hin. simpl in Hin.
  destruct Hin as [<-|[<-|[<-|[<-|[]]]]]; split; discriminate.
Qed.

(** X16: where the renewal figures of [getSubscriptionRenewals] come from.
    The renewal data is the analysis of the first of the four subscription
    reports that resolves with at least one row, and [dataSource] is then
    that report's type; an attempt that rejects or has no row is passed
    over.  [dataSource] is ['none'] exactly when neither renewal nor sales
    data was found, and ['SALES_INFERRED'] exactly when only sales data
    was. *)
Theorem renewals_data_source (svc : Service) (vendor : string) (date : option string) :
  vendorNumber svc = Some vendor ->
  truthyS vendor = true ->
  exists r,
    getSubscriptionRenewals svc date = Return r
    /\ (forall analysis, r_renewalData r = Some analysis ->
          exists before params after,
            subscriptionParams = (before ++ params :: after)%list
            /\ Forall (fun p => forall a,
                         tryRenewalReport svc vendor (r_date r) p <> Return (Some a))
                      before
            /\ tryRenewalReport svc vendor (r_date r) params = Return (Some analysis)
            /\ r_dataSource r = fst (fst params))
    /\ (r_renewalData r = None ->
          Forall (fun p => forall a,
                    tryRenewalReport svc vendor (r_date r) p <> Return (Some a))
                 subscriptionParams)
    /\ (r_dataSource r = "none" <-> r_renewalData r = None /\ r_salesData r = None)
    /\ (r_dataSource r = "SALES_INFERRED"
        <-> r_renewalData r = None /\ r_salesData r <> None).
Proof.
  intros Hv Ht. unfold getSubscriptionRenewals. rewrite Hv, Ht.
  set (salesData := match trySalesReport svc vendor (orS date (yesterdayDate svc)) with
                    | Return found => found
                    | Throw _ => None
                    end).
  clearbody salesData.
  pose proof (renewalLoop_spec svc vendor (orS date (yesterdayDate svc))
                subscriptionParams) as Hloop.
  destruct (renewalLoop svc vendor (orS date (yesterdayDate svc)) subscriptionParams)
    as [[a|] src].
  - destruct Hloop as (before & p & after & Hsplit & Hb & Hp & Hs).
    destruct (subscriptionParams_types _ _ _ Hsplit) as [Hn Hi].
    eexists. split; [reflexivity|].
    cbn [r_date r_renewalData r_salesData r_dataSource].
    assert (Hsrc : match salesData with Some _ => src | None => src end = src)
      by (destruct salesData; reflexivity).
    rewrite Hsrc. subst src.
    split.
    { intros analysis [= <-]. exists before, p, after.
      split; [exact Hsplit|]. split; [exact Hb|]. split; [exact Hp|reflexivity]. }
    split; [discriminate|].
    split; split; try (intros [H _]; discriminate); intros H; congruence.
  - destruct Hloop as [-> Hall].
    eexists. split; [reflexivity|].
    cbn [r_date r_renewalData r_salesData r_dataSource].
    split; [discriminate|]. split; [intros _; exact Hall|].
    destruct salesData as [sales|].
    + split; split; try discriminate; try (intros [_ H]; discriminate);
        intros _; split; [reflexivity|discriminate].
    + split; split; try discriminate; try (intros _; now split);
        intros [_ H]; now contradiction H.
Qed.

Lemma renewals_data_source_witness :
  exists r,
    getSubscriptionRenewals Sample.eventService (Some "2025-01-15") = Return r
    /\ r_dataSource r = "SUBSCRIPTION_EVENT".
Proof.
  destruct (renewals_data_source Sample.eventService "85000000" (Some "2025-01-15")
              eq_refl eq_refl) as (r & Hr & _).
  exists r. split; [exact Hr|].
  vm_compute in Hr. injection Hr as <-. reflexivity.
Defined.

(** X17: with sales data, no new subscription counted in it, and no renewal
    data showing an active subscriber, [estimatedMRR] is not zero but NaN:
    the estimate multiplies [newSubscriptions * 10 = 0] by the average price
    [subscriptionRevenue / newSubscriptions], a division by zero. *)
Theorem estimated_mrr_nan_without_new_subscriptions (svc : Service)
    (date : option string) (r : Renewals) (sales : Extracted) :
  getSubscriptionRenewals svc date = Return r ->
  (forall analysis, r_renewalData r = Some analysis ->
                    gt (activeSubscribers analysis) zero = false) ->
  r_salesData r = Some sales ->
  newSubscriptions sales = zero ->
  r_estimatedMRR r = nan.
Proof.
  unfold getSubscriptionRenewals.
  destruct (vendorNumber svc) as [vendor|]; [|discriminate].
  destruct (truthyS vendor); [|discriminate].
  destruct (renewalLoop svc vendor _ subscriptionParams) as [rd src].
  intros [= <-]. cbn [r_renewalData r_salesData r_estimatedMRR].
  intros Hactive Hsales Hzero.
  unfold calculateEstimatedMRR. cbn [r_renewalData r_salesData].
  rewrite Hsales, Hzero.
  destruct rd as [a|]; [rewrite (Hactive a eq_refl)|]; apply mul_zero_div_zero_nan.
Qed.

Lemma estimated_mrr_nan_without_new_subscriptions_witness :
  exists r, getSubscriptionRenewals Sample.oneTimeService None = Return r
            /\ r_dataSource r = "SALES_INFERRED"
            /\ r_estimatedMRR r = nan.
Proof.
  eexists. split; [vm_compute; reflexivity|]. split; [reflexivity|].
  eapply (estimated_mrr_nan_without_new_subscriptions Sample.oneTimeService None).
  - vm_compute. reflexivity.
  - intros analysis H. discriminate H.
  - reflexivity.
  - reflexivity.
Defined.

Lemma extract_fold_products (rs : list Row) (extracted : Extracted) (p : SalesProduct) :
  In p (products (fold_left extractStep rs extracted)) ->
  In p (products extracted)
  \/ exists row, In row rs /\ isSubscription row = true /\ gt (salesUnits row) zero = true
                 /\ p = {| sp_sku := orS (fields row !! "SKU") "";
                           sp_product := salesProduct row;
                           sp_units := salesUnits row;
                           sp_revenue := salesRevenue row;
                           sp_averagePrice :=
                             PrimFloat.div (salesRevenue row) (salesUnits row) |}.
Proof.
  revert extracted. induction rs as [|row rs IH]; intros extracted; simpl; [tauto|].
  intros H. apply IH in H. destruct H as [H|(row' & Hin & Hs & Hu & Hp)].
  - unfold extractStep in H. cbn [products] in H.
    destruct (isSubscription row) eqn:Es; cbn [andb] in H; [|now left].
    destruct (gt (salesUnits row) zero) eqn:Eu; [|now left].
    apply in_app_or in H. destruct H as [H|[<-|[]]]; [now left|].
    right. exists row. split; [now left|]. now repeat split.
  - right. exists row'. split; [now right|]. now repeat split.
Qed.

Lemma extract_fold_one_time (rs : list Row) (extracted : Extracted) :
  List.Forall (fun row => isSubscription row = false) rs ->
  let extracted' := fold_left extractStep rs extracted in
  subscriptionRevenue extracted' = subscriptionRevenue extracted
  /\ newSubscriptions extracted' = newSubscriptions extracted
  /\ products extracted' = products extracted.
Proof.
  revert extracted. induction rs as [|row rs IH]; intros extracted H; simpl.
  - now repeat split.
  - inversion H as [|? ? Hrow Hrest]; subst.
    destruct (IH (extractStep extracted row) Hrest) as (H1 & H2 & H3).
    rewrite H1, H2, H3. unfold extractStep. cbn [subscriptionRevenue newSubscriptions products].
    rewrite Hrow. now repeat split.
Qed.

(** X18: what [extractSubscriptionFromSales] lists and counts.  Every entry
    of [products] comes from a row that passed the subscription test with a
    unit count above zero, so its [averagePrice] never divides by zero; and
    a report none of whose rows passes the test counts no new subscription,
    no subscription revenue and no product. *)
Theorem sales_products_are_subscriptions_with_units (parsedData : ParsedReport) :
  (forall p, In p (products (extractSubscriptionFromSales parsedData)) ->
     exists row,
       In row (rows parsedData)
       /\ isSubscription row = true
       /\ gt (salesUnits row) zero = true
       /\ p = {| sp_sku := orS (fields row !! "SKU") "";
                 sp_product := salesProduct row;
                 sp_units := salesUnits row;
                 sp_revenue := salesRevenue row;
                 sp_averagePrice := PrimFloat.div (salesRevenue row) (salesUnits row) |})
  /\ (List.Forall (fun row => isSubscription row = false) (rows parsedData) ->
      newSubscriptions (extractSubscriptionFromSales parsedData) = zero
      /\ subscriptionRevenue (extractSubscriptionFromSales parsedData) = zero
      /\ products (extractSubscriptionFromSales parsedData) = []).
Proof.
  unfold extractSubscriptionFromSales.
  cbn [products newSubscriptions subscriptionRevenue]. split.
  - intros p Hin.
    apply (Permutation_in _ (sort_perm _ _)) in Hin.
    apply extract_fold_products in Hin. destruct Hin as [[]|H]. exact H.
  - intros H.
    destruct (extract_fold_one_time (rows parsedData) initialExtracted H) as (H1 & H2 & H3).
    rewrite H1, H2, H3. now repeat split.
Qed.

Lemma string_payload_decodes_quoted (rt : Runtime) (s : string) :
  FinanceService.isGzipMagic (String.get 0 s) (String.get 1 s) = false ->
  decompressIfNeeded rt (PString s) = Return (jsonStringifyString s).
Proof. intros H. simpl. now rewrite H, andb_false_r. Qed.

(** X25: an upstream that hands its reports over as plain strings (not
    gzip streams) gives [getSubscriptionRenewals] nothing to read: each
    string is parsed in its [JSON.stringify] form, which has no row, so the
    result has no renewal data, no sales data, a zero estimate and the data
    source ['none'], whatever the reports contain. *)
Theorem renewals_ignore_string_payloads (svc : Service) (vendor : string)
    (date : option string) :
  vendorNumber svc = Some vendor ->
  truthyS vendor = true ->
  (forall params, exists s,
      request (client svc) "/salesReports" params = Return (PString s)
      /\ FinanceService.isGzipMagic (String.get 0 s) (String.get 1 s) = false) ->
  getSubscriptionRenewals svc date
  = Return {| r_date := orS date (yesterdayDate svc);
              r_renewalData := None;
              r_newSubscriptions := null;
              r_salesData := None;
              r_totalRenewals := zero;
              r_totalNewSubscriptions := zero;
              r_estimatedMRR := zero;
              r_dataSource := "none" |}.
Proof.
  intros Hv Ht Htext. unfold getSubscriptionRenewals. rewrite Hv, Ht.
  assert (Hloop : forall attempts,
            renewalLoop svc vendor (orS date (yesterdayDate svc)) attempts = (None, "none")).
  { induction attempts as [|p rest IH]; [reflexivity|].
    cbn [renewalLoop]. unfold tryRenewalReport.
    destruct (Htext (fullParams vendor (orS date (yesterdayDate svc)) p))
      as (s & -> & Hmagic).
    cbn [bind]. rewrite (string_payload_decodes_quoted _ _ Hmagic). cbn [bind].
    rewrite quoted_report_has_no_rows. cbn [List.length Nat.ltb Nat.leb]. exact IH. }
  rewrite Hloop.
  unfold trySalesReport.
  destruct (Htext (fullParams vendor (orS date (yesterdayDate svc))
                     ("SALES", "SUMMARY", "1_1"))) as (s & -> & Hmagic).
  cbn [bind]. rewrite (string_payload_decodes_quoted _ _ Hmagic). cbn [bind].
  rewrite quoted_report_has_no_rows. reflexivity.
Qed.

Lemma renewals_ignore_string_payloads_witness :
  r_dataSource <$> match getSubscriptionRenewals Sample.textService None with
                   | Return r => Some r
                   | Throw _ => None
                   end = Some "none"
  /\ List.length (rows (parseCSVReport Sample.coinsDay "SALES")) = 1%nat.
Proof.
  split; [|vm_compute; reflexivity].
  rewrite (renewals_ignore_string_payloads Sample.textService "85000000" None
             eq_refl eq_refl).
  - reflexivity.
  - intros params. exists Sample.coinsDay. split; reflexivity.
Defined.

End Renewals.

(** ** The monthly summary of FinanceReportService *)

Section MonthlySummary.
Import JS FinanceReportService.

Lemma mapSet_fresh {V} (k : string) (v : V) (m : Map V) :
  ~ In k (map fst m) -> mapSet k v m = (m ++ [(k, v)])%list.
Proof.
  induction m as [|[k' v'] m IH]; simpl; intros H; [reflexivity|].
  destruct (String.eqb_spec k k') as [->|Hne]; [tauto|].
  rewrite IH; [reflexivity|tauto].
Qed.

Lemma regionStep_region (svc : Service) (fiscalPeriod : string) (st : SummaryState)
    (code name : string) :
  (st_byRegion (regionStep svc fiscalPeriod st (code, name)),
   st_totalRevenue (regionStep svc fiscalPeriod st (code, name)))
  = match getFinancialReport svc fiscalPeriod (Some code) with
    | Return report =>
        if gt (totalRevenue report) zero
        then (mapSet name (totalRevenue report) (st_byRegion st),
              PrimFloat.add (st_totalRevenue st) (totalRevenue report))
        else (st_byRegion st, st_totalRevenue st)
    | Throw _ => (st_byRegion st, st_totalRevenue st)
    end.
Proof.
  unfold regionStep.
  destruct (getFinancialReport svc fiscalPeriod (Some code)) as [report|e].
  - unfold addRegion. destruct (gt (totalRevenue report) zero); [|reflexivity].
    destruct (fold_left _ _ _) as [[bp sr] rr]. reflexivity.
  - unfold catchRegion. destruct (negb _); reflexivity.
Qed.

Lemma regionStep_console (svc : Service) (fiscalPeriod : string) (st : SummaryState)
    (code name : string) :
  st_console (regionStep svc fiscalPeriod st (code, name))
  = match getFinancialReport svc fiscalPeriod (Some code) with
    | Return _ => st_console st
    | Throw e =>
        if includes "404" (message e) then st_console st
        else (st_console st ++
                [String.append "Error fetching "
                   (String.append name (String.append " data: " (message e)))])%list
    end.
Proof.
  unfold regionStep.
  destruct (getFinancialReport svc fiscalPeriod (Some code)) as [report|e].
  - unfold addRegion. destruct (gt (totalRevenue report) zero); [|reflexivity].
    destruct (fold_left _ _ _) as [[bp sr] rr]. reflexivity.
  - unfold catchRegion. destruct (includes "404" (message e)); reflexivity.
Qed.

Lemma regions_fold (svc : Service) (fiscalPeriod : string)
    (rs : list (string * string)) (st : SummaryState) :
  List.NoDup (map snd rs) ->
  (forall r, In r rs -> ~ In (snd r) (map fst (st_byRegion st))) ->
  let st' := fold_left (regionStep svc fiscalPeriod) rs st in
  (forall name v,
      In (name, v) (st_byRegion st')
      <-> In (name, v) (st_byRegion st)
          \/ exists code report,
               In (code, name) rs
               /\ getFinancialReport svc fiscalPeriod (Some code) = Return report
               /\ gt (totalRevenue report) zero = true
               /\ v = totalRevenue report)
  /\ (List.NoDup (map fst (st_byRegion st)) -> List.NoDup (map fst (st_byRegion st')))
  /\ (st_totalRevenue st = fold_left PrimFloat.add (map snd (st_byRegion st)) zero ->
      st_totalRevenue st' = fold_left PrimFloat.add (map snd (st_byRegion st')) zero).
Proof.
  revert st. induction rs as [|[code name] rs IH]; intros st Hnd Hfresh; cbn zeta.
  - simpl. split; [|split]; auto.
    intros name v. split; [auto|]. intros [H|(c & r & [] & _)]. exact H.
  - cbn [fold_left].
    inversion Hnd as [|? ? Hname Hnd']; subst.
    assert (Hhere : ~ In name (map fst (st_byRegion st))).
    { apply (Hfresh (code, name)). now left. }
    pose proof (regionStep_region svc fiscalPeriod st code name) as Hstep.
    set (st1 := regionStep svc fiscalPeriod st (code, name)) in *.
    assert (Hkeys : forall k, In k (map fst (st_byRegion st1)) ->
                              k = name \/ In k (map fst (st_byRegion st))).
    { intros k Hk.
      destruct (getFinancialReport svc fiscalPeriod (Some code)) as [report|e].
      - destruct (gt (totalRevenue report) zero); injection Hstep as Hb _;
          rewrite Hb in Hk; [|now right].
        rewrite (mapSet_fresh _ _ _ Hhere), map_app, in_app_iff in Hk.
        simpl in Hk. destruct Hk as [H|[H|[]]]; [now right|left; now symmetry].
      - injection Hstep as Hb _. rewrite Hb in Hk. now right. }
    assert (Hfresh1 : forall r, In r rs -> ~ In (snd r) (map fst (st_byRegion st1))).
    { intros r Hr Hin. apply Hkeys in Hin. destruct Hin as [Heq|Hin].
      - apply Hname. rewrite <- Heq. now apply in_map.
      - apply (Hfresh r); [now right|exact Hin]. }
    destruct (IH st1 Hnd' Hfresh1) as (Hmem & Hnodup & Hsum).
    split; [|split].
    + intros n v. rewrite Hmem. clear Hmem Hnodup Hsum.
      destruct (getFinancialReport svc fiscalPeriod (Some code)) as [report|e] eqn:E.
      * destruct (gt (totalRevenue report) zero) eqn:G; injection Hstep as Hb _; rewrite Hb.
        -- rewrite (mapSet_fresh _ _ _ Hhere), in_app_iff. simpl. split.
           ++ intros [[H|[[= <- <-]|[]]]|(c & r & Hin & Hr & Hg & Hv)].
              ** now left.
              ** right. exists code, report. split; [now left|]. now repeat split.
              ** right. exists c, r. split; [now right|]. now repeat split.
           ++ intros [H|(c & r & [[= <- <-]|Hin] & Hr & Hg & Hv)].
              ** left. now left.
              ** left. right. left. rewrite E in Hr. injection Hr as <-. now subst v.
              ** right. exists c, r. now repeat split.
        -- split.
           ++ intros [H|(c & r & Hin & Hr & Hg & Hv)]; [now left|].
              right. exists c, r. split; [now right|]. now repeat split.
           ++ intros [H|(c & r & [[= <- <-]|Hin] & Hr & Hg & Hv)]; [now left| |].
              ** rewrite E in Hr. injection Hr as <-. congruence.
              ** right. exists c, r. now repeat split.
      * injection Hstep as Hb _; rewrite Hb. split.
        -- intros [H|(c & r & Hin & Hr & Hg & Hv)]; [now left|].
           right. exists c, r. split; [now right|]. now repeat split.
        -- intros [H|(c & r & [[= <- <-]|Hin] & Hr & Hg & Hv)]; [now left| |].
           ++ rewrite E in Hr. discriminate.
           ++ right. exists c, r. now repeat split.
    + intros H. apply Hnodup.
      destruct (getFinancialReport svc fiscalPeriod (Some code)) as [report|e].
      * destruct (gt (totalRevenue report) zero); injection Hstep as Hb _; rewrite Hb;
          [|exact H].
        rewrite (mapSet_fresh _ _ _ Hhere), map_app. simpl.
        apply List.NoDup_app; [exact H|repeat constructor; intros []|].
        intros k Hk [<-|[]]. contradiction.
      * injection Hstep as Hb _. now rewrite Hb.
    + intros H. apply Hsum.
      destruct (getFinancialReport svc fiscalPeriod (Some code)) as [report|e].
      * destruct (gt (totalRevenue report) zero); injection Hstep as Hb Ht;
          rewrite Hb, Ht; [|exact H].
        rewrite (mapSet_fresh _ _ _ Hhere), map_app, fold_left_app. simpl.
        now rewrite H.
      * injection Hstep as Hb Ht. now rewrite Hb, Ht.
Qed.

(** X19: what [getMonthlySummary] adds up.  [byRegion] has one entry for
    each of the six regions whose report resolved with a total above zero,
    under the region's name and with that total, and no other entry;
    [totalRevenue] is the sum of these entries in their order.  A region
    whose request rejects, whose report cannot be decompressed, or whose
    total is zero, negative or NaN contributes nothing. *)
Theorem monthly_summary_adds_positive_regions (svc : Service) (year month : Z) :
  let summary := fst (getMonthlySummary svc year month) in
  (forall name v,
      In (name, v) (sum_byRegion summary)
      <-> exists code report,
            In (code, name) regions
            /\ getFinancialReport svc (getFiscalPeriod year month) (Some code)
               = Return report
            /\ gt (totalRevenue report) zero = true
            /\ v = totalRevenue report)
  /\ List.NoDup (map fst (sum_byRegion summary))
  /\ sum_totalRevenue summary
     = fold_left PrimFloat.add (map snd (sum_byRegion summary)) zero.
Proof.
  cbn zeta. unfold getMonthlySummary. cbn [fst sum_byRegion sum_totalRevenue].
  assert (Hnd : List.NoDup (map snd regions)).
  { unfold regions. simpl.
    repeat (constructor; [simpl; intuition discriminate|]). constructor. }
  destruct (regions_fold svc (getFiscalPeriod year month) regions initialSummaryState Hnd)
    as (Hmem & Hnodup & Hsum).
  { intros r _ []. }
  split; [|split].
  - intros name v. rewrite Hmem. simpl. tauto.
  - apply Hnodup. constructor.
  - apply Hsum. reflexivity.
Qed.

Lemma console_fold (svc : Service) (fiscalPeriod : string)
    (rs : list (string * string)) (st : SummaryState) (line : string) :
  In line (st_console (fold_left (regionStep svc fiscalPeriod) rs st))
  <-> In line (st_console st)
      \/ exists code name e,
           In (code, name) rs
           /\ getFinancialReport svc fiscalPeriod (Some code) = Throw e
           /\ includes "404" (message e) = false
           /\ line = String.append "Error fetching "
                       (String.append name (String.append " data: " (message e))).
Proof.
  revert st. induction rs as [|[code name] rs IH]; intros st.
  - simpl. split; [auto|]. intros [H|(c & n & e & [] & _)]. exact H.
  - cbn [fold_left]. rewrite IH, regionStep_console.
    destruct (getFinancialReport svc fiscalPeriod (Some code)) as [report|e] eqn:E.
    + split.
      * intros [H|(c & n & e & Hin & He & H4 & Hl)]; [now left|].
        right. exists c, n, e. split; [now right|]. now repeat split.
      * intros [H|(c & n & e & [[= <- <-]|Hin] & He & H4 & Hl)]; [now left|congruence|].
        right. exists c, n, e. now repeat split.
    + destruct (includes "404" (message e)) eqn:I4.
      * split.
        -- intros [H|(c & n & e' & Hin & He & H4 & Hl)]; [now left|].
           right. exists c, n, e'. split; [now right|]. now repeat split.
        -- intros [H|(c & n & e' & [[= <- <-]|Hin] & He & H4 & Hl)]; [now left| |].
           ++ rewrite E in He. injection He as <-. congruence.
           ++ right. exists c, n, e'. now repeat split.
      * rewrite in_app_iff. simpl. split.
        -- intros [[H|[<-|[]]]|(c & n & e' & Hin & He & H4 & Hl)].
           ++ now left.
           ++ right. exists code, name, e. split; [now left|]. now repeat split.
           ++ right. exists c, n, e'. split; [now right|]. now repeat split.
        -- intros [H|(c & n & e' & [[= <- <-]|Hin] & He & H4 & Hl)].
           ++ left. now left.
           ++ left. right. left. rewrite E in He. injection He as <-. now subst line.
           ++ right. exists c, n, e'. now repeat split.
Qed.

(** The console of the region loop, line by line. *)
Lemma console_fold_lines (svc : Service) (fiscalPeriod : string)
    (rs : list (string * string)) (st : SummaryState) :
  st_console (fold_left (regionStep svc fiscalPeriod) rs st)
  = (st_console st
     ++ flat_map (fun region : string * string =>
                    match getFinancialReport svc fiscalPeriod (Some (fst region)) with
                    | Return _ => []
                    | Throw error =>
                        if includes "404" (message error) then []
                        else [String.append "Error fetching "
                                (String.append (snd region)
                                   (String.append " data: " (message error)))]
                    end) rs)%list.
Proof.
  revert st. induction rs as [|[code name] rs IH]; intros st.
  - simpl. now rewrite app_nil_r.
  - cbn [fold_left flat_map fst snd]. rewrite IH, regionStep_console.
    destruct (getFinancialReport svc fiscalPeriod (Some code)) as [report|e];
      [reflexivity|].
    destruct (includes "404" (message e)); [reflexivity|].
    now rewrite <- app_assoc.
Qed.

(** X20: what [getMonthlySummary] writes to the console, as a list: going
    through the six regions in their order, exactly one line for each
    region whose report rejects with a message that does not contain the
    text 404, naming the region and carrying the message; nothing for a
    region that resolves, nothing for a rejection whose message contains
    404, and nothing else. *)
Theorem monthly_summary_console_lines (svc : Service) (year month : Z) :
  snd (getMonthlySummary svc year month)
  = flat_map (fun region : string * string =>
                match getFinancialReport svc (getFiscalPeriod year month)
                        (Some (fst region)) with
                | Return _ => []
                | Throw error =>
                    if includes "404" (message error) then []
                    else [String.append "Error fetching "
                            (String.append (snd region)
                               (String.append " data: " (message error)))]
                end)
             [ ("US", "United States"); ("CA", "Canada"); ("EU", "Europe");
               ("JP", "Japan"); ("AU", "Australia"); ("WW", "Rest of World") ].
Proof.
  unfold getMonthlySummary. cbn [snd]. rewrite console_fold_lines. reflexivity.
Qed.

Lemma nextFiscalPeriod_label (fy : Z) (mm mm' : string) (twelve : bool) :
  0 <= fy <= 2999 ->
  includes "-" mm = false ->
  PrimFloat.eqb (toNumber mm) 12 = twelve ->
  padStart 2 "0" (numberToString (if twelve then 1%float
                                  else PrimFloat.add (toNumber mm) 1)) = mm' ->
  nextFiscalPeriod (String.append (stringOfInt fy) (String "-" mm))
  = String.append (stringOfInt (if twelve then fy + 1 else fy)) (String "-" mm').
Proof.
  intros Hfy Hmm Htwelve Hnext. unfold nextFiscalPeriod.
  rewrite (split_first_piece "-" _ mm (stringOfInt_no_minus fy (proj1 Hfy))).
  rewrite (split_single_piece "-" mm Hmm).
  cbn [map at_ lookup list_lookup]. rewrite Htwelve.
  destruct (fiscal_year_facts fy) as (H1 & H2 & H3); [lia|].
  destruct (fiscal_year_facts (fy + 1)) as (H1' & _); [lia|].
  rewrite H2.
  destruct twelve; cbn [stringOfOptNumber]; rewrite ?H3, ?H1', ?H1, Hnext; reflexivity.
Qed.

(** X21: the flag [isLatestAvailable] of the monthly summary.  For a
    calendar month 1..12 of a year 0..2998 the period probed is the fiscal
    period of the following calendar month, December being followed by
    January of the next year; the flag is false exactly when the US report
    of that period resolves, and true on any failure of that request. *)
Theorem latest_flag_probes_following_month (svc : Service) (year month : Z) :
  0 <= year <= 2998 ->
  1 <= month <= 12 ->
  let following := if month =? 12 then (year + 1, 1) else (year, month + 1) in
  nextFiscalPeriod (getFiscalPeriod year month)
  = getFiscalPeriod (fst following) (snd following)
  /\ (sm_isLatestAvailable (sum_metadata (fst (getMonthlySummary svc year month))) = false
      <-> completes (getFinancialReport svc
                       (getFiscalPeriod (fst following) (snd following)) (Some "US"))).
Proof.
  intros Hy Hm. cbn zeta.
  assert (Hnext : nextFiscalPeriod (getFiscalPeriod year month)
                  = getFiscalPeriod (fst (if month =? 12 then (year + 1, 1)
                                          else (year, month + 1)))
                                    (snd (if month =? 12 then (year + 1, 1)
                                          else (year, month + 1)))).
  { assert (Hcases : month = 1 \/ month = 2 \/ month = 3 \/ month = 4 \/ month = 5
                     \/ month = 6 \/ month = 7 \/ month = 8 \/ month = 9
                     \/ month = 10 \/ month = 11 \/ month = 12) by lia.
    destruct Hcases as [->|[->|[->|[->|[->|[->|[->|[->|[->|[->|[->| ->]]]]]]]]]]];
      cbn [Z.eqb Pos.eqb fst snd]; rewrite !getFiscalPeriod_label by lia.
    - apply (nextFiscalPeriod_label year "04" "05" false); [lia| | |];
        vm_compute; reflexivity.
    - apply (nextFiscalPeriod_label year "05" "06" false); [lia| | |];
        vm_compute; reflexivity.
    - apply (nextFiscalPeriod_label year "06" "07" false); [lia| | |];
        vm_compute; reflexivity.
    - apply (nextFiscalPeriod_label year "07" "08" false); [lia| | |];
        vm_compute; reflexivity.
    - apply (nextFiscalPeriod_label year "08" "09" false); [lia| | |];
        vm_compute; reflexivity.
    - apply (nextFiscalPeriod_label year "09" "10" false); [lia| | |];
        vm_compute; reflexivity.
    - apply (nextFiscalPeriod_label year "10" "11" false); [lia| | |];
        vm_compute; reflexivity.
    - apply (nextFiscalPeriod_label year "11" "12" false); [lia| | |];
        vm_compute; reflexivity.
    - apply (nextFiscalPeriod_label year "12" "01" true); [lia| | |];
        vm_compute; reflexivity.
    - apply (nextFiscalPeriod_label (year + 1) "01" "02" false); [lia| | |];
        vm_compute; reflexivity.
    - apply (nextFiscalPeriod_label (year + 1) "02" "03" false); [lia| | |];
        vm_compute; reflexivity.
    - apply (nextFiscalPeriod_label (year + 1) "03" "04" false); [lia| | |];
        vm_compute; reflexivity. }
  split; [exact Hnext|].
  unfold getMonthlySummary. cbn [fst sum_metadata sm_isLatestAvailable].
  unfold isLatestAvailableMonth. rewrite Hnext.
  destruct (getFinancialReport svc _ (Some "US")); simpl; split;
    try tauto; try discriminate.
Qed.

End MonthlySummary.

(** ** The latest available month and the product breakdown *)

Section LatestAvailable.
Import JS FinanceReportService.

Lemma latest_flag_probes_following_month_witness :
  nextFiscalPeriod (getFiscalPeriod 2025 9) = "2026-01"
  /\ nextFiscalPeriod (getFiscalPeriod 2025 12) = "2026-04"
  /\ sm_isLatestAvailable
       (sum_metadata (fst (getMonthlySummary Sample.julyService 2025 6))) = false.
Proof.
  assert (Hy : 0 <= 2025 <= 2998) by lia.
  assert (H9 : 1 <= 9 <= 12) by lia.
  assert (H12 : 1 <= 12 <= 12) by lia.
  assert (H6 : 1 <= 6 <= 12) by lia.
  split; [|split].
  - exact (proj1 (latest_flag_probes_following_month Sample.julyService 2025 9 Hy H9)).
  - exact (proj1 (latest_flag_probes_following_month Sample.julyService 2025 12 Hy H12)).
  - apply (proj2 (latest_flag_probes_following_month Sample.julyService 2025 6 Hy H6)).
    vm_compute. exact I.
Defined.

Lemma latestLoop_spec (svc : Service) (tests : list (Z * Z)) (console : list string) :
  match fst (latestLoop svc tests console) with
  | Return latest =>
      exists before year month after,
        tests = (before ++ (year, month) :: after)%list
        /\ List.Forall
             (fun t =>
                ~ completes (getFinancialReport svc (getFiscalPeriod (fst t) (snd t))
                               (Some "US"))
                \/ gt (sum_totalRevenue (fst (getMonthlySummary svc (fst t) (snd t)))) zero
                   = false)
             before
        /\ completes (getFinancialReport svc (getFiscalPeriod year month) (Some "US"))
        /\ gt (la_totalRevenue latest) zero = true
        /\ latest
           = {| la_totalRevenue :=
                  sum_totalRevenue (fst (getMonthlySummary svc year month));
                la_byRegion := sum_byRegion (fst (getMonthlySummary svc year month));
                la_fiscalPeriod := getFiscalPeriod year month;
                la_month := monthLabel year month |}
  | Throw e =>
      e = mkError "No financial reports available in the last 3 months"
      /\ List.Forall
           (fun t =>
              ~ completes (getFinancialReport svc (getFiscalPeriod (fst t) (snd t))
                             (Some "US"))
              \/ gt (sum_totalRevenue (fst (getMonthlySummary svc (fst t) (snd t)))) zero
                 = false)
           tests
  end.
Proof.
  revert console. induction tests as [|[year month] rest IH]; intros console.
  - simpl. split; [reflexivity|constructor].
  - cbn [latestLoop].
    destruct (getFinancialReport svc (getFiscalPeriod year month) (Some "US"))
      as [probe|e] eqn:Eprobe.
    + destruct (getMonthlySummary svc year month) as [summary logged] eqn:Esum.
      destruct (gt (sum_totalRevenue summary) zero) eqn:Egt.
      * cbn [fst]. exists [], year, month, rest.
        split; [reflexivity|]. split; [constructor|].
        rewrite Eprobe, Esum. cbn [fst la_totalRevenue]. now repeat split.
      * specialize (IH (console ++ logged)%list).
        destruct (fst (latestLoop svc rest (console ++ logged))) as [latest|e'].
        -- destruct IH as (before & y & m & after & -> & Hb & Hp & Hg & Hl).
           exists ((year, month) :: before), y, m, after.
           split; [reflexivity|]. split; [|now repeat split].
           constructor; [|exact Hb]. right. cbn [fst snd]. now rewrite Esum.
        -- destruct IH as [He Hall]. split; [exact He|].
           constructor; [|exact Hall]. right. cbn [fst snd]. now rewrite Esum.
    + specialize (IH console).
      destruct (fst (latestLoop svc rest console)) as [latest|e'].
      * destruct IH as (before & y & m & after & -> & Hb & Hp & Hg & Hl).
        exists ((year, month) :: before), y, m, after.
        split; [reflexivity|]. split; [|now repeat split].
        constructor; [|exact Hb]. left. cbn [fst snd]. rewrite Eprobe. simpl. tauto.
      * destruct IH as [He Hall]. split; [exact He|].
        constructor; [|exact Hall]. left. cbn [fst snd]. rewrite Eprobe. simpl. tauto.
Qed.

(** X22: [getLatestAvailable] answers with the most recent of the current
    month and the two before it whose US report resolves and whose monthly
    summary has a total above zero: the result is that month's summary, so
    its [totalRevenue] is above zero, and every more recent month was
    passed over for one of the two reasons.  It rejects, with the message
    about the last 3 months and no other, exactly when all three months
    are passed over. *)
Theorem latest_available_is_most_recent_with_revenue (svc : Service)
    (nowYear nowMonth : Z) :
  match fst (getLatestAvailable svc nowYear nowMonth) with
  | Return latest =>
      exists before year month after,
        map (testMonth nowYear nowMonth) [0; 1; 2]
        = (before ++ (year, month) :: after)%list
        /\ List.Forall
             (fun t =>
                ~ completes (getFinancialReport svc (getFiscalPeriod (fst t) (snd t))
                               (Some "US"))
                \/ gt (sum_totalRevenue (fst (getMonthlySummary svc (fst t) (snd t)))) zero
                   = false)
             before
        /\ completes (getFinancialReport svc (getFiscalPeriod year month) (Some "US"))
        /\ gt (la_totalRevenue latest) zero = true
        /\ latest
           = {| la_totalRevenue :=
                  sum_totalRevenue (fst (getMonthlySummary svc year month));
                la_byRegion := sum_byRegion (fst (getMonthlySummary svc year month));
                la_fiscalPeriod := getFiscalPeriod year month;
                la_month := monthLabel year month |}
  | Throw e =>
      e = mkError "No financial reports available in the last 3 months"
      /\ List.Forall
           (fun t =>
              ~ completes (getFinancialReport svc (getFiscalPeriod (fst t) (snd t))
                             (Some "US"))
              \/ gt (sum_totalRevenue (fst (getMonthlySummary svc (fst t) (snd t)))) zero
                 = false)
           (map (testMonth nowYear nowMonth) [0; 1; 2])
  end.
Proof. unfold getLatestAvailable. apply latestLoop_spec. Qed.

Lemma findIndex_Some {A} (p : A -> bool) (l : list A) (i : nat) :
  findIndex p l = Some i -> exists x, l !! i = Some x /\ p x = true.
Proof.
  revert i. induction l as [|y l IH]; intros i; simpl; [discriminate|].
  destruct (p y) eqn:E.
  - intros [= <-]. exists y. now split.
  - destruct (findIndex p l) as [j|]; [|discriminate].
    intros [= <-]. destruct (IH j eq_refl) as (x & Hx & Hp). exists x. now split.
Qed.

(** X23: a return is taken off the regional total and added to the
    product's revenue.  For a report with distinct column names, a product
    column, a revenue column and a column named ['Sales or Return'], a
    line flagged [R] with the value [v] lowers [totalRevenue] of
    [parseFinanceReport] by [v]; the row it leaves makes
    [getMonthlySummary] raise the product's entry of [byProduct] by [v]
    (and [returns] by the magnitude of [v]). *)
Theorem return_lowers_total_raises_product
    (report : ParsedFinanceReport) (line : string)
    (rows0 : list Row) (total : number)
    (byProduct : Map number) (salesRevenue returnsRevenue : number)
    (p s r : nat) :
  List.NoDup (headers report) ->
  findIndex (fun h => String.eqb h "Vendor Identifier" || String.eqb h "SKU")
            (headers report) = Some p ->
  findIndex (fun h => String.eqb h "Sales or Return") (headers report) = Some s ->
  salesReturnIdx (findColumns (headers report)) = Some s ->
  revenueIdx (findColumns (headers report)) = Some r ->
  at_ (split "009" line) s = Some "R" ->
  let v := revenueValue (split "009" line) r in
  exists row,
    rowStep (headers report) (findColumns (headers report)) (rows0, total) line
    = ((rows0 ++ [row])%list, PrimFloat.sub total v)
    /\ productStep report (byProduct, salesRevenue, returnsRevenue) row
       = (FinanceService.addTo (orS (readColumn report row p) "Unknown") (orN v zero)
            byProduct,
          salesRevenue,
          PrimFloat.add returnsRevenue (mathAbs (orN v zero))).
Proof.
  intros Hnd Hp Hs Hsr Hr Hflag v.
  eexists. split.
  - unfold rowStep, addRevenue. rewrite Hr, Hsr, Hflag. cbn [option_map].
    reflexivity.
  - unfold productStep. rewrite Hp, Hs.
    destruct (findIndex_Some _ _ _ Hs) as (hs & Hhs & Heq).
    apply String.eqb_eq in Heq. subst hs.
    assert (Hcell : readColumn report
                      {| fields := FinanceService.fillRow (headers report)
                                     (split "009" line) 0 ∅;
                         _revenue := Some (revenueValue (split "009" line) r) |} s
                    = Some "R").
    { unfold readColumn, at_. rewrite Hhs. cbn [fields].
      rewrite (fillRow_cell _ _ 0 s _ _ Hnd Hhs) by discriminate. cbn [Nat.add].
      unfold at_ in Hflag. rewrite Hflag. reflexivity. }
    rewrite Hcell. cbn [String.eqb Ascii.eqb Bool.eqb].
    reflexivity.
Qed.

Lemma return_lowers_total_raises_product_witness :
  let report :=
    {| headers := ["Vendor Identifier"; "Extended Partner Share";
                   "Sales or Return"; "Partner Share Currency"];
       rows := []; totalRevenue := zero; rowCount := O;
       metadata := Sample.metadata |} in
  let line := String.concat (String "009" EmptyString) ["pro.yearly"; "70"; "R"; "USD"] in
  let v := revenueValue (split "009" line) 1 in
  exists row,
    rowStep (headers report) (findColumns (headers report)) ([], 140%float) line
    = ([row], PrimFloat.sub 140 v)
    /\ productStep report ([("pro.yearly", 140%float)], 140%float, zero) row
       = (FinanceService.addTo (orS (readColumn report row 0) "Unknown") (orN v zero)
            [("pro.yearly", 140%float)],
          140%float,
          PrimFloat.add zero (mathAbs (orN v zero))).
Proof.
  cbv zeta.
  refine (return_lowers_total_raises_product
            {| headers := ["Vendor Identifier"; "Extended Partner Share";
                           "Sales or Return"; "Partner Share Currency"];
               rows := []; totalRevenue := zero; rowCount := O;
               metadata := Sample.metadata |}
            (String.concat (String "009" EmptyString) ["pro.yearly"; "70"; "R"; "USD"])
            [] 140%float [("pro.yearly", 140%float)] 140%float zero 0 2 1
            _ eq_refl eq_refl eq_refl eq_refl eq_refl).
  cbn [headers]. repeat (constructor; [simpl; intuition discriminate|]). constructor.
Defined.

End LatestAvailable.

(** ** Errors of the client and the 404 filter *)

Section ClientErrors.
Import JS Client FinanceReportService.

Lemma resource_not_found_404 (text : string) :
  includes "404" (String.append "Resource not found: " text) = includes "404" text.
Proof. reflexivity. Qed.

(** X24: the 404 filter of the region loop against the errors the client
    makes.  A 404 that the App Store answers with an [errors] body is
    turned by [handleError] into ['Resource not found: ...'] with the
    detail (else the title) of the first entry; unless that text itself
    contains 404, [getMonthlySummary] does not recognise it as the expected
    404 and writes it to the console for the region.  A 404 without such a
    body becomes ['API Error (404): ...'], which the filter does
    recognise. *)
Theorem app_store_404_is_logged (svc : Service) (year month : Z)
    (code name : string) (error : AxiosError) (resp : Response)
    (firstError : ApiError) (others : list ApiError) :
  In (code, name) regions ->
  response error = Some resp ->
  status resp = 404 ->
  errors resp = Some (firstError :: others) ->
  includes "404"
    (orS (orElse (detail firstError) (Some (title firstError))) "Unknown error") = false ->
  request (client svc) "/financeReports"
    (reportParams svc "FINANCIAL" "US" (getFiscalPeriod year month) (Some code))
  = Throw (handleError error) ->
  In (String.append "Error fetching "
        (String.append name
           (String.append " data: Resource not found: "
              (orS (orElse (detail firstError) (Some (title firstError)))
                   "Unknown error"))))
     (snd (getMonthlySummary svc year month))
  /\ includes "404"
       (message (handleError {| response := Some {| status := 404; errors := None |};
                                hasRequest := hasRequest error;
                                errorMessage := errorMessage error |})) = true.
Proof.
  intros Hin Hresp Hstatus Herrors Htext Hreq.
  assert (Hmsg : handleError error
                 = mkError (String.append "Resource not found: "
                              (orS (orElse (detail firstError) (Some (title firstError)))
                                   "Unknown error"))).
  { unfold handleError. rewrite Hresp, Herrors, Hstatus. reflexivity. }
  split.
  - unfold getMonthlySummary. cbn [snd]. apply console_fold. right.
    exists code, name, (handleError error).
    split; [exact Hin|]. split.
    + unfold getFinancialReport. rewrite Hreq. reflexivity.
    + rewrite Hmsg. cbn [message]. rewrite resource_not_found_404.
      split; [exact Htext|reflexivity].
  - reflexivity.
Qed.

Lemma app_store_404_is_logged_witness :
  In "Error fetching United States data: Resource not found: Report is not available yet."
     (snd (getMonthlySummary Sample.emptyStoreService 2025 7))
  /\ includes "404" (message (handleError Sample.notAvailable)) = false.
Proof.
  split; [|reflexivity].
  exact (proj1 (app_store_404_is_logged Sample.emptyStoreService 2025 7
                  "US" "United States" Sample.notAvailable
                  {| status := 404;
                     errors :=
                       Some [ {| title := "The specified resource does not exist";
                                 detail := Some "Report is not available yet." |} ] |}
                  {| title := "The specified resource does not exist";
                     detail := Some "Report is not available yet." |}
                  [] (or_introl eq_refl) eq_refl eq_refl eq_refl eq_refl eq_refl)).
Defined.

End ClientErrors.

(** ** The report getters of FinanceReportService *)

Section FinanceReportGetters.
Import JS FinanceReportService.

Lemma parseFinanceReport_result (rt : Runtime) (data : Payload) (meta : Metadata) :
  match parseFinanceReport rt data meta with
  | Return report => completes (decodeContent rt data) /\ metadata report = meta
  | Throw e => decodeContent rt data = Throw e
  end.
Proof.
  unfold parseFinanceReport.
  destruct (decodeContent rt data) as [content|e]; cbn [bind]; [|reflexivity].
  destruct (FinanceService.nonBlankLines content) as [|first rest].
  - split; [exact I|reflexivity].
  - cbv zeta. destruct (fold_left _ rest _) as [rs total]. split; [exact I|reflexivity].
Qed.

(** X26: [getFinancialReport] and [getFinanceDetailReport] reject in two
    cases only, and with the error of the cause: the request rejects, or
    it resolves with a payload whose decompression throws (a gzip buffer
    that zlib refuses).  When they resolve, the metadata of the report
    echoes the report type, the fiscal period asked for, and the region,
    an absent or empty region being ['US'] for the first and ['Z1'] for the
    second, as in the request. *)
Theorem finance_report_getters_reject_iff (svc : Service) (fiscalPeriod : string)
    (regionCode : option string) :
  (forall e,
      getFinancialReport svc fiscalPeriod regionCode = Throw e
      <-> request (client svc) "/financeReports"
            [ ("filter[reportType]", "FINANCIAL");
              ("filter[regionCode]", orS regionCode "US");
              ("filter[reportDate]", fiscalPeriod);
              ("filter[vendorNumber]", vendorNumber svc) ] = Throw e
          \/ exists response,
               request (client svc) "/financeReports"
                 [ ("filter[reportType]", "FINANCIAL");
                   ("filter[regionCode]", orS regionCode "US");
                   ("filter[reportDate]", fiscalPeriod);
                   ("filter[vendorNumber]", vendorNumber svc) ] = Return response
               /\ decodeContent (runtime svc) response = Throw e)
  /\ (forall e,
        getFinanceDetailReport svc fiscalPeriod regionCode = Throw e
        <-> request (client svc) "/financeReports"
              [ ("filter[reportType]", "FINANCE_DETAIL");
                ("filter[regionCode]", orS regionCode "Z1");
                ("filter[reportDate]", fiscalPeriod);
                ("filter[vendorNumber]", vendorNumber svc) ] = Throw e
            \/ exists response,
                 request (client svc) "/financeReports"
                   [ ("filter[reportType]", "FINANCE_DETAIL");
                     ("filter[regionCode]", orS regionCode "Z1");
                     ("filter[reportDate]", fiscalPeriod);
                     ("filter[vendorNumber]", vendorNumber svc) ] = Return response
                 /\ decodeContent (runtime svc) response = Throw e)
  /\ (forall report,
        getFinancialReport svc fiscalPeriod regionCode = Return report ->
        metadata report
        = {| meta_reportType := "FINANCIAL";
             meta_regionCode := orS regionCode "US";
             meta_fiscalPeriod := fiscalPeriod |})
  /\ (forall report,
        getFinanceDetailReport svc fiscalPeriod regionCode = Return report ->
        metadata report
        = {| meta_reportType := "FINANCE_DETAIL";
             meta_regionCode := orS regionCode "Z1";
             meta_fiscalPeriod := fiscalPeriod |}).
Proof.
  unfold getFinancialReport, getFinanceDetailReport, reportParams.
  split; [|split; [|split]].
  - intros e.
    destruct (request (client svc) "/financeReports" _) as [response|e'] eqn:E;
      cbn [bind].
    + pose proof (parseFinanceReport_result (runtime svc) response
                    {| meta_reportType := "FINANCIAL";
                       meta_regionCode := orS regionCode "US";
                       meta_fiscalPeriod := fiscalPeriod |}) as H.
      destruct (parseFinanceReport _ _ _) as [report|e''].
      * destruct H as [Hc _]. split; [discriminate|].
        intros [H|(r & [= <-] & Hd)]; [discriminate|].
        rewrite Hd in Hc. contradiction.
      * split.
        -- intros [= <-]. right. exists response. now split.
        -- intros [H0|(r & [= <-] & Hd)]; [discriminate|]. congruence.
    + split.
      * intros [= <-]. now left.
      * intros [[= <-]|(r & H0 & _)]; [reflexivity|discriminate].
  - intros e.
    destruct (request (client svc) "/financeReports" _) as [response|e'] eqn:E;
      cbn [bind].
    + pose proof (parseFinanceReport_result (runtime svc) response
                    {| meta_reportType := "FINANCE_DETAIL";
                       meta_regionCode := orS regionCode "Z1";
                       meta_fiscalPeriod := fiscalPeriod |}) as H.
      destruct (parseFinanceReport _ _ _) as [report|e''].
      * destruct H as [Hc _]. split; [discriminate|].
        intros [H|(r & [= <-] & Hd)]; [discriminate|].
        rewrite Hd in Hc. contradiction.
      * split.
        -- intros [= <-]. right. exists response. now split.
        -- intros [H0|(r & [= <-] & Hd)]; [discriminate|]. congruence.
    + split.
      * intros [= <-]. now left.
      * intros [[= <-]|(r & H0 & _)]; [reflexivity|discriminate].
  - intros report.
    destruct (request (client svc) "/financeReports" _) as [response|e'];
      cbn [bind]; [|discriminate].
    pose proof (parseFinanceReport_result (runtime svc) response
                  {| meta_reportType := "FINANCIAL";
                     meta_regionCode := orS regionCode "US";
                     meta_fiscalPeriod := fiscalPeriod |}) as H.
    destruct (parseFinanceReport _ _ _) as [r|e'']; [|discriminate].
    intros [= <-]. exact (proj2 H).
  - intros report.
    destruct (request (client svc) "/financeReports" _) as [response|e'];
      cbn [bind]; [|discriminate].
    pose proof (parseFinanceReport_result (runtime svc) response
                  {| meta_reportType := "FINANCE_DETAIL";
                     meta_regionCode := orS regionCode "Z1";
                     meta_fiscalPeriod := fiscalPeriod |}) as H.
    destruct (parseFinanceReport _ _ _) as [r|e'']; [|discriminate].
    intros [= <-]. exact (proj2 H).
Qed.

End FinanceReportGetters.
